(** * Employment certificate generator (demo.py): model and properties

    A shallow embedding of [demo.py].  Python [str] values are sequences of
    Unicode code points, the student directory is a finite map, the document
    is the sequence of body paragraphs that [doc.paragraphs] exposes, and the
    orchestrator runs in a small state-and-exception monad over a world made
    of the console, the file system and the random source. *)

From Stdlib Require Import ZArith NArith List String Ascii Lia.
From stdpp Require Import base option list sorting gmap.
Import ListNotations.

(** ** Python exceptions and results *)

(** [FormatError] stands for whatever a library raises on a file of another
    kind than the one it is asked to read; [OSError] for any refusal of the
    operating system that has no constructor of its own. *)
Inductive exn : Type :=
  | ValueError
  | OverflowError
  | IndexError
  | FileNotFoundError
  | FileExistsError
  | NotADirectoryError
  | IsADirectoryError
  | OSError
  | PackageNotFoundError
  | FormatError.

Inductive result (A : Type) : Type :=
  | Ok (a : A)
  | Raise (e : exn).
Arguments Ok {A} a.
Arguments Raise {A} e.

(** ** Python strings *)

Module PyStr.

(** A [str] is its sequence of code points. *)
Definition str : Type := list N.

(** Literals are written in UTF-8 and decoded to code points. *)
Fixpoint utf8_go (need : nat) (acc : N) (bs : list N) : str :=
  match bs with
  | [] => []
  | b :: bs' =>
      match need with
      | O =>
          if (b <? 128)%N then b :: utf8_go 0 0 bs'
          else if (b <? 224)%N then utf8_go 1 (b - 192) bs'
          else if (b <? 240)%N then utf8_go 2 (b - 224) bs'
          else utf8_go 3 (b - 240) bs'
      | S k =>
          let acc' := (acc * 64 + (b - 128))%N in
          match k with
          | O => acc' :: utf8_go 0 0 bs'
          | S _ => utf8_go k acc' bs'
          end
      end
  end.

Definition u8 (s : string) : str :=
  utf8_go 0 0 (map N_of_ascii (list_ascii_of_string s)).

(** [s.startswith(p)] *)
Fixpoint startswith (s p : str) : bool :=
  match p, s with
  | [], _ => true
  | _ :: _, [] => false
  | a :: p', b :: s' => (a =? b)%N && startswith s' p'
  end.

(** [sub in s] *)
Fixpoint str_contains (s sub : str) : bool :=
  startswith s sub ||
  match s with
  | [] => false
  | _ :: s' => str_contains s' sub
  end.

(** [s.replace(old, new)] for a non-empty [old]: occurrences are found
    from the left and do not overlap.  [skip] counts the characters of an
    occurrence just replaced that are still to be passed over. *)
Fixpoint replace_from (old new : str) (skip : nat) (s : str) : str :=
  match s with
  | [] => []
  | c :: s' =>
      match skip with
      | S k => replace_from old new k s'
      | O =>
          if startswith s old
          then new ++ replace_from old new (length old - 1) s'
          else c :: replace_from old new 0 s'
      end
  end.

(** [s.replace(old, new)]; an empty [old] matches before every character
    and at the end. *)
Definition str_replace (s old new : str) : str :=
  match old with
  | [] => new ++ flat_map (fun c => c :: new) s
  | _ :: _ => replace_from old new 0 s
  end.

(** [c.isspace()] *)
Definition isspace (c : N) : bool :=
  ((9 <=? c) && (c <=? 13) || (28 <=? c) && (c <=? 32)
   || (c =? 133) || (c =? 160) || (c =? 5760)
   || (8192 <=? c) && (c <=? 8202)
   || (c =? 8232) || (c =? 8233) || (c =? 8239) || (c =? 8287)
   || (c =? 12288))%N.

Fixpoint lstrip (s : str) : str :=
  match s with
  | [] => []
  | c :: s' => if isspace c then lstrip s' else s
  end.

Definition rstrip (s : str) : str := rev (lstrip (rev s)).

(** [s.strip()] *)
Definition strip (s : str) : str := rstrip (lstrip s).

(** Truth value of a string: non-empty. *)
Definition truthy (s : str) : bool :=
  match s with [] => false | _ :: _ => true end.

(** The last [width] decimal digits of [n], zero padded. *)
Fixpoint zfill (width : nat) (n : Z) : str :=
  match width with
  | O => []
  | S w => zfill w (n / 10) ++ [Z.to_N (48 + n mod 10)]
  end.

End PyStr.
Import PyStr.
Arguments u8 s%_string.

(** A literal: decoded once, where it is written. *)
Notation "'lit' s" :=
  (ltac:(let v := eval vm_compute in (u8 s%string) in exact v))
  (at level 10, s at level 0, only parsing).

(** ** [datetime] (dates only: the time of day is always midnight here) *)

Module PyDate.
Local Open Scope Z_scope.

Record datetime : Type := mk_datetime { year : Z; month : Z; day : Z }.

Definition DAYS_IN_MONTH : list Z :=
  [-1; 31; 28; 31; 30; 31; 30; 31; 31; 30; 31; 30; 31].

Definition DAYS_BEFORE_MONTH : list Z :=
  [-1; 0; 31; 59; 90; 120; 151; 181; 212; 243; 273; 304; 334].

Definition is_leap (y : Z) : bool :=
  (y mod 4 =? 0) && (negb (y mod 100 =? 0) || (y mod 400 =? 0)).

Definition days_before_year (y : Z) : Z :=
  let y := y - 1 in y * 365 + y / 4 - y / 100 + y / 400.

Definition days_in_month (y m : Z) : Z :=
  if (m =? 2) && is_leap y then 29
  else nth (Z.to_nat m) DAYS_IN_MONTH 0.

Definition days_before_month (y m : Z) : Z :=
  nth (Z.to_nat m) DAYS_BEFORE_MONTH 0
  + (if (2 <? m) && is_leap y then 1 else 0).

Definition ymd2ord (y m d : Z) : Z :=
  days_before_year y + days_before_month y m + d.

Definition DI400Y : Z := days_before_year 401.
Definition DI100Y : Z := days_before_year 101.
Definition DI4Y : Z := days_before_year 5.

Definition ord2ymd (n : Z) : datetime :=
  let n := n - 1 in
  let n400 := n / DI400Y in
  let n := n mod DI400Y in
  let y := n400 * 400 + 1 in
  let n100 := n / DI100Y in
  let n := n mod DI100Y in
  let n4 := n / DI4Y in
  let n := n mod DI4Y in
  let n1 := n / 365 in
  let n := n mod 365 in
  let y := y + n100 * 100 + n4 * 4 + n1 in
  if (n1 =? 4) || (n100 =? 4) then mk_datetime (y - 1) 12 31
  else
    let leapyear := (n1 =? 3) && (negb (n4 =? 24) || (n100 =? 3)) in
    let m := Z.shiftr (n + 50) 5 in
    let preceding :=
      nth (Z.to_nat m) DAYS_BEFORE_MONTH 0
      + (if (2 <? m) && leapyear then 1 else 0) in
    if n <? preceding then
      let m := m - 1 in
      let preceding :=
        preceding
        - (nth (Z.to_nat m) DAYS_IN_MONTH 0
           + (if (m =? 2) && leapyear then 1 else 0)) in
      mk_datetime y m (n - preceding + 1)
    else mk_datetime y m (n - preceding + 1).

Definition MINYEAR : Z := 1.
Definition MAXYEAR : Z := 9999.
Definition MAXORDINAL : Z := 3652059.

(** The arguments of [datetime] are converted to C [int]s first. *)
Definition fits_int (x : Z) : bool := (- 2 ^ 31 <=? x) && (x <? 2 ^ 31).

(** [datetime(y, m, d)]: [OverflowError] for an argument that is no C
    [int], [ValueError] for one out of range. *)
Definition datetime_new (y m d : Z) : result datetime :=
  if negb (fits_int y && fits_int m && fits_int d) then Raise OverflowError
  else if negb ((MINYEAR <=? y) && (y <=? MAXYEAR)) then Raise ValueError
  else if negb ((1 <=? m) && (m <=? 12)) then Raise ValueError
  else if negb ((1 <=? d) && (d <=? days_in_month y m)) then Raise ValueError
  else Ok (mk_datetime y m d).

Definition toordinal (dt : datetime) : Z :=
  ymd2ord (year dt) (month dt) (day dt).

(** [dt.weekday()]: Monday is 0 and Sunday is 6. *)
Definition weekday (dt : datetime) : Z := (toordinal dt + 6) mod 7.

(** [dt + timedelta(days=i)] *)
Definition add_days (dt : datetime) (i : Z) : result datetime :=
  let o := toordinal dt + i in
  if (0 <? o) && (o <=? MAXORDINAL) then Ok (ord2ymd o)
  else Raise OverflowError.

(** [%Y] as the C library under CPython prints it: the year in decimal
    without padding, so four digits from the year 1000 on and fewer
    before. *)
Definition year_text (y : Z) : str :=
  if y <? 10 then zfill 1 y
  else if y <? 100 then zfill 2 y
  else if y <? 1000 then zfill 3 y
  else zfill 4 y.

(** [dt.strftime('%Y年%m月%d日')] *)
Definition strftime_cn (dt : datetime) : str :=
  year_text (year dt) ++ lit "年" ++ zfill 2 (month dt) ++ lit "月"
  ++ zfill 2 (day dt) ++ lit "日".

(** [dt.strftime('%Y-%m-%d')] *)
Definition strftime_iso (dt : datetime) : str :=
  year_text (year dt) ++ lit "-" ++ zfill 2 (month dt) ++ lit "-"
  ++ zfill 2 (day dt).

(** [range(a, b)] *)
Definition range (a b : Z) : list Z := seqZ a (b - a).

End PyDate.
Import PyDate.

(** ** The python-docx objects the script touches *)

Module Docx.

(** Run-level font attributes: [font.name], [font.size] (in EMU) and the
    [w:eastAsia] attribute of [rFonts]. *)
Record Font : Type := mk_font {
  font_name : option str;
  font_size : option Z;
  font_east_asia : option str
}.

Record Run : Type := mk_run { run_text : str; run_font : Font }.

Record Paragraph : Type := mk_paragraph { runs : list Run }.

(** A document, seen through [doc.paragraphs]. *)
Record Document : Type := mk_document { paragraphs : list Paragraph }.

(** [para.text] (getter): the run texts, concatenated. *)
Definition para_text (para : Paragraph) : str :=
  concat (map run_text (runs para)).

(** A carriage return written to a run becomes a line break, which reads
    back as a line feed. *)
Definition br_char (c : N) : N := if (c =? 13)%N then 10%N else c.

(** No character of [s] is a line feed or a carriage return. *)
Definition break_free (s : str) : bool :=
  forallb (λ c, negb (c =? 10)%N && negb (c =? 13)%N) s.

Definition no_font : Font := mk_font None None None.

(** The characters XML text may hold: tab, line feed, carriage return and
    everything from the space on, except the surrogates, U+FFFE and
    U+FFFF. *)
Definition xml_char (c : N) : bool :=
  ((c =? 9) || (c =? 10) || (c =? 13)
   || (32 <=? c) && (c <=? 55295)
   || (57344 <=? c) && (c <=? 65533)
   || (65536 <=? c) && (c <=? 1114111))%N.

Definition xml_text (s : str) : bool := forallb xml_char s.

(** [para.text = text] (setter): all runs are dropped and one fresh,
    unformatted run holds the text.  A text that XML cannot hold (a NUL,
    another control character, a lone surrogate) is refused with
    [ValueError]. *)
Definition set_para_text (para : Paragraph) (text : str) : result Paragraph :=
  if xml_text text then Ok (mk_paragraph [mk_run (map br_char text) no_font])
  else Raise ValueError.

(** Every run of the paragraph holds XML text, as in any document read from
    a file or built through the library. *)
Definition well_formed_paragraph (para : Paragraph) : bool :=
  forallb (λ run, xml_text (run_text run)) (runs para).

Definition well_formed (doc : Document) : bool :=
  forallb well_formed_paragraph (paragraphs doc).

(** [Pt(n)] in English Metric Units. *)
Definition Pt (n : Z) : Z := (n * 12700)%Z.

Definition set_font_name (run : Run) (v : str) : Run :=
  let f := run_font run in
  mk_run (run_text run) (mk_font (Some v) (font_size f) (font_east_asia f)).

Definition set_font_size (run : Run) (v : Z) : Run :=
  let f := run_font run in
  mk_run (run_text run) (mk_font (font_name f) (Some v) (font_east_asia f)).

(** [run._element.rPr.rFonts.set(qn('w:eastAsia'), v)] *)
Definition set_east_asia (run : Run) (v : str) : Run :=
  let f := run_font run in
  mk_run (run_text run) (mk_font (font_name f) (font_size f) (Some v)).

End Docx.
Import Docx.

(** ** The world the script runs in *)

Module Sys.

(** A row of the DataFrame that [pd.read_excel] returns, by column: 姓名,
    性别, 身份证号, 专业.  The name is the text of its cell and the other
    fields are the text an f-string prints for theirs; how pandas arrives
    at the cells from the sheet (it types every column as a whole) lies
    before the model. *)
Record Row : Type := mk_row {
  row_name : str;
  row_gender : str;
  row_id_card : str;
  row_major : str
}.

(** A file, by what its reader makes of it: the decoded text, the
    DataFrame, the document. *)
Inductive File : Type :=
  | TextFile (content : str)
  | ExcelFile (df : list Row)
  | DocxFile (doc : Document).

(** The world: what has been printed, the files and the folders, each
    listed under the path the script names it by, and the number of random
    draws made.  Paths are compared as written. *)
Record World : Type := mk_world {
  stdout : list str;
  files : gmap str File;
  dirs : gset str;
  draws : nat
}.

(** Commands: they read and change the world, and may raise. *)
Definition M (A : Type) : Type := World → result (A * World).

#[export] Instance M_ret : MRet M := λ A a w, Ok (a, w).

#[export] Instance M_bind : MBind M := λ A B f m w,
  match m w with
  | Ok (a, w') => f a w'
  | Raise e => Raise e
  end.

Definition raise {A : Type} (e : exn) : M A := λ _, Raise e.

Definition lift {A : Type} (r : result A) : M A := λ w,
  match r with
  | Ok a => Ok (a, w)
  | Raise e => Raise e
  end.

(** [print(line)] *)
Definition print (line : str) : M unit := λ w,
  Ok (tt, mk_world (stdout w ++ [line]) (files w) (dirs w) (draws w)).

(** The text of [open(path, 'r', encoding='utf-8')], as the file object
    hands it out. *)
Definition open_read (path : str) : M str := λ w,
  match files w !! path with
  | Some (TextFile content) => Ok (content, w)
  | Some _ => Raise FormatError
  | None =>
      if bool_decide (path ∈ dirs w) then Raise IsADirectoryError
      else Raise FileNotFoundError
  end.

(** [pd.read_excel(path)]: the DataFrame of the file. *)
Definition read_excel (path : str) : M (list Row) := λ w,
  match files w !! path with
  | Some (ExcelFile df) => Ok (df, w)
  | Some _ => Raise FormatError
  | None =>
      if bool_decide (path ∈ dirs w) then Raise IsADirectoryError
      else Raise FileNotFoundError
  end.

(** [Document(path)]: a fresh document object on every call.  Where there
    is nothing, or a file that is no package, the library raises its own
    [PackageNotFoundError]. *)
Definition load_document (path : str) : M Document := λ w,
  match files w !! path with
  | Some (DocxFile doc) => Ok (doc, w)
  | Some (TextFile _) => Raise PackageNotFoundError
  | Some (ExcelFile _) => Raise FormatError
  | None =>
      if bool_decide (path ∈ dirs w) then Raise FormatError
      else Raise PackageNotFoundError
  end.

(** [os.path.dirname(path)] on a POSIX system: the part before the last
    slash, without trailing slashes unless it consists of slashes only. *)
Fixpoint rfind_slash (path : str) : option (str * str) :=
  match path with
  | [] => None
  | c :: rest =>
      match rfind_slash rest with
      | Some (head, tail) => Some (c :: head, tail)
      | None => if (c =? 47)%N then Some ([c], rest) else None
      end
  end.

Fixpoint rstrip_slashes_rev (s : str) : str :=
  match s with
  | [] => []
  | c :: s' => if (c =? 47)%N then rstrip_slashes_rev s' else s
  end.

Definition dirname (path : str) : str :=
  match rfind_slash path with
  | None => []
  | Some (head, _) =>
      if forallb (λ c, (c =? 47)%N) head then head
      else rev (rstrip_slashes_rev (rev head))
  end.

(** The components of a path: the pieces between slashes. *)
Fixpoint components (path : str) : list str :=
  match path with
  | [] => [[]]
  | c :: rest =>
      if (c =? 47)%N then [] :: components rest
      else
        match components rest with
        | [] => [[c]]
        | comp :: comps => (c :: comp) :: comps
        end
  end.

(** A path that names its file in one way only: it is relative and none of
    its components is empty, [.] or [..].  Paths are not resolved here, so
    what is stated about the files a run writes is stated for such
    paths. *)
Definition direct (path : str) : bool :=
  forallb
    (λ comp, negb (bool_decide (comp = []) || bool_decide (comp = [46%N])
                   || bool_decide (comp = [46%N; 46%N])))
    (components path).

(** [os.path.exists(path)] *)
Definition os_path_exists (path : str) : M bool := λ w,
  Ok (bool_decide (path ∈ dirs w) || bool_decide (is_Some (files w !! path)),
      w).

(** What the model leaves open.
    - [env_torn para text]: what the library leaves of a paragraph whose
      text setter raised on [text];
    - [env_allows path]: whether the operating system lets the script
      create what it wants at a path whose folder is there (file names
      have a longest length, folders have permissions, disks fill up);
    - [env_indirect w path doc]: what becomes of a save under a path that
      is not direct, where the file ends up under another name or
      nowhere: the files afterwards, or the exception. *)
Record Env : Type := mk_env {
  env_torn : Paragraph → str → Paragraph;
  env_allows : str → bool;
  env_indirect : World → str → Document → result (gmap str File)
}.

Section Writing.

Variable env : Env.

(** [doc.save(path)]: the file is opened for writing, which needs the
    folder it lies in; a path without a folder part lies in the working
    directory. *)
Definition save_document (doc : Document) (path : str) : M unit := λ w,
  if bool_decide (0%N ∈ path) then Raise ValueError
  else if negb (direct path) then
    match env_indirect env w path doc with
    | Ok files' => Ok (tt, mk_world (stdout w) files' (dirs w) (draws w))
    | Raise e => Raise e
    end
  else if negb (bool_decide (dirname path = [])
                || bool_decide (dirname path ∈ dirs w))
  then
    if bool_decide (is_Some (files w !! dirname path))
    then Raise NotADirectoryError
    else Raise FileNotFoundError
  else if bool_decide (path ∈ dirs w) then Raise IsADirectoryError
  else if negb (env_allows env path) then Raise OSError
  else
    Ok (tt, mk_world (stdout w) (<[path := DocxFile doc]> (files w))
                     (dirs w) (draws w)).

(** [os.makedirs(path)], for a direct path of one component. *)
Definition os_makedirs (path : str) : M unit := λ w,
  if bool_decide (path ∈ dirs w) || bool_decide (is_Some (files w !! path))
  then Raise FileExistsError
  else if negb (env_allows env path) then Raise OSError
  else Ok (tt, mk_world (stdout w) (files w) ({[path]} ∪ dirs w) (draws w)).

End Writing.

(** [os.path.join(a, b)] on a POSIX system. *)
Definition os_path_join (a b : str) : str :=
  if startswith b (lit "/") then b
  else if negb (truthy a) || startswith (rev a) (lit "/") then a ++ b
  else a ++ lit "/" ++ b.

(** [for x in l: body(x)] *)
Fixpoint for_each {A : Type} (l : list A) (body : A → M unit) : M unit :=
  match l with
  | [] => mret tt
  | x :: l' => body x ≫= λ _, for_each l' body
  end.

(** The lines a text file object yields when iterated: each keeps its
    line feed, the last one may lack it. *)
Fixpoint iter_lines (content : str) : list str :=
  match content with
  | [] => []
  | c :: rest =>
      if (c =? 10)%N then [c] :: iter_lines rest
      else
        match iter_lines rest with
        | [] => [[c]]
        | line :: lines => (c :: line) :: lines
        end
  end.

End Sys.
Import Sys.

(** ** demo.py *)

Module Demo.

(** The value stored per student: the dict with keys 性别, 身份证号, 专业. *)
Record StudentRecord : Type := mk_info {
  info_gender : str;
  info_id_card : str;
  info_major : str
}.

(** [read_name_list] *)
Definition read_name_list (file_path : str) : M (list str) :=
  f ← open_read file_path;
  mret (map strip (List.filter (λ line, truthy (strip line)) (iter_lines f))).

(** [read_student_info] *)
Definition read_student_info (file_path : str) : M (gmap str StudentRecord) :=
  df ← read_excel file_path;
  mret (fold_left
          (λ student_info row,
             <[row_name row :=
                 mk_info (row_gender row) (row_id_card row) (row_major row)]>
               student_info)
          df ∅).

Definition is_workday (d : datetime) : bool := (weekday d <? 5)%Z.

(** First loop of [get_workdays]: [start_date + timedelta(days=i)]. *)
Fixpoint first_half_loop (start_date : datetime) (idxs : list Z)
    (first_half_workdays : list datetime) : result (list datetime) :=
  match idxs with
  | [] => Ok first_half_workdays
  | i :: idxs' =>
      match add_days start_date i with
      | Raise e => Raise e
      | Ok current_date =>
          first_half_loop start_date idxs'
            (if is_workday current_date
             then first_half_workdays ++ [current_date]
             else first_half_workdays)
      end
  end.

(** Second loop of [get_workdays]: [datetime(2025, 7, i)], leaving the loop
    at the first [ValueError]. *)
Fixpoint second_half_loop (idxs : list Z)
    (second_half_workdays : list datetime) : result (list datetime) :=
  match idxs with
  | [] => Ok second_half_workdays
  | i :: idxs' =>
      match datetime_new 2025 7 i with
      | Raise ValueError => Ok second_half_workdays
      | Raise e => Raise e
      | Ok current_date =>
          second_half_loop idxs'
            (if is_workday current_date
             then second_half_workdays ++ [current_date]
             else second_half_workdays)
      end
  end.

(** [get_workdays] *)
Definition get_workdays : result (list datetime * list datetime) :=
  match datetime_new 2025 7 1 with
  | Raise e => Raise e
  | Ok start_date =>
      match first_half_loop start_date (range 0 15) [] with
      | Raise e => Raise e
      | Ok first_half_workdays =>
          match second_half_loop (range 16 32) [] with
          | Raise e => Raise e
          | Ok second_half_workdays =>
              Ok (first_half_workdays, second_half_workdays)
          end
      end
  end.

Definition target_texts : list str :=
  [ lit "****，男/女，系湖南理工学院信息科学与工程学院*****专业2025届毕业生（身份证号：******）";
    lit "**年**月**日";
    lit "年   月   日" ].

(** [target_texts[i]] *)
Definition target (i : nat) : str := nth i target_texts [].

(** The f-string that replaces the identity block. *)
Definition new_text (name gender id_card major : str) : str :=
  name ++ lit "，" ++ gender ++ lit "，系湖南理工学院信息科学与工程学院"
  ++ major ++ lit "专业2025届毕业生（身份证号：" ++ id_card ++ lit "）".

Definition songti : str := lit "宋体".

(** Body of the inner [for run in para.runs] loop. *)
Definition set_run_font (run : Run) : Run :=
  set_east_asia (set_font_size (set_font_name run songti) (Pt 16)) songti.

Section Filler.

(** The document is changed in place, so what has been done to it by the
    time an exception is raised stays done.  The filler is modelled by
    the document it leaves behind together with the exception, if any.
    What the library leaves of the one paragraph whose setter raised is
    its own affair: [torn para text]. *)
Variable torn : Paragraph → str → Paragraph.

(** [para.text = text] within the loop. *)
Definition assign_text (para : Paragraph) (text : str)
    : Paragraph * option exn :=
  match set_para_text para text with
  | Ok para' => (para', None)
  | Raise e => (torn para text, Some e)
  end.

(** [if old in para.text: para.text = para.text.replace(old, new)] *)
Definition replace_target (para : Paragraph) (old new : str)
    : Paragraph * option exn :=
  if str_contains (para_text para) old
  then assign_text para (str_replace (para_text para) old new)
  else (para, None).

(** Body of the loop over [doc.paragraphs]. *)
Definition replace_in_paragraph (para : Paragraph)
    (name gender id_card major : str) (join_date issue_date : datetime)
    : Paragraph * option exn :=
  if existsb (λ text, str_contains (para_text para) text) target_texts then
    match replace_target para (target 0)
            (new_text name gender id_card major) with
    | (para, Some e) => (para, Some e)
    | (para, None) =>
        match replace_target para (target 1) (strftime_cn join_date) with
        | (para, Some e) => (para, Some e)
        | (para, None) =>
            match replace_target para (target 2)
                    (strftime_cn issue_date) with
            | (para, Some e) => (para, Some e)
            | (para, None) =>
                (mk_paragraph (map set_run_font (runs para)), None)
            end
        end
    end
  else (para, None).

(** The loop over [doc.paragraphs]: it ends at the first exception, with
    the paragraphs behind it untouched. *)
Fixpoint fill_paragraphs (paras : list Paragraph)
    (name gender id_card major : str) (join_date issue_date : datetime)
    : list Paragraph * option exn :=
  match paras with
  | [] => ([], None)
  | para :: paras' =>
      match replace_in_paragraph para name gender id_card major
              join_date issue_date with
      | (para', Some e) => (para' :: paras', Some e)
      | (para', None) =>
          let '(rest, e) :=
            fill_paragraphs paras' name gender id_card major
              join_date issue_date in
          (para' :: rest, e)
      end
  end.

(** [replace_placeholders]: the document after the call, and the
    exception the call raised, if any. *)
Definition replace_placeholders (doc : Document)
    (name gender id_card major : str) (join_date issue_date : datetime)
    : Document * option exn :=
  let '(paras, e) :=
    fill_paragraphs (paragraphs doc) name gender id_card major
      join_date issue_date in
  (mk_document paras, e).

End Filler.

Definition output_dir : str := lit "用工证明生成文件".

(** The path a student's certificate is saved under. *)
Definition output_path (name : str) : str :=
  os_path_join output_dir (name ++ lit ".doc").

(** The line printed for a roster name the directory lacks. *)
Definition warning (name : str) : str :=
  lit "警告：未找到" ++ name ++ lit "的信息，跳过该学生".

Section Script.

(** The random source: the [k]-th draw of the run. *)
Variable rng : nat → nat.
(** [repr] of a list of strings and of a student's dict, as f-strings
    print them. *)
Variable repr_list : list str → str.
Variable repr_info : StudentRecord → str.
(** What the model leaves open. *)
Variable env : Env.

(** [random.choice(seq)] *)
Definition random_choice {A : Type} (seq : list A) : M A := λ w,
  match seq !! (rng (draws w) mod length seq)%nat with
  | Some x =>
      Ok (x, mk_world (stdout w) (files w) (dirs w) (S (draws w)))
  | None => Raise IndexError
  end.

(** Body of the loop over the roster. *)
Definition process_name (student_info : gmap str StudentRecord)
    (first_half second_half : list datetime) (template_path : str)
    (name : str) : M unit :=
  match student_info !! name with
  | None => print (warning name)
  | Some info =>
      print (lit "找到" ++ name ++ lit "的信息: " ++ repr_info info);;
      join_date ← random_choice first_half;
      issue_date ← random_choice second_half;
      doc ← load_document template_path;
      match replace_placeholders (env_torn env) doc name (info_gender info)
              (info_id_card info) (info_major info) join_date issue_date with
      | (_, Some e) => raise e
      | (doc, None) =>
          found ← os_path_exists output_dir;
          (if (found : bool) then mret tt
           else os_makedirs env output_dir;;
                print (lit "已创建子文件夹：" ++ output_dir));;
          save_document env doc (output_path name);;
          print (lit "已生成：" ++ output_path name)
      end
  end.

(** [process_certificates] *)
Definition process_certificates
    (name_list_path student_info_path template_path : str) : M unit :=
  names ← read_name_list name_list_path;
  print (lit "读取到的姓名列表: " ++ repr_list names);;
  student_info ← read_student_info student_info_path;
  '(first_half, second_half) ← lift get_workdays;
  print (lit "7月上半月工作日: " ++ repr_list (map strftime_iso first_half));;
  print (lit "7月下半月工作日: " ++ repr_list (map strftime_iso second_half));;
  for_each names
    (process_name student_info first_half second_half template_path).

End Script.

End Demo.
Import Demo.

(** ** The behaviour the specification words describe *)

Module Spec.

(** The lines of a text: the pieces between line feeds. *)
Fixpoint split_lines (content : str) : list str :=
  match content with
  | [] => [[]]
  | c :: rest =>
      if (c =? 10)%N then [] :: split_lines rest
      else
        match split_lines rest with
        | [] => [[c]]
        | line :: lines => (c :: line) :: lines
        end
  end.

(** A string that neither starts nor ends with white space. *)
Definition trimmed (s : str) : bool :=
  match s with [] => true | c :: _ => negb (isspace c) end
  && match rev s with [] => true | c :: _ => negb (isspace c) end.

(** Roster: every line trimmed, the empty ones dropped, order kept. *)
Definition roster_of (content : str) : list str :=
  List.filter truthy (map strip (split_lines content)).

(** Directory: the record of the last row bearing the name. *)
Definition last_row_named (name : str) (df : list Row) : option Row :=
  last (List.filter (λ row, bool_decide (row_name row = name)) df).

Definition record_of (row : Row) : StudentRecord :=
  mk_info (row_gender row) (row_id_card row) (row_major row).

(** Entering one row into the directory. *)
Definition add_row (student_info : gmap str StudentRecord) (row : Row)
    : gmap str StudentRecord :=
  <[row_name row := record_of row]> student_info.

(** Independent replacement: one pass over the original text, every
    marker found there gives way to its own replacement, and replacement
    text is never looked at again. *)
Fixpoint replace_all_from (subs : list (str * str)) (skip : nat) (s : str)
    : str :=
  match s with
  | [] => []
  | c :: s' =>
      match skip with
      | S k => replace_all_from subs k s'
      | O =>
          match List.find (λ sub, startswith s (fst sub)) subs with
          | Some (old, new) =>
              new ++ replace_all_from subs (length old - 1) s'
          | None => c :: replace_all_from subs 0 s'
          end
      end
  end.

Definition replace_independently (text : str)
    (name gender id_card major : str) (join_date issue_date : datetime)
    : str :=
  replace_all_from
    [ (target 0, new_text name gender id_card major);
      (target 1, strftime_cn join_date);
      (target 2, strftime_cn issue_date) ]
    0 text.

(** The paragraph text that sequential replacement yields: each marker in
    turn over the text the previous replacement left. *)
Definition replace_in_turn (text : str)
    (name gender id_card major : str) (join_date issue_date : datetime)
    : str :=
  str_replace
    (str_replace
       (str_replace text (target 0) (new_text name gender id_card major))
       (target 1) (strftime_cn join_date))
    (target 2) (strftime_cn issue_date).

(** The markers that occur in a text. *)
Definition markers_in (text : str) : list str :=
  List.filter (λ m, str_contains text m) target_texts.

(** In [pre ++ target k ++ post] the marker [k] occurs once, and no other
    marker occurs there or in the text with [repl] in its place. *)
Definition sole_marker (k : nat) (pre post repl : str) : bool :=
  negb (str_contains (pre ++ removelast (target k)) (target k))
  && negb (str_contains post (target k))
  && forallb
       (λ j, (j =? k)%nat
             || negb (str_contains (pre ++ target k ++ post) (target j))
                && negb (str_contains (pre ++ repl ++ post) (target j)))
       [0; 1; 2]%nat.

(** How often a string occurs in a list of strings. *)
Definition count (x : str) (l : list str) : nat :=
  length (List.filter (λ y, bool_decide (y = x)) l).


(** The characters the markers begin with: an asterisk or 年. *)
Definition marker_lead (c : N) : bool := ((c =? 42) || (c =? 24180))%N.

(** Fields that cannot be mistaken for part of a marker: no asterisk and no
    年 in any of them, and the name does not begin with 月, 日 or a space. *)
Definition benign (name gender id_card major : str) : bool :=
  forallb (λ c, negb (marker_lead c)) (name ++ gender ++ id_card ++ major)
  && match name with
     | [] => true
     | c :: _ => negb ((c =? 26376) || (c =? 26085) || (c =? 32))%N
     end.

(** [u] and [m] differ at a position both have. *)
Fixpoint mismatch (u m : str) : bool :=
  match u, m with
  | a :: u', b :: m' => negb (b =? a)%N || mismatch u' m'
  | _, _ => false
  end.

(** The non-empty suffixes of a string. *)
Fixpoint suffixes (s : str) : list str :=
  match s with
  | [] => []
  | _ :: s' => s :: suffixes s'
  end.

(** No occurrence of [m] can begin inside a copy of [block], whatever
    follows it. *)
Definition cannot_begin_in (m block : str) : bool :=
  forallb (λ u, mismatch u m) (suffixes block).

(** What the run prints for one roster entry: the warning and nothing else
    if the directory lacks the name, and no warning at all otherwise. *)
Definition entry_output (student_info : gmap str StudentRecord)
    (name : str) (lines : list str) : Prop :=
  match student_info !! name with
  | None => lines = [warning name]
  | Some _ => Forall (λ line, ∀ n, line ≠ warning n) lines
  end.

(** The paragraph a text setter leaves when it takes the text. *)
Definition text_set (text : str) : Paragraph :=
  mk_paragraph [mk_run (map br_char text) no_font].

(** One guarded replacement whose setter takes the text. *)
Definition rewritten (para : Paragraph) (old new : str) : Paragraph :=
  if str_contains (para_text para) old
  then text_set (str_replace (para_text para) old new)
  else para.

(** The paragraph the loop body leaves when no setter raises. *)
Definition filled_paragraph (para : Paragraph)
    (name gender id_card major : str) (join_date issue_date : datetime)
    : Paragraph :=
  if existsb (λ text, str_contains (para_text para) text) target_texts then
    let para := rewritten para (target 0)
                  (new_text name gender id_card major) in
    let para := rewritten para (target 1) (strftime_cn join_date) in
    let para := rewritten para (target 2) (strftime_cn issue_date) in
    mk_paragraph (map set_run_font (runs para))
  else para.

(** Name, gender, identity number and major are text XML can hold. *)
Definition xml_fields (name gender id_card major : str) : bool :=
  xml_text name && xml_text gender && xml_text id_card && xml_text major.

(** A list of lines as a file object yields them: every line but the
    last gets its line feed, an empty last line is not a line. *)
Fixpoint with_line_feeds (lines : list str) : list str :=
  match lines with
  | [] => []
  | [line] => if truthy line then [line] else []
  | line :: lines' => (line ++ [10%N]) :: with_line_feeds lines'
  end.

End Spec.
Import Spec.

(** ** Sample inputs *)

Module Sample.

Definition heiti_22 : Font :=
  mk_font (Some (lit "黑体")) (Some (Pt 22)) (Some (lit "黑体")).

Definition title : Paragraph :=
  mk_paragraph [mk_run (lit "用工") heiti_22; mk_run (lit "证明") heiti_22].

Definition identity_para : Paragraph :=
  mk_paragraph
    [mk_run (lit "兹证明") no_font; mk_run (target 0) heiti_22;
     mk_run (lit "。") no_font].

Definition join_para : Paragraph :=
  mk_paragraph [mk_run (lit "该生于" ++ target 1 ++ lit "入职。") no_font].

Definition issue_para : Paragraph :=
  mk_paragraph [mk_run (target 2) no_font].

(** A template in the shape the script expects. *)
Definition template : Document :=
  mk_document [title; identity_para; join_para; issue_para].

(** A paragraph that carries the identity block and the join date. *)
Definition two_marker_para : Paragraph :=
  mk_paragraph [mk_run (target 0 ++ target 1) no_font].

Definition zhang_san : str := lit "张三".
Definition male : str := lit "男".
Definition software : str := lit "软件工程".
Definition id_430 : str := lit "430XXXXXXXXXXXXXXX".
Definition jul_03 : datetime := mk_datetime 2025 7 3.
Definition jul_17 : datetime := mk_datetime 2025 7 17.

Definition li_si : Row := mk_row (lit "李四") (lit "女") (lit "431") (lit "通信").
Definition zhang_old : Row := mk_row zhang_san (lit "女") (lit "000") (lit "数学").
Definition zhang_new : Row := mk_row zhang_san male id_430 software.

Definition sheet : list Row := [zhang_old; li_si; zhang_new].

Definition names_txt : str :=
  Eval vm_compute in
    lit "  张三 " ++ [10%N; 10%N; 9%N; 10%N] ++ lit "王五" ++ [10%N]
    ++ lit "李四".

Definition names_path : str := lit "名单.txt".
Definition sheet_path : str := lit "学生信息年级总表.xlsx".
Definition template_path : str := lit "用工证明[模板]".

Definition world : World :=
  mk_world []
    (<[names_path := TextFile names_txt]>
       (<[sheet_path := ExcelFile sheet]>
          (<[template_path := DocxFile template]> ∅)))
    ∅ 0.

(** A library that leaves a paragraph as it was when its setter raises,
    and an operating system that lets every direct path be written and no
    other. *)
Definition env : Env :=
  mk_env (λ para _, para) (λ _, true) (λ _ _ _, Raise OSError).

(** The same world with another name list and another table. *)
Definition world_of (roster : str) (table : list Row) : World :=
  mk_world []
    (<[names_path := TextFile roster]>
       (<[sheet_path := ExcelFile table]>
          (<[template_path := DocxFile template]> ∅)))
    ∅ 0.

(** A name list that names 王五 twice. *)
Definition wang_twice : str :=
  Eval vm_compute in
    lit "王五" ++ [10%N] ++ lit "张三" ++ [10%N] ++ lit "王五".

(** A student whose name contains a slash. *)
Definition a_slash_b : Row := mk_row (lit "a/b") male id_430 software.

(** A student whose name contains a control character. *)
Definition bell : Row := mk_row [7%N] male id_430 software.

End Sample.

(** ** demo.py: the script's entry point *)

Module Entry.

Definition name_list_path : str := lit "名单.txt".
Definition student_info_path : str := lit "学生信息年级总表.xlsx".
Definition template_path : str := lit "用工证明[模板]".

(** The line printed for an input that is not there. *)
Definition missing (path : str) : str := lit "错误：找不到文件 " ++ path.

Section Main.

Variable rng : nat → nat.
Variable repr_list : list str → str.
Variable repr_info : StudentRecord → str.
Variable env : Env.

(** The [if __name__ == "__main__":] block. *)
Definition main : M unit :=
  found ← os_path_exists name_list_path;
  if negb found then print (missing name_list_path)
  else
    found ← os_path_exists student_info_path;
    if negb found then print (missing student_info_path)
    else
      found ← os_path_exists template_path;
      if negb found then print (missing template_path)
      else
        process_certificates rng repr_list repr_info env name_list_path
          student_info_path template_path.

End Main.

End Entry.

(** ** Notions used to state further properties *)

Module Notions.

(** ["\n".join(names)] *)
Fixpoint join_lines (names : list str) : str :=
  match names with
  | [] => []
  | [name] => name
  | name :: names' => name ++ [10%N] ++ join_lines names'
  end.

(** A string without a line feed. *)
Definition single_line (s : str) : bool := forallb (λ c, negb (c =? 10)%N) s.

(** The roster entries that have a directory entry, in roster order. *)
Definition matched_names (student_info : gmap str StudentRecord)
    (names : list str) : list str :=
  List.filter (λ name, bool_decide (is_Some (student_info !! name))) names.

(** The line printed when the output folder is created. *)
Definition folder_created : str := lit "已创建子文件夹：" ++ output_dir.

(** [os.path.exists(path)] as a property of a world. *)
Definition exists_in (w : World) (path : str) : bool :=
  bool_decide (path ∈ dirs w) || bool_decide (is_Some (files w !! path)).

(** The folders there are once the script has seen to its output folder:
    it creates the folder unless something is at its path already. *)
Definition folders_then (w : World) : gset str :=
  if exists_in w output_dir then dirs w else {[output_dir]} ∪ dirs w.

(** A document can be saved under [path] once the output folder has been
    seen to: the path is direct, the folder it lies in is there (or the
    path has no folder part), the path is not itself a folder, and the
    operating system lets the file be written. *)
Definition can_save (env : Env) (w : World) (path : str) : bool :=
  direct path
  && (bool_decide (dirname path = [])
      || bool_decide (dirname path ∈ folders_then w))
  && negb (bool_decide (path ∈ folders_then w))
  && env_allows env path.

(** The certificate of [name] can be produced in world [w]: the filler
    takes the student's fields, the output folder is there or may be
    created, and the certificate can be saved. *)
Definition can_produce (env : Env) (w : World) (name : str)
    (info : StudentRecord) : bool :=
  xml_fields name (info_gender info) (info_id_card info) (info_major info)
  && (exists_in w output_dir || env_allows env output_dir)
  && can_save env w (output_path name).

(** A well-formed template is there. *)
Definition template_ready (w : World) (template_path : str) : Prop :=
  ∃ template,
    files w !! template_path = Some (DocxFile template)
    ∧ well_formed template = true.

(** The lines printed for a roster entry that has a directory entry, in a
    world where the output folder is there ([found]) or not. *)
Definition certificate_lines (repr_info : StudentRecord → str)
    (name : str) (info : StudentRecord) (found : bool) : list str :=
  [lit "找到" ++ name ++ lit "的信息: " ++ repr_info info]
  ++ (if found then [] else [folder_created])
  ++ [lit "已生成：" ++ output_path name].

End Notions.
Import Notions.

(** * Properties *)

(** ** Strings *)

Section StrFacts.

Implicit Types s p old new pre post : str.

Lemma startswith_nil s : startswith s [] = true.
Proof. by destruct s. Qed.

Lemma startswith_app p s : startswith (p ++ s) p = true.
Proof.
  induction p as [|a p IH]; simpl; [apply startswith_nil|].
  by rewrite N.eqb_refl.
Qed.

Lemma startswith_prefix s p : startswith s p = true ↔ ∃ r, s = p ++ r.
Proof.
  split.
  - revert s. induction p as [|a p IH]; intros s H; [by exists s|].
    destruct s as [|b s]; [done|]. simpl in H.
    apply andb_prop in H as [Hab H]. apply N.eqb_eq in Hab as ->.
    destruct (IH _ H) as [r ->]. by exists r.
  - intros [r ->]. apply startswith_app.
Qed.

(** Only the first [length p] characters matter. *)
Lemma startswith_app_long s s' p :
  length p ≤ length s → startswith (s ++ s') p = startswith s p.
Proof.
  revert s. induction p as [|a p IH]; intros s Hlen.
  - by rewrite !startswith_nil.
  - destruct s as [|b s]; simpl in *; [lia|].
    rewrite IH; [done | lia].
Qed.

Lemma str_contains_cons c s p :
  str_contains (c :: s) p = startswith (c :: s) p || str_contains s p.
Proof. done. Qed.

Lemma str_contains_app_r pre s p :
  str_contains s p = true → str_contains (pre ++ s) p = true.
Proof.
  intros H. induction pre as [|c pre IH]; [done|].
  rewrite <- app_comm_cons, str_contains_cons, IH. apply orb_true_r.
Qed.

Lemma str_contains_app_l s post p :
  str_contains s p = true → str_contains (s ++ post) p = true.
Proof.
  induction s as [|c s IH]; intros H.
  - simpl in H. rewrite orb_false_r in H.
    destruct p; [|done]. destruct post; done.
  - rewrite <- app_comm_cons, str_contains_cons.
    rewrite str_contains_cons in H.
    apply orb_true_iff in H as [H|H].
    + apply startswith_prefix in H as [r Hr].
      rewrite app_comm_cons, Hr, <- app_assoc, startswith_app. done.
    + rewrite IH by done. apply orb_true_r.
Qed.

Lemma str_contains_middle pre s post p :
  str_contains s p = true → str_contains (pre ++ s ++ post) p = true.
Proof. intros. by apply str_contains_app_r, str_contains_app_l. Qed.

Lemma replace_from_drop old new k s :
  replace_from old new k s = replace_from old new 0 (drop k s).
Proof.
  revert k. induction s as [|c s IH]; intros [|k]; try done.
  simpl. apply IH.
Qed.

Lemma str_replace_hit old new s :
  old ≠ [] → str_replace (old ++ s) old new = new ++ str_replace s old new.
Proof.
  destruct old as [|a old]; [done|]. intros _.
  unfold str_replace. change ((a :: old) ++ s) with (a :: (old ++ s)).
  cbn [replace_from].
  change (a :: (old ++ s)) with ((a :: old) ++ s).
  rewrite startswith_app. f_equal.
  rewrite replace_from_drop. f_equal.
  simpl. rewrite Nat.sub_0_r. by rewrite drop_app_length.
Qed.

Lemma str_replace_miss old new c s :
  startswith (c :: s) old = false →
  str_replace (c :: s) old new = c :: str_replace s old new.
Proof.
  destruct old as [|a old]; [done|]. intros H.
  unfold str_replace. cbn [replace_from]. by rewrite H.
Qed.

(** Replacing a substring that does not occur changes nothing. *)
Lemma str_replace_absent s old new :
  str_contains s old = false → str_replace s old new = s.
Proof.
  induction s as [|c s IH]; intros H.
  - destruct old; [done|]. done.
  - rewrite str_contains_cons in H. apply orb_false_iff in H as [H1 H2].
    rewrite str_replace_miss by done. by rewrite IH.
Qed.

(** The leftmost occurrence is the first one replaced. *)
Lemma str_replace_first old new pre post :
  old ≠ [] →
  str_contains (pre ++ removelast old) old = false →
  str_replace (pre ++ old ++ post) old new
  = pre ++ new ++ str_replace post old new.
Proof.
  intros Hne. induction pre as [|c pre IH]; intros H.
  - simpl. by apply str_replace_hit.
  - rewrite <- app_comm_cons in H. rewrite str_contains_cons in H.
    apply orb_false_iff in H as [H1 H2].
    rewrite <- !app_comm_cons. rewrite str_replace_miss.
    + by rewrite IH.
    + rewrite <- H1.
      rewrite (app_removelast_last 0%N Hne) at 1.
      rewrite <- (app_assoc (removelast old)), app_comm_cons, app_assoc.
      apply startswith_app_long.
      simpl. rewrite length_app.
      assert (length old = S (length (removelast old))).
      { rewrite (app_removelast_last 0%N Hne) at 1.
        rewrite length_app. simpl. lia. }
      lia.
Qed.

End StrFacts.

(** ** Paragraphs *)

Section DocFacts.

Implicit Types s m old new : str.

Lemma br_char_idem c : br_char (br_char c) = br_char c.
Proof.
  unfold br_char. destruct (N.eqb_spec c 13) as [->|Hc]; [done|].
  by destruct (N.eqb_spec c 13).
Qed.

Lemma map_br_char_idem s : map br_char (map br_char s) = map br_char s.
Proof. rewrite map_map. apply map_ext, br_char_idem. Qed.

Lemma eqb_br_char a c :
  negb (a =? 10)%N && negb (a =? 13)%N = true →
  (a =? br_char c)%N = (a =? c)%N.
Proof.
  intros H. apply andb_prop in H as [H10 H13].
  apply negb_true_iff in H10, H13.
  unfold br_char. destruct (N.eqb_spec c 13) as [->|Hc]; [|done].
  by rewrite H10, H13.
Qed.

Lemma startswith_br s m :
  break_free m = true → startswith (map br_char s) m = startswith s m.
Proof.
  revert s. induction m as [|a m IH]; intros s Hm.
  - by rewrite !startswith_nil.
  - simpl in Hm. apply andb_prop in Hm as [Ha Hm].
    destruct s as [|c s]; [done|]. simpl.
    by rewrite eqb_br_char, IH.
Qed.

Lemma str_contains_br s m :
  break_free m = true → str_contains (map br_char s) m = str_contains s m.
Proof.
  intros Hm. induction s as [|c s IH].
  - done.
  - rewrite str_contains_cons, <- IH.
    change (map br_char (c :: s)) with (br_char c :: map br_char s).
    rewrite str_contains_cons. f_equal.
    by apply (startswith_br (c :: s)).
Qed.

Lemma replace_from_br old new k s :
  break_free old = true →
  map br_char (replace_from old new k s)
  = replace_from old (map br_char new) k (map br_char s).
Proof.
  intros Hm. revert k. induction s as [|c s IH]; intros k; [done|].
  destruct k as [|k]; cbn [replace_from map]; [|apply IH].
  pose proof (startswith_br (c :: s) old Hm) as Hsw.
  cbn [map] in Hsw. rewrite Hsw.
  destruct (startswith (c :: s) old).
  - by rewrite List.map_app, IH.
  - cbn [map]. by rewrite IH.
Qed.

Lemma str_replace_br s old new :
  old ≠ [] → break_free old = true →
  map br_char (str_replace s old new)
  = str_replace (map br_char s) old (map br_char new).
Proof.
  destruct old as [|a old]; [done|]. intros _ Hm.
  by apply replace_from_br.
Qed.

Lemma para_text_set text : para_text (text_set text) = map br_char text.
Proof. unfold para_text. simpl. apply app_nil_r. Qed.

Lemma para_text_set_run_font rs :
  para_text (mk_paragraph (map set_run_font rs)) = para_text (mk_paragraph rs).
Proof. unfold para_text. simpl. by rewrite map_map. Qed.

(** One guarded replacement, on a paragraph whose text is [x], possibly
    after line-break mapping ([b]). *)
Lemma guarded_replace_text para m new x (b : bool) :
  m ≠ [] → break_free m = true →
  para_text para = (if b then map br_char x else x) →
  para_text (rewritten para m new)
  = (if b || str_contains x m
     then map br_char (str_replace x m new) else str_replace x m new).
Proof.
  intros Hne Hm Hx. unfold rewritten.
  assert (str_contains (para_text para) m = str_contains x m) as Hc.
  { rewrite Hx. destruct b; [by apply str_contains_br | done]. }
  rewrite Hc. destruct (str_contains x m) eqn:Hx_m.
  - rewrite orb_true_r, para_text_set, Hx. destruct b; [|done].
    rewrite !str_replace_br, map_br_char_idem by done.
    by rewrite <- str_replace_br.
  - rewrite orb_false_r, Hx, str_replace_absent by done. done.
Qed.

Lemma zfill_digits w n : Forall (λ c, (48 ≤ c ≤ 57)%N) (zfill w n).
Proof.
  revert n. induction w as [|w IH]; intros n; [constructor|].
  cbn [zfill]. apply Forall_app. split; [apply IH|].
  constructor; [|constructor].
  pose proof (Z.mod_pos_bound n 10 ltac:(lia)). lia.
Qed.

Lemma zfill_cons w n : ∃ d ds, zfill (S w) n = d :: ds ∧ (48 ≤ d ≤ 57)%N.
Proof.
  pose proof (zfill_digits (S w) n) as H.
  destruct (zfill (S w) n) as [|d ds] eqn:E.
  - cbn [zfill] in E. by destruct (zfill w (n / 10)).
  - exists d, ds. split; [done|]. by inversion H.
Qed.

Lemma year_text_zfill y : ∃ w, year_text y = zfill (S w) y.
Proof.
  unfold year_text.
  repeat match goal with
         | |- context [if ?c then _ else _] => destruct c
         end; eauto.
Qed.

Lemma year_text_digits y : Forall (λ c, (48 ≤ c ≤ 57)%N) (year_text y).
Proof. destruct (year_text_zfill y) as [w ->]. apply zfill_digits. Qed.

Lemma year_text_cons y : ∃ d ds, year_text y = d :: ds ∧ (48 ≤ d ≤ 57)%N.
Proof. destruct (year_text_zfill y) as [w ->]. apply zfill_cons. Qed.

Lemma break_free_strftime_cn d : map br_char (strftime_cn d) = strftime_cn d.
Proof.
  assert (∀ s, Forall (λ c, (48 ≤ c ≤ 57)%N) s → map br_char s = s) as Hz.
  { induction 1 as [|c s Hc _ IH]; [done|]. cbn [map]. rewrite IH. f_equal.
    unfold br_char. destruct (N.eqb_spec c 13); [lia | done]. }
  unfold strftime_cn.
  rewrite !map_app, (Hz _ (year_text_digits _)), !(Hz _ (zfill_digits _ _)).
  done.
Qed.

(** *** Text that XML can hold *)

Lemma xml_text_app s1 s2 :
  xml_text (s1 ++ s2) = xml_text s1 && xml_text s2.
Proof. apply forallb_app. Qed.

Lemma xml_text_digits s :
  Forall (λ c, (48 ≤ c ≤ 57)%N) s → xml_text s = true.
Proof.
  induction 1 as [|c s Hc _ IH]; [done|]. cbn [xml_text forallb].
  fold (xml_text s). rewrite IH, andb_true_r. unfold xml_char.
  replace (32 <=? c)%N with true by (symmetry; apply N.leb_le; lia).
  replace (c <=? 55295)%N with true by (symmetry; apply N.leb_le; lia).
  by rewrite !orb_true_r.
Qed.

Lemma xml_text_strftime_cn d : xml_text (strftime_cn d) = true.
Proof.
  unfold strftime_cn. rewrite !xml_text_app.
  rewrite (xml_text_digits _ (year_text_digits _)).
  by rewrite !(xml_text_digits _ (zfill_digits _ _)).
Qed.

Lemma xml_text_new_text name gender id_card major :
  xml_text (new_text name gender id_card major)
  = xml_fields name gender id_card major.
Proof.
  unfold new_text, xml_fields. rewrite !xml_text_app.
  change (xml_text (lit "，")) with true.
  change (xml_text (lit "，系湖南理工学院信息科学与工程学院")) with true.
  change (xml_text (lit "专业2025届毕业生（身份证号：")) with true.
  change (xml_text (lit "）")) with true.
  cbn [andb]. rewrite andb_true_r.
  destruct (xml_text name), (xml_text gender), (xml_text id_card),
    (xml_text major); done.
Qed.

Lemma xml_text_br s : xml_text s = true → xml_text (map br_char s) = true.
Proof.
  induction s as [|c s IH]; [done|]. cbn [xml_text forallb map].
  fold (xml_text s) (xml_text (map br_char s)).
  intros [Hc Hs]%andb_prop. rewrite IH, andb_true_r by done.
  unfold br_char. by destruct (c =? 13)%N.
Qed.

Lemma xml_text_replace_from old new k s :
  xml_text s = true → xml_text new = true →
  xml_text (replace_from old new k s) = true.
Proof.
  intros Hs Hnew. revert k Hs.
  induction s as [|c s IH]; intros k Hs; [done|].
  cbn [xml_text forallb] in Hs. fold (xml_text s) in Hs.
  apply andb_prop in Hs as [Hc Hs].
  destruct k as [|k]; cbn [replace_from]; [|by apply IH].
  destruct (startswith (c :: s) old).
  - rewrite xml_text_app, Hnew. by apply IH.
  - cbn [xml_text forallb]. fold (xml_text (replace_from old new 0 s)).
    by rewrite Hc, IH.
Qed.

Lemma xml_text_replace s old new :
  old ≠ [] → xml_text s = true → xml_text new = true →
  xml_text (str_replace s old new) = true.
Proof.
  destruct old as [|a old]; [done|]. intros _.
  apply xml_text_replace_from.
Qed.

Lemma xml_text_concat (l : list str) :
  forallb xml_text l = true → xml_text (concat l) = true.
Proof.
  induction l as [|s l IH]; [done|]. cbn [forallb concat].
  intros [Hs Hl]%andb_prop. by rewrite xml_text_app, Hs, IH.
Qed.

Lemma well_formed_paragraph_text para :
  well_formed_paragraph para = true → xml_text (para_text para) = true.
Proof.
  unfold well_formed_paragraph, para_text. intros H.
  apply xml_text_concat.
  induction (runs para) as [|run rs IH]; [done|].
  cbn [forallb map] in H |- *. apply andb_prop in H as [Hrun Hrs].
  by rewrite Hrun, IH.
Qed.

Lemma target_facts :
  Forall (λ m, m ≠ [] ∧ break_free m = true) target_texts.
Proof. repeat constructor; done. Qed.

Lemma target_ok i :
  (i < 3)%nat → target i ≠ [] ∧ break_free (target i) = true.
Proof.
  intros Hi. pose proof target_facts as H.
  rewrite Forall_lookup in H.
  destruct (lookup_lt_is_Some_2 target_texts i) as [m Hm]; [done|].
  unfold target. erewrite nth_lookup_Some by done. eauto.
Qed.

Section Fill.

Variables (name gender id_card major : str).
Variables (join_date issue_date : datetime).

Lemma matched_unfold (t : str) :
  existsb (λ text, str_contains t text) target_texts
  = str_contains t (target 0) || str_contains t (target 1)
    || str_contains t (target 2).
Proof.
  change target_texts with [target 0; target 1; target 2].
  simpl. by rewrite orb_false_r, !orb_assoc.
Qed.

(** A paragraph that matches no marker is left as it is. *)
Lemma fill_unmatched para :
  existsb (λ text, str_contains (para_text para) text) target_texts = false →
  filled_paragraph para name gender id_card major join_date issue_date
  = para.
Proof. intros H. unfold filled_paragraph. by rewrite H. Qed.

(** The runs of a matched paragraph after the loop body. *)
Lemma fill_matched_runs para :
  existsb (λ text, str_contains (para_text para) text) target_texts = true →
  ∃ text,
    runs (filled_paragraph para name gender id_card major
            join_date issue_date)
    = [mk_run text (mk_font (Some songti) (Some (Pt 16)) (Some songti))].
Proof.
  intros H. unfold filled_paragraph, rewritten. rewrite H.
  rewrite matched_unfold in H.
  destruct (str_contains (para_text para) (target 0)) eqn:H0.
  { repeat (match goal with
            | |- context [if ?c then _ else _] => destruct c
            end); simpl; eauto. }
  destruct (str_contains (para_text para) (target 1)) eqn:H1.
  { repeat (match goal with
            | |- context [if ?c then _ else _] => destruct c
            end); simpl; eauto. }
  simpl in H. rewrite H. simpl. eauto.
Qed.

(** The text of a matched paragraph after the loop body: the three
    replacements in turn, then the line-break mapping of the setter. *)
Lemma fill_matched_text para :
  existsb (λ text, str_contains (para_text para) text) target_texts = true →
  para_text (filled_paragraph para name gender id_card major
               join_date issue_date)
  = map br_char
      (replace_in_turn (para_text para) name gender id_card major
         join_date issue_date).
Proof.
  intros H. unfold filled_paragraph. rewrite H. cbv zeta.
  rewrite matched_unfold in H.
  rewrite para_text_set_run_font.
  match goal with
  | |- para_text (mk_paragraph (runs ?p)) = _ =>
      change (para_text (mk_paragraph (runs p))) with (para_text p)
  end.
  destruct (target_ok 0) as [Hne0 Hbf0]; [lia|].
  destruct (target_ok 1) as [Hne1 Hbf1]; [lia|].
  destruct (target_ok 2) as [Hne2 Hbf2]; [lia|].
  pose proof (guarded_replace_text para (target 0)
                (new_text name gender id_card major) (para_text para)
                false Hne0 Hbf0 eq_refl) as E0.
  pose proof (guarded_replace_text _ (target 1) (strftime_cn join_date)
                _ _ Hne1 Hbf1 E0) as E1.
  pose proof (guarded_replace_text _ (target 2) (strftime_cn issue_date)
                _ _ Hne2 Hbf2 E1) as E2.
  rewrite E2. unfold replace_in_turn. clear E0 E1 E2.
  destruct (str_contains (para_text para) (target 0)) eqn:H0; [done|].
  rewrite (str_replace_absent (para_text para) (target 0)) by done.
  destruct (str_contains (para_text para) (target 1)) eqn:H1; [done|].
  rewrite (str_replace_absent (para_text para) (target 1)) by done.
  cbn [orb] in H |- *. by rewrite H.
Qed.

(** *** The loop body and the paragraph it leaves *)

Variable torn : Paragraph → str → Paragraph.

Lemma replace_target_returns para old new para' :
  replace_target torn para old new = (para', None) →
  para' = rewritten para old new.
Proof.
  unfold replace_target, rewritten, assign_text, set_para_text, text_set.
  destruct (str_contains (para_text para) old); [|congruence].
  destruct (xml_text (str_replace (para_text para) old new)); congruence.
Qed.

Lemma replace_target_accepts para old new :
  old ≠ [] →
  xml_text (para_text para) = true → xml_text new = true →
  replace_target torn para old new = (rewritten para old new, None)
  ∧ xml_text (para_text (rewritten para old new)) = true.
Proof.
  intros Hne Hpara Hnew.
  unfold replace_target, rewritten, assign_text, set_para_text.
  destruct (str_contains (para_text para) old); [|done].
  rewrite xml_text_replace by done. split; [done|].
  rewrite para_text_set. by apply xml_text_br, xml_text_replace.
Qed.

(** When the loop body raises nothing, it leaves [filled_paragraph]. *)
Lemma replace_in_paragraph_returns para para' :
  replace_in_paragraph torn para name gender id_card major
    join_date issue_date = (para', None) →
  para' = filled_paragraph para name gender id_card major
            join_date issue_date.
Proof.
  unfold replace_in_paragraph, filled_paragraph.
  destruct (existsb _ target_texts); [|congruence].
  destruct (replace_target torn para (target 0) _) as [p0 [e|]] eqn:E0;
    [congruence|].
  apply replace_target_returns in E0 as ->.
  destruct (replace_target torn _ (target 1) _) as [p1 [e|]] eqn:E1;
    [congruence|].
  apply replace_target_returns in E1 as ->.
  destruct (replace_target torn _ (target 2) _) as [p2 [e|]] eqn:E2;
    [congruence|].
  apply replace_target_returns in E2 as ->.
  congruence.
Qed.

(** It raises nothing when the paragraph and the fields are XML text. *)
Lemma replace_in_paragraph_accepts para :
  xml_text (para_text para) = true →
  xml_fields name gender id_card major = true →
  replace_in_paragraph torn para name gender id_card major
    join_date issue_date
  = (filled_paragraph para name gender id_card major join_date issue_date,
     None).
Proof.
  intros Hpara Hfields. rewrite <- xml_text_new_text in Hfields.
  unfold replace_in_paragraph, filled_paragraph.
  destruct (existsb _ target_texts); [|done]. cbv zeta.
  destruct (target_ok 0) as [Hne0 _]; [lia|].
  destruct (target_ok 1) as [Hne1 _]; [lia|].
  destruct (target_ok 2) as [Hne2 _]; [lia|].
  destruct (replace_target_accepts para (target 0)
              (new_text name gender id_card major)) as [-> H0]; [done..|].
  destruct (replace_target_accepts
              (rewritten para (target 0) (new_text name gender id_card major))
              (target 1) (strftime_cn join_date)) as [-> H1];
    [done | done | apply xml_text_strftime_cn |].
  destruct (replace_target_accepts
              (rewritten
                 (rewritten para (target 0)
                    (new_text name gender id_card major))
                 (target 1) (strftime_cn join_date))
              (target 2) (strftime_cn issue_date)) as [-> H2];
    [done | done | apply xml_text_strftime_cn |].
  done.
Qed.

(** A paragraph without a marker is left alone, and nothing is raised. *)
Lemma replace_in_paragraph_unmatched para :
  existsb (λ text, str_contains (para_text para) text) target_texts = false →
  replace_in_paragraph torn para name gender id_card major
    join_date issue_date = (para, None).
Proof. intros H. unfold replace_in_paragraph. by rewrite H. Qed.

Lemma fill_paragraphs_returns paras paras' :
  fill_paragraphs torn paras name gender id_card major join_date issue_date
  = (paras', None) →
  paras'
  = map (λ para, filled_paragraph para name gender id_card major
                   join_date issue_date) paras.
Proof.
  revert paras'. induction paras as [|para paras IH]; intros paras'.
  { cbn [fill_paragraphs map]. congruence. }
  cbn [fill_paragraphs map].
  destruct (replace_in_paragraph torn para _ _ _ _ _ _) as [p [e|]] eqn:E;
    [congruence|].
  apply replace_in_paragraph_returns in E as ->.
  destruct (fill_paragraphs torn paras _ _ _ _ _ _) as [rest e] eqn:Er.
  intros [= <- ->]. by rewrite (IH rest).
Qed.

Lemma fill_paragraphs_accepts paras :
  Forall (λ para, xml_text (para_text para) = true) paras →
  xml_fields name gender id_card major = true →
  fill_paragraphs torn paras name gender id_card major join_date issue_date
  = (map (λ para, filled_paragraph para name gender id_card major
                    join_date issue_date) paras, None).
Proof.
  intros Hparas Hfields.
  induction Hparas as [|para paras Hpara _ IH]; [done|].
  cbn [fill_paragraphs map].
  by rewrite replace_in_paragraph_accepts, IH.
Qed.

(** An unmatched paragraph stays where it is and as it is, whether or not
    the loop gets past it and whatever becomes of the others. *)
Lemma fill_paragraphs_unmatched paras i para :
  paras !! i = Some para →
  existsb (λ text, str_contains (para_text para) text) target_texts = false →
  (fill_paragraphs torn paras name gender id_card major
     join_date issue_date).1 !! i = Some para.
Proof.
  revert i. induction paras as [|p paras IH]; intros i Hi Hnone; [done|].
  cbn [fill_paragraphs].
  destruct i as [|i]; cbn [lookup list_lookup] in Hi.
  - injection Hi as ->. rewrite replace_in_paragraph_unmatched by done.
    by destruct (fill_paragraphs torn paras _ _ _ _ _ _).
  - specialize (IH i Hi Hnone).
    destruct (replace_in_paragraph torn p _ _ _ _ _ _) as [p' [e|]];
      [done|].
    by destruct (fill_paragraphs torn paras _ _ _ _ _ _).
Qed.

Lemma replace_placeholders_returns doc doc' :
  replace_placeholders torn doc name gender id_card major
    join_date issue_date = (doc', None) →
  doc'
  = mk_document
      (map (λ para, filled_paragraph para name gender id_card major
                      join_date issue_date) (paragraphs doc)).
Proof.
  unfold replace_placeholders.
  destruct (fill_paragraphs torn _ _ _ _ _ _ _) as [paras e] eqn:E.
  intros [= <- ->]. by rewrite (fill_paragraphs_returns _ _ E).
Qed.

Lemma well_formed_texts doc :
  well_formed doc = true →
  Forall (λ para, xml_text (para_text para) = true) (paragraphs doc).
Proof.
  unfold well_formed. rewrite forallb_forall, Forall_forall.
  intros H para Hpara%list_elem_of_In.
  by apply well_formed_paragraph_text, H.
Qed.

Lemma replace_placeholders_accepts doc :
  well_formed doc = true →
  xml_fields name gender id_card major = true →
  replace_placeholders torn doc name gender id_card major
    join_date issue_date
  = (mk_document
       (map (λ para, filled_paragraph para name gender id_card major
                       join_date issue_date) (paragraphs doc)), None).
Proof.
  intros Hdoc Hfields. unfold replace_placeholders.
  by rewrite fill_paragraphs_accepts by (by try apply well_formed_texts).
Qed.

(** Filling keeps a document well formed. *)
Lemma filled_paragraph_well_formed para :
  well_formed_paragraph para = true →
  xml_fields name gender id_card major = true →
  well_formed_paragraph
    (filled_paragraph para name gender id_card major join_date issue_date)
  = true.
Proof.
  intros Hpara Hfields.
  destruct (existsb (λ text, str_contains (para_text para) text) target_texts)
    eqn:Hm.
  2:{ by rewrite fill_unmatched. }
  destruct (fill_matched_runs para Hm) as [text Hruns].
  pose proof (fill_matched_text para Hm) as Htext.
  unfold para_text in Htext at 1. rewrite Hruns in Htext.
  cbn [map run_text concat] in Htext. rewrite app_nil_r in Htext.
  unfold well_formed_paragraph. rewrite Hruns. cbn [forallb run_text].
  rewrite andb_true_r, Htext. apply xml_text_br.
  unfold replace_in_turn.
  destruct (target_ok 0) as [Hne0 _]; [lia|].
  destruct (target_ok 1) as [Hne1 _]; [lia|].
  destruct (target_ok 2) as [Hne2 _]; [lia|].
  repeat apply xml_text_replace; try done;
    try apply xml_text_strftime_cn.
  - by apply well_formed_paragraph_text.
  - by rewrite xml_text_new_text.
Qed.

Lemma filled_document_well_formed doc :
  well_formed doc = true →
  xml_fields name gender id_card major = true →
  well_formed
    (mk_document
       (map (λ para, filled_paragraph para name gender id_card major
                       join_date issue_date) (paragraphs doc))) = true.
Proof.
  unfold well_formed. cbn [paragraphs]. rewrite !forallb_forall.
  intros Hdoc Hfields para [p [<- Hp]]%in_map_iff.
  by apply filled_paragraph_well_formed; [apply Hdoc|].
Qed.

End Fill.

End DocFacts.

(** ** Template filler *)

Section FillerFacts.

Variables (name gender id_card major : str).
Variables (join_date issue_date : datetime).

Lemma str_contains_refl (s : str) : str_contains s s = true.
Proof.
  destruct s as [|c s]; [done|]. rewrite str_contains_cons.
  rewrite <- (app_nil_r (c :: s)) at 1. by rewrite startswith_app.
Qed.

Lemma matched_iff (t : str) :
  existsb (λ text, str_contains t text) target_texts = true
  ↔ Exists (λ m, str_contains t m = true) target_texts.
Proof.
  rewrite existsb_exists, Exists_exists.
  by setoid_rewrite list_elem_of_In.
Qed.

Lemma unmatched_iff (t : str) :
  existsb (λ text, str_contains t text) target_texts = false
  ↔ Forall (λ m, str_contains t m = false) target_texts.
Proof.
  rewrite <- not_true_iff_false, matched_iff, <- Forall_Exists_neg.
  apply Forall_iff. intros m. apply not_true_iff_false.
Qed.

Lemma matched_by_target (t : str) k :
  (k < 3)%nat → str_contains t (target k) = true →
  existsb (λ text, str_contains t text) target_texts = true.
Proof.
  intros Hk H. rewrite matched_unfold.
  destruct k as [|[|[|k]]]; [| | |lia]; rewrite H;
    by rewrite ?orb_true_r.
Qed.

(** A paragraph with a single marker: the marker gives way to its
    replacement and the text around it stays. *)
Lemma fill_sole_marker para k pre post :
  (k < 3)%nat →
  para_text para = pre ++ target k ++ post →
  let repl :=
    nth k [new_text name gender id_card major;
           strftime_cn join_date; strftime_cn issue_date] [] in
  sole_marker k pre post repl = true →
  para_text (filled_paragraph para name gender id_card major
               join_date issue_date)
  = map br_char (pre ++ repl ++ post).
Proof.
  intros Hk Ht repl Hsole.
  rewrite fill_matched_text.
  2:{ apply (matched_by_target _ k Hk). rewrite Ht.
      apply str_contains_middle, str_contains_refl. }
  f_equal. unfold replace_in_turn. rewrite Ht.
  unfold sole_marker in Hsole.
  apply andb_prop in Hsole as [Hsole Hothers].
  apply andb_prop in Hsole as [Hfirst Hpost].
  apply negb_true_iff in Hfirst, Hpost.
  destruct (target_ok k Hk) as [Hne _].
  destruct k as [|[|[|k]]]; [| | |lia];
    cbn [forallb Nat.eqb orb andb] in Hothers;
    repeat match goal with
           | H : _ && _ = true |- _ => apply andb_prop in H as [? ?]
           | H : negb _ = true |- _ => apply negb_true_iff in H
           end;
    subst repl; cbn [nth] in *.
  - rewrite str_replace_first, (str_replace_absent post) by done.
    rewrite (str_replace_absent _ (target 1)) by done.
    by rewrite str_replace_absent.
  - rewrite (str_replace_absent _ (target 0)) by done.
    rewrite str_replace_first, (str_replace_absent post) by done.
    by rewrite str_replace_absent.
  - rewrite (str_replace_absent _ (target 0)) by done.
    rewrite (str_replace_absent _ (target 1)) by done.
    by rewrite str_replace_first, (str_replace_absent post).
Qed.

(** The paragraphs of the document a call leaves when it raises nothing. *)
Lemma filled_lookup torn doc doc' i :
  replace_placeholders torn doc name gender id_card major
    join_date issue_date = (doc', None) →
  paragraphs doc' !! i
  = (λ para, filled_paragraph para name gender id_card major
               join_date issue_date) <$> paragraphs doc !! i.
Proof.
  intros ->%replace_placeholders_returns. apply list_lookup_fmap.
Qed.

End FillerFacts.

(** ** Template filler: the stated properties *)

(** C2: a paragraph whose text contains none of the three markers is, in
    the document the call leaves, what it was before: same runs, hence same
    text and same font name, size and east-Asian name on every run.  This
    holds for every document and request, also when the call raises on
    another paragraph and whatever state that paragraph is left in. *)
Theorem C2_unmatched_paragraph_untouched
    (torn : Paragraph → str → Paragraph) (doc : Document)
    (name gender id_card major : str) (join_date issue_date : datetime)
    (i : nat) (para : Paragraph) :
  paragraphs doc !! i = Some para →
  Forall (λ m, str_contains (para_text para) m = false) target_texts →
  paragraphs (replace_placeholders torn doc name gender id_card major
                join_date issue_date).1 !! i = Some para.
Proof.
  intros Hi Hnone. apply unmatched_iff in Hnone.
  pose proof (fill_paragraphs_unmatched name gender id_card major
                join_date issue_date torn _ _ _ Hi Hnone) as H.
  unfold replace_placeholders.
  by destruct (fill_paragraphs torn _ _ _ _ _ _ _).
Qed.

Lemma C2_unmatched_paragraph_untouched_witness :
  paragraphs (replace_placeholders (λ para _, para) Sample.template
                Sample.zhang_san Sample.male Sample.id_430 Sample.software
                Sample.jul_03 Sample.jul_17).1
    !! 0%nat = Some Sample.title.
Proof.
  apply C2_unmatched_paragraph_untouched.
  - reflexivity.
  - repeat constructor.
Defined.

(** C10: a paragraph whose text contains at least one marker consists,
    once the call has returned, of exactly one run, whose font name is
    宋体, whose east-Asian font name is 宋体 and whose size is 16pt.  The
    call returns whenever the document is well formed and name, gender,
    identity number and major are text XML can hold. *)
Theorem C10_matched_paragraph_single_songti_run
    (torn : Paragraph → str → Paragraph) (doc : Document)
    (name gender id_card major : str) (join_date issue_date : datetime)
    (i : nat) (para : Paragraph) :
  let call :=
    replace_placeholders torn doc name gender id_card major
      join_date issue_date in
  paragraphs doc !! i = Some para →
  Exists (λ m, str_contains (para_text para) m = true) target_texts →
  (∀ doc', call = (doc', None) →
     ∃ para' text,
       paragraphs doc' !! i = Some para'
       ∧ runs para'
         = [mk_run text
              (mk_font (Some (lit "宋体")) (Some (Pt 16))
                 (Some (lit "宋体")))])
  ∧ (well_formed doc = true →
     xml_fields name gender id_card major = true →
     ∃ doc', call = (doc', None)).
Proof.
  intros call Hi Hsome. apply matched_iff in Hsome. split.
  - intros doc' Hcall.
    destruct (fill_matched_runs name gender id_card major join_date
                issue_date para Hsome) as [text Hruns].
    eexists _, text. split; [|exact Hruns].
    by rewrite (filled_lookup _ _ _ _ _ _ _ _ _ _ Hcall), Hi.
  - intros Hdoc Hfields. eexists.
    by apply replace_placeholders_accepts.
Qed.

Lemma C10_matched_paragraph_single_songti_run_witness :
  ∃ doc' para' text,
    replace_placeholders (λ para _, para) Sample.template Sample.zhang_san
      Sample.male Sample.id_430 Sample.software Sample.jul_03 Sample.jul_17
    = (doc', None)
    ∧ paragraphs doc' !! 1%nat = Some para'
    ∧ runs para'
      = [mk_run text
           (mk_font (Some (lit "宋体")) (Some (Pt 16)) (Some (lit "宋体")))].
Proof.
  destruct (C10_matched_paragraph_single_songti_run (λ para _, para)
              Sample.template Sample.zhang_san Sample.male Sample.id_430
              Sample.software Sample.jul_03 Sample.jul_17
              1 Sample.identity_para) as [Hruns Hreturns].
  - reflexivity.
  - apply Exists_cons_hd. vm_compute. reflexivity.
  - destruct Hreturns as [doc' Hcall];
      [vm_compute; reflexivity | vm_compute; reflexivity |].
    destruct (Hruns doc' Hcall) as (para' & text & Hpara & Hrun).
    exists doc', para', text. done.
Defined.

(** ** Sequential and independent replacement *)

Section IndependenceFacts.

Implicit Types s t u x m old new block : str.

Lemma mismatch_startswith u x m :
  mismatch u m = true → startswith (u ++ x) m = false.
Proof.
  revert m. induction u as [|a u IH]; intros [|b m] H; try done.
  cbn [mismatch] in H. cbn [app startswith].
  destruct (N.eqb_spec b a) as [->|Hne]; [|done].
  cbn [negb orb] in H. by rewrite IH.
Qed.

(** Scanning for [m] runs straight over a block in which [m] cannot
    begin. *)
Lemma str_replace_over_block m new block x :
  cannot_begin_in m block = true →
  str_replace (block ++ x) m new = block ++ str_replace x m new.
Proof.
  unfold cannot_begin_in.
  induction block as [|c block IH]; intros H; [done|].
  cbn [suffixes forallb] in H. apply andb_prop in H as [Hc H].
  rewrite <- app_comm_cons, str_replace_miss.
  - by rewrite IH.
  - rewrite app_comm_cons. by apply mismatch_startswith.
Qed.

(** It also runs over any text that lacks the first character of [m]. *)
Lemma str_replace_over_plain a m new plain x :
  Forall (λ c, c ≠ a) plain →
  str_replace (plain ++ x) (a :: m) new
  = plain ++ str_replace x (a :: m) new.
Proof.
  induction 1 as [|c plain Hc _ IH]; [done|].
  rewrite <- app_comm_cons, str_replace_miss; [by rewrite IH|].
  cbn [startswith]. by rewrite (proj2 (N.eqb_neq a c)).
Qed.

(** If the replacement text begins with a character foreign to [m], a
    match of [m] at the head after the replacement was there before. *)
Lemma startswith_before_replace old new m s n0 rest :
  new = n0 :: rest →
  forallb (λ a, negb (a =? n0)%N) m = true →
  startswith (str_replace s old new) m = true →
  startswith s m = true.
Proof.
  intros -> . revert s. induction m as [|a m IH]; intros s Hm H.
  { apply startswith_nil. }
  cbn [forallb] in Hm. apply andb_prop in Hm as [Ha Hm].
  apply negb_true_iff in Ha.
  destruct old as [|o old].
  { unfold str_replace in H. cbn [app startswith] in H. by rewrite Ha in H. }
  destruct s as [|c s]; [done|].
  destruct (startswith (c :: s) (o :: old)) eqn:Hhit.
  - apply startswith_prefix in Hhit as [r Hr]. rewrite Hr in H.
    rewrite str_replace_hit in H by done.
    cbn [app startswith] in H. by rewrite Ha in H.
  - rewrite str_replace_miss in H by done. cbn [startswith] in H |- *.
    apply andb_prop in H as [-> H]. by apply IH.
Qed.

Lemma startswith_cons_before_replace old new m c s n0 rest :
  new = n0 :: rest →
  forallb (λ a, negb (a =? n0)%N) m = true →
  startswith (c :: s) m = false →
  startswith (c :: str_replace s old new) m = false.
Proof.
  intros Hnew Hm H. destruct m as [|a m]; [done|].
  cbn [startswith] in H |- *. cbn [forallb] in Hm.
  apply andb_prop in Hm as [_ Hm].
  destruct (a =? c)%N; [|done]. cbn [andb] in H |- *.
  apply not_true_iff_false. intros Hs. apply not_true_iff_false in H.
  apply H. by eapply startswith_before_replace.
Qed.

Lemma foreign_head m n0 :
  Forall (λ a, a ≠ n0) m → forallb (λ a, negb (a =? n0)%N) m = true.
Proof.
  induction 1 as [|a m Ha _ IH]; [done|]. cbn [forallb].
  by rewrite IH, (proj2 (N.eqb_neq a n0)).
Qed.

Lemma replace_all_from_drop subs k s :
  replace_all_from subs k s = replace_all_from subs 0 (drop k s).
Proof.
  revert k. induction s as [|c s IH]; intros [|k]; try done.
  cbn [replace_all_from drop]. apply IH.
Qed.

Lemma replace_all_from_hit subs old new s :
  old ≠ [] →
  List.find (λ sub, startswith (old ++ s) (fst sub)) subs = Some (old, new) →
  replace_all_from subs 0 (old ++ s) = new ++ replace_all_from subs 0 s.
Proof.
  destruct old as [|a old]; [done|]. intros _ Hfind.
  change ((a :: old) ++ s) with (a :: (old ++ s)) in *.
  cbn [replace_all_from]. rewrite Hfind. f_equal.
  rewrite replace_all_from_drop. f_equal.
  cbn [length]. rewrite Nat.sub_succ, Nat.sub_0_r. by rewrite drop_app_length.
Qed.

Lemma replace_all_from_miss subs c s :
  List.find (λ sub, startswith (c :: s) (fst sub)) subs = None →
  replace_all_from subs 0 (c :: s) = c :: replace_all_from subs 0 s.
Proof. intros Hfind. cbn [replace_all_from]. by rewrite Hfind. Qed.

(** A formatted date is passed over when scanning for the issue-date
    marker: after its 年 comes a digit, not a space. *)
Lemma str_replace_over_date d new x :
  str_replace (strftime_cn d ++ x) (target 2) new
  = strftime_cn d ++ str_replace x (target 2) new.
Proof.
  assert (∀ w n, Forall (λ c, c ≠ 24180%N) (zfill w n)) as Hdigits.
  { intros w n. eapply Forall_impl; [apply zfill_digits|].
    intros c Hc. cbv beta in Hc. lia. }
  assert (Forall (λ c, c ≠ 24180%N) (year_text (year d))) as Hyear.
  { eapply Forall_impl; [apply year_text_digits|].
    intros c Hc. cbv beta in Hc. lia. }
  change (target 2)
    with (24180%N :: [32; 32; 32; 26376; 32; 32; 32; 26085]%N).
  unfold strftime_cn.
  destruct (zfill_cons 1 (month d)) as (m1 & ms & Em & Hm1).
  change (lit "年") with [24180%N]. change (lit "月") with [26376%N].
  change (lit "日") with [26085%N].
  rewrite <- !app_assoc.
  rewrite str_replace_over_plain by exact Hyear.
  f_equal.
  pose proof (Hdigits 2%nat (month d)) as Hmonth. rewrite Em in Hmonth |- *.
  cbn [app]. rewrite str_replace_miss.
  2:{ cbn [startswith]. rewrite N.eqb_refl.
      destruct (N.eqb_spec 32 m1); [lia|done]. }
  f_equal. rewrite app_comm_cons.
  rewrite str_replace_over_plain by exact Hmonth. f_equal.
  rewrite str_replace_miss by done. f_equal.
  rewrite str_replace_over_plain by apply Hdigits.
  by rewrite str_replace_miss.
Qed.

Lemma date_head d :
  ∃ n0 rest, strftime_cn d = n0 :: rest ∧ (48 ≤ n0 ≤ 57)%N.
Proof.
  unfold strftime_cn.
  destruct (year_text_cons (year d)) as (y1 & ys & Ey & Hy1).
  rewrite Ey. eexists _, _. split; [reflexivity|done].
Qed.

Section Request.

Variables (name gender id_card major : str).
Variables (join_date issue_date : datetime).
Hypothesis fields_benign : benign name gender id_card major = true.

Lemma sentence_no_lead : Forall (λ c, marker_lead c = false) (new_text name gender id_card major).
Proof.
  unfold benign in fields_benign.
  apply andb_prop in fields_benign as [Hall _].
  rewrite forallb_forall in Hall.
  assert (∀ f, (∀ c, In c f → In c (name ++ gender ++ id_card ++ major)) →
               Forall (λ c, marker_lead c = false) f) as Hfield.
  { intros f Hf. apply Forall_forall. intros c Hc%list_elem_of_In.
    apply negb_true_iff, Hall, Hf, Hc. }
  unfold new_text. repeat apply Forall_app_2.
  - apply Hfield. intros c Hc. apply in_or_app. by left.
  - repeat constructor.
  - apply Hfield. intros c Hc. apply in_or_app. right.
    apply in_or_app. by left.
  - repeat constructor.
  - apply Hfield. intros c Hc. do 3 (apply in_or_app; right). done.
  - repeat constructor.
  - apply Hfield. intros c Hc. do 2 (apply in_or_app; right).
    apply in_or_app. by left.
  - repeat constructor.
Qed.

Lemma sentence_head :
  ∃ n0 rest, (new_text name gender id_card major) = n0 :: rest
    ∧ n0 ≠ 42%N ∧ n0 ≠ 24180%N ∧ n0 ≠ 26376%N ∧ n0 ≠ 26085%N ∧ n0 ≠ 32%N.
Proof.
  pose proof sentence_no_lead as Hlead.
  unfold benign in fields_benign.
  apply andb_prop in fields_benign as [_ Hhead].
  unfold new_text in *. destruct name as [|c nm].
  - eexists _, _. split; [reflexivity|]. done.
  - exists c. eexists. split; [reflexivity|].
    apply negb_true_iff in Hhead.
    apply orb_false_iff in Hhead as [Hhead H32].
    apply orb_false_iff in Hhead as [H1 H2].
    apply N.eqb_neq in H1, H2, H32.
    inversion Hlead as [|? ? Hc _]; subst. unfold marker_lead in Hc.
    apply orb_false_iff in Hc as [Ha Hb]. apply N.eqb_neq in Ha, Hb. done.
Qed.

Lemma sentence_over k x new :
  k = 1%nat ∨ k = 2%nat →
  str_replace ((new_text name gender id_card major) ++ x) (target k) new
  = (new_text name gender id_card major) ++ str_replace x (target k) new.
Proof.
  pose proof sentence_no_lead as Hlead.
  intros [-> | ->].
  - change (target 1)
      with (42%N :: [42; 24180; 42; 42; 26376; 42; 42; 26085]%N).
    apply str_replace_over_plain.
    eapply Forall_impl; [exact Hlead|]. intros c Hc ->. done.
  - change (target 2)
      with (24180%N :: [32; 32; 32; 26376; 32; 32; 32; 26085]%N).
    apply str_replace_over_plain.
    eapply Forall_impl; [exact Hlead|]. intros c Hc ->. done.
Qed.

(** With benign fields, replacing the markers one after another yields
    what replacing them independently yields. *)
Lemma replace_in_turn_independent t :
  replace_in_turn t name gender id_card major join_date issue_date
  = replace_independently t name gender id_card major join_date issue_date.
Proof.
  unfold replace_in_turn, replace_independently.
  remember (length t) as n eqn:Hn. revert t Hn.
  induction n as [n IH] using lt_wf_ind. intros t Hn.
  destruct (target_ok 0) as [Hne0 _]; [lia|].
  destruct (target_ok 1) as [Hne1 _]; [lia|].
  destruct (target_ok 2) as [Hne2 _]; [lia|].
  assert (∀ k r, (k < 3)%nat → t = target k ++ r →
            (length r < n)%nat) as Hshorter.
  { intros k r Hk ->. rewrite length_app in Hn.
    destruct (target_ok k Hk) as [Hne _].
    destruct (target k); [done|]. simpl in Hn. lia. }
  destruct (startswith t (target 0)) eqn:H0.
  { apply startswith_prefix in H0 as [r ->].
    rewrite (replace_all_from_hit _ (target 0)
               (new_text name gender id_card major)); [|done|].
    2:{ cbn [List.find fst]. by rewrite startswith_app. }
    rewrite str_replace_hit by done.
    rewrite (sentence_over 1) by auto. rewrite (sentence_over 2) by auto.
    f_equal. apply (IH (length r)); [|done].
    apply (Hshorter 0%nat r); [lia|done]. }
  destruct (startswith t (target 1)) eqn:H1.
  { apply startswith_prefix in H1 as [r ->].
    rewrite (replace_all_from_hit _ (target 1) (strftime_cn join_date));
      [|done|].
    2:{ cbn [List.find fst]. by rewrite H0, startswith_app. }
    rewrite (str_replace_over_block (target 0)) by (vm_compute; reflexivity).
    rewrite str_replace_hit by done.
    rewrite str_replace_over_date.
    f_equal. apply (IH (length r)); [|done].
    apply (Hshorter 1%nat r); [lia|done]. }
  destruct (startswith t (target 2)) eqn:H2.
  { apply startswith_prefix in H2 as [r ->].
    rewrite (replace_all_from_hit _ (target 2) (strftime_cn issue_date));
      [|done|].
    2:{ cbn [List.find fst]. by rewrite H0, H1, startswith_app. }
    rewrite (str_replace_over_block (target 0)) by (vm_compute; reflexivity).
    rewrite (str_replace_over_block (target 1)) by (vm_compute; reflexivity).
    rewrite str_replace_hit by done.
    f_equal. apply (IH (length r)); [|done].
    apply (Hshorter 2%nat r); [lia|done]. }
  destruct t as [|c t].
  { reflexivity. }
  rewrite replace_all_from_miss.
  2:{ cbn [List.find fst]. by rewrite H0, H1, H2. }
  destruct sentence_head as (s0 & srest & Es & Hs0).
  destruct (date_head join_date) as (j0 & jrest & Ej & Hj0).
  rewrite (str_replace_miss (target 0)) by done.
  destruct Hs0 as (Hs42 & Hs_year & Hs_month & Hs_day & Hs32).
  assert (forallb (λ a, negb (a =? s0)%N) (target 1) = true) as Hs1.
  { apply foreign_head. repeat constructor; congruence. }
  assert (forallb (λ a, negb (a =? s0)%N) (target 2) = true) as Hs2.
  { apply foreign_head. repeat constructor; congruence. }
  assert (forallb (λ a, negb (a =? j0)%N) (target 2) = true) as Hj2.
  { apply foreign_head. repeat constructor; lia. }
  rewrite (str_replace_miss (target 1))
    by (by eapply startswith_cons_before_replace).
  rewrite (str_replace_miss (target 2)).
  2:{ eapply startswith_cons_before_replace; [exact Ej|done|].
      by eapply startswith_cons_before_replace. }
  f_equal. eapply IH; [|reflexivity]. simpl in Hn. lia.
Qed.

End Request.

End IndependenceFacts.

Lemma markers_in_matched (t : str) :
  (1 ≤ length (markers_in t))%nat →
  existsb (λ text, str_contains t text) target_texts = true.
Proof.
  unfold markers_in. intros Hlen.
  destruct (List.filter (λ m, str_contains t m) target_texts) as [|m ms] eqn:E;
    [simpl in Hlen; lia|].
  assert (In m (List.filter (λ m, str_contains t m) target_texts)) as Hin
    by (rewrite E; by left).
  apply filter_In in Hin as [Hin Hm].
  apply existsb_exists. eauto.
Qed.

(** C1: for the request 张三 / 男 / 软件工程 / 430XXXXXXXXXXXXXXX joining on
    2025-07-03 with issue date 2025-07-17 and any document, once the call
    has returned every paragraph that carried a marker reads as its old
    text with each identity block, join-date marker and issue-date marker
    rewritten to exactly the expected sentence or date and everything else
    in place (carriage returns read back as line feeds); a paragraph that
    was just a marker reads exactly as the expected sentence or date.  The
    call returns for every well-formed document. *)
Theorem C1_fill_zhang_san (torn : Paragraph → str → Paragraph)
    (doc : Document) :
  let call :=
    replace_placeholders torn doc (lit "张三") (lit "男")
      (lit "430XXXXXXXXXXXXXXX") (lit "软件工程") (mk_datetime 2025 7 3)
      (mk_datetime 2025 7 17) in
  let expected :=
    [ lit "张三，男，系湖南理工学院信息科学与工程学院软件工程专业2025届毕业生（身份证号：430XXXXXXXXXXXXXXX）";
      lit "2025年07月03日";
      lit "2025年07月17日" ] in
  (∀ doc' i para,
     call = (doc', None) →
     paragraphs doc !! i = Some para →
     Exists (λ m, str_contains (para_text para) m = true) target_texts →
     ∃ para',
       paragraphs doc' !! i = Some para'
       ∧ para_text para'
         = map br_char
             (replace_all_from (zip target_texts expected) 0 (para_text para))
       ∧ ∀ k, (k < 3)%nat → para_text para = target k →
              para_text para' = nth k expected [])
  ∧ (well_formed doc = true → ∃ doc', call = (doc', None)).
Proof.
  intros call expected. split.
  - intros doc' i para Hcall Hi Hsome. apply matched_iff in Hsome.
    eexists. split.
    { by rewrite (filled_lookup _ _ _ _ _ _ _ _ _ _ Hcall), Hi. }
    assert (para_text
              (filled_paragraph para (lit "张三") (lit "男")
                 (lit "430XXXXXXXXXXXXXXX") (lit "软件工程")
                 (mk_datetime 2025 7 3) (mk_datetime 2025 7 17))
            = map br_char
                (replace_all_from (zip target_texts expected) 0
                   (para_text para))) as Htext.
    { rewrite fill_matched_text by done. f_equal.
      rewrite replace_in_turn_independent by (vm_compute; reflexivity).
      reflexivity. }
    split; [exact Htext|].
    intros k Hk Hwhole. rewrite Htext, Hwhole.
    destruct k as [|[|[|k]]]; [| | |lia]; vm_compute; reflexivity.
  - intros Hdoc. eexists.
    by apply replace_placeholders_accepts; [|vm_compute].
Qed.

Lemma C1_fill_zhang_san_witness :
  ∃ doc' para',
    replace_placeholders (λ para _, para) Sample.template (lit "张三")
      (lit "男") (lit "430XXXXXXXXXXXXXXX") (lit "软件工程")
      (mk_datetime 2025 7 3) (mk_datetime 2025 7 17) = (doc', None)
    ∧ paragraphs doc' !! 2%nat = Some para'
    ∧ para_text para' = lit "该生于2025年07月03日入职。".
Proof.
  destruct (C1_fill_zhang_san (λ para _, para) Sample.template)
    as [Htext Hreturns].
  destruct Hreturns as [doc' Hcall]; [vm_compute; reflexivity|].
  destruct (Htext doc' 2%nat Sample.join_para Hcall) as (para' & Hp & Ht & _).
  - reflexivity.
  - apply Exists_cons_tl, Exists_cons_hd. vm_compute. reflexivity.
  - exists doc', para'. repeat split; [done..|].
    rewrite Ht. vm_compute. reflexivity.
Defined.

(** C5 fails as stated: with the issue-date marker as the name, the
    sentence put in for the identity block is rewritten once more by the
    issue-date replacement, so the outcome for one marker depends on what
    was substituted for another. *)
Lemma C5_counterexample :
  let text := para_text Sample.two_marker_para in
  let name := target 2 in
  let body :=
    replace_in_paragraph (λ para _, para) Sample.two_marker_para name
      Sample.male Sample.id_430 Sample.software Sample.jul_03 Sample.jul_17 in
  markers_in text = [target 0; target 1]
  ∧ body.2 = None
  ∧ para_text body.1
    = lit "2025年07月17日，男，系湖南理工学院信息科学与工程学院软件工程专业2025届毕业生（身份证号：430XXXXXXXXXXXXXXX）2025年07月03日"
  ∧ map br_char
      (replace_independently text name Sample.male Sample.id_430
         Sample.software Sample.jul_03 Sample.jul_17)
    = lit "年   月   日，男，系湖南理工学院信息科学与工程学院软件工程专业2025届毕业生（身份证号：430XXXXXXXXXXXXXXX）2025年07月03日"
  ∧ para_text body.1
    ≠ map br_char
        (replace_independently text name Sample.male Sample.id_430
           Sample.software Sample.jul_03 Sample.jul_17).
Proof.
  repeat split; try (vm_compute; reflexivity).
  vm_compute. discriminate.
Qed.

(** C5, amended: in a paragraph whose text contains more than one marker,
    all three replacements are carried out one after another, identity
    block, then join date, then issue date, each over the text the previous
    one left (a marker that does not occur is replaced nowhere); the text
    read back once the loop body is through has carriage returns turned
    into line feeds.  When name, gender, identity number and major contain
    no asterisk and no 年, and the name does not begin with 月, 日 or a
    space, this is the result of replacing every marker of the original
    text independently by its own replacement.  The loop body gets through
    whenever the paragraph text and the four fields are text XML can
    hold. *)
Theorem C5_replacements_in_turn (torn : Paragraph → str → Paragraph)
    (para : Paragraph)
    (name gender id_card major : str) (join_date issue_date : datetime) :
  let body :=
    replace_in_paragraph torn para name gender id_card major
      join_date issue_date in
  (2 ≤ length (markers_in (para_text para)))%nat →
  (∀ para', body = (para', None) →
     para_text para'
     = map br_char
         (str_replace
            (str_replace
               (str_replace (para_text para) (target 0)
                  (new_text name gender id_card major))
               (target 1) (strftime_cn join_date))
            (target 2) (strftime_cn issue_date))
     ∧ (benign name gender id_card major = true →
        para_text para'
        = map br_char
            (replace_independently (para_text para) name gender id_card
               major join_date issue_date)))
  ∧ (xml_text (para_text para) = true →
     xml_fields name gender id_card major = true →
     ∃ para', body = (para', None)).
Proof.
  intros body Hlen. split.
  - intros para' ->%replace_in_paragraph_returns.
    assert (para_text
              (filled_paragraph para name gender id_card major
                 join_date issue_date)
            = map br_char
                (replace_in_turn (para_text para) name gender id_card major
                   join_date issue_date)) as Hfinal.
    { apply fill_matched_text, markers_in_matched. lia. }
    split; [exact Hfinal|].
    intros Hbenign. rewrite Hfinal. f_equal.
    by apply replace_in_turn_independent.
  - intros Hpara Hfields. eexists.
    by apply replace_in_paragraph_accepts.
Qed.

Lemma C5_replacements_in_turn_witness :
  ∃ para',
    replace_in_paragraph (λ para _, para) Sample.two_marker_para
      Sample.zhang_san Sample.male Sample.id_430 Sample.software
      Sample.jul_03 Sample.jul_17 = (para', None)
    ∧ para_text para'
      = map br_char
          (replace_independently (para_text Sample.two_marker_para)
             Sample.zhang_san Sample.male Sample.id_430 Sample.software
             Sample.jul_03 Sample.jul_17).
Proof.
  destruct (C5_replacements_in_turn (λ para _, para) Sample.two_marker_para
              Sample.zhang_san Sample.male Sample.id_430 Sample.software
              Sample.jul_03 Sample.jul_17) as [Htext Hreturns].
  - vm_compute. lia.
  - destruct Hreturns as [para' Hbody];
      [vm_compute; reflexivity | vm_compute; reflexivity |].
    exists para'. split; [done|].
    apply (Htext para' Hbody). vm_compute. reflexivity.
Defined.

(** C9: the markers are tried in the order identity block, join date,
    issue date, each against the paragraph text as the earlier replacements
    left it.  So a join-date or issue-date marker that only came in with the
    sentence put in for the identity block (with the name, gender, major or
    identity number spliced into it) is itself replaced by the date.  This
    is the text read back once the loop body is through, and it gets
    through whenever the paragraph text and the four fields are text XML
    can hold. *)
Theorem C9_spliced_marker_replaced_again (torn : Paragraph → str → Paragraph)
    (para : Paragraph)
    (name gender id_card major : str) (join_date issue_date : datetime) :
  let sentence := new_text name gender id_card major in
  let t1 := str_replace (para_text para) (target 0) sentence in
  let t2 := str_replace t1 (target 1) (strftime_cn join_date) in
  let body :=
    replace_in_paragraph torn para name gender id_card major
      join_date issue_date in
  str_contains (para_text para) (target 0) = true →
  (∀ para', body = (para', None) →
     para_text para'
     = map br_char (str_replace t2 (target 2) (strftime_cn issue_date))
     ∧ (∀ pre post s1 s2 : str,
          para_text para = pre ++ target 0 ++ post →
          str_contains (pre ++ removelast (target 0)) (target 0) = false →
          sentence = s1 ++ target 1 ++ s2 →
          str_contains (pre ++ s1 ++ removelast (target 1)) (target 1)
          = false →
          t2 = pre ++ s1 ++ strftime_cn join_date
               ++ str_replace (s2 ++ str_replace post (target 0) sentence)
                    (target 1) (strftime_cn join_date))
     ∧ (∀ pre post s1 s2 : str,
          para_text para = pre ++ target 0 ++ post →
          str_contains (pre ++ removelast (target 0)) (target 0) = false →
          sentence = s1 ++ target 2 ++ s2 →
          str_contains t1 (target 1) = false →
          str_contains (pre ++ s1 ++ removelast (target 2)) (target 2)
          = false →
          para_text para'
          = map br_char
              (pre ++ s1 ++ strftime_cn issue_date
               ++ str_replace (s2 ++ str_replace post (target 0) sentence)
                    (target 2) (strftime_cn issue_date))))
  ∧ (xml_text (para_text para) = true →
     xml_fields name gender id_card major = true →
     ∃ para', body = (para', None)).
Proof.
  intros sentence t1 t2 body H0. split.
  2:{ intros Hpara Hfields. eexists. by apply replace_in_paragraph_accepts. }
  intros para' ->%replace_in_paragraph_returns.
  assert (para_text
            (filled_paragraph para name gender id_card major
               join_date issue_date)
          = map br_char (str_replace t2 (target 2) (strftime_cn issue_date)))
    as Hfinal.
  { rewrite fill_matched_text; [done|].
    by apply (matched_by_target _ 0); [lia|]. }
  destruct (target_ok 0) as [Hne0 _]; [lia|].
  destruct (target_ok 1) as [Hne1 _]; [lia|].
  destruct (target_ok 2) as [Hne2 _]; [lia|].
  assert (∀ pre post s1 s2 m,
            para_text para = pre ++ target 0 ++ post →
            str_contains (pre ++ removelast (target 0)) (target 0) = false →
            sentence = s1 ++ m ++ s2 →
            t1 = (pre ++ s1) ++ m
                 ++ (s2 ++ str_replace post (target 0) sentence)) as Ht1.
  { intros pre post s1 s2 m Ht Hfirst Hsentence. subst t1.
    rewrite Ht, str_replace_first by done.
    rewrite Hsentence at 1. by rewrite <- !app_assoc. }
  split; [exact Hfinal|]. split.
  - intros pre post s1 s2 Ht Hfirst Hsentence Hfirst1.
    subst t2. rewrite (Ht1 pre post s1 s2 (target 1)) by done.
    rewrite str_replace_first; [by rewrite <- !app_assoc | done |].
    by rewrite <- app_assoc.
  - intros pre post s1 s2 Ht Hfirst Hsentence Habsent Hfirst2.
    rewrite Hfinal. f_equal. subst t2.
    rewrite (str_replace_absent t1 (target 1)) by done.
    rewrite (Ht1 pre post s1 s2 (target 2)) by done.
    rewrite str_replace_first; [by rewrite <- !app_assoc | done |].
    by rewrite <- app_assoc.
Qed.

Lemma C9_spliced_marker_replaced_again_witness :
  ∃ para',
    replace_in_paragraph (λ para _, para) Sample.identity_para
      (lit "小" ++ target 2 ++ lit "明") Sample.male Sample.id_430
      Sample.software Sample.jul_03 Sample.jul_17 = (para', None)
    ∧ para_text para'
      = lit "兹证明小2025年07月17日明，男，系湖南理工学院信息科学与工程学院软件工程专业2025届毕业生（身份证号：430XXXXXXXXXXXXXXX）。".
Proof.
  destruct (C9_spliced_marker_replaced_again (λ para _, para)
              Sample.identity_para
              (lit "小" ++ target 2 ++ lit "明") Sample.male Sample.id_430
              Sample.software Sample.jul_03 Sample.jul_17)
    as [Htext Hreturns].
  { vm_compute. reflexivity. }
  destruct Hreturns as [para' Hbody];
    [vm_compute; reflexivity | vm_compute; reflexivity |].
  exists para'. split; [done|].
  destruct (Htext para' Hbody) as (_ & _ & Hissue).
  etransitivity.
  - apply (Hissue (lit "兹证明") (lit "。") (lit "小")
             (new_text (lit "明") Sample.male Sample.id_430 Sample.software));
      vm_compute; reflexivity.
  - vm_compute. reflexivity.
Defined.

(** ** Business-day generator *)

Section WorkdayFacts.
Local Open Scope Z_scope.

(** The first loop keeps the working days among [start + i]. *)
Lemma first_half_loop_filter start idxs acc :
  Forall (λ i, 0 < toordinal start + i ≤ MAXORDINAL) idxs →
  first_half_loop start idxs acc
  = Ok (acc ++ List.filter is_workday
                 (map (λ i, ord2ymd (toordinal start + i)) idxs)).
Proof.
  intros H. revert acc.
  induction H as [|i idxs [Hlo Hhi] _ IH]; intros acc;
    cbn [first_half_loop map List.filter].
  - by rewrite app_nil_r.
  - unfold add_days.
    assert ((0 <? toordinal start + i) && (toordinal start + i <=? MAXORDINAL)
            = true) as ->.
    { apply andb_true_intro. split; [by apply Z.ltb_lt | by apply Z.leb_le]. }
    rewrite IH. destruct (is_workday _); [|done].
    by rewrite <- app_assoc.
Qed.

Lemma fits_int_spec x :
  fits_int x = true ↔ -2147483648 ≤ x < 2147483648.
Proof.
  unfold fits_int. rewrite andb_true_iff, Z.leb_le, Z.ltb_lt.
  change (2 ^ 31) with 2147483648. lia.
Qed.

Lemma july_day_valid i :
  1 ≤ i ≤ days_in_month 2025 7 →
  datetime_new 2025 7 i = Ok (mk_datetime 2025 7 i).
Proof.
  intros [Hlo Hhi]. unfold datetime_new.
  assert (fits_int i = true) as ->.
  { apply fits_int_spec. change (days_in_month 2025 7) with 31 in Hhi. lia. }
  change (fits_int 2025 && fits_int 7 && true) with true. cbn [negb].
  change ((MINYEAR <=? 2025) && (2025 <=? MAXYEAR)) with true.
  change ((1 <=? 7) && (7 <=? 12)) with true.
  cbn [negb].
  assert ((1 <=? i) && (i <=? days_in_month 2025 7) = true) as ->; [|done].
  apply andb_true_intro. split; by apply Z.leb_le.
Qed.

(** The second loop keeps the working days among the days [i] of July
    2025, as long as every [i] is a day of that month. *)
Lemma second_half_loop_filter idxs acc :
  Forall (λ i, 1 ≤ i ≤ days_in_month 2025 7) idxs →
  second_half_loop idxs acc
  = Ok (acc ++ List.filter is_workday (map (mk_datetime 2025 7) idxs)).
Proof.
  intros H. revert acc.
  induction H as [|i idxs Hi _ IH]; intros acc; cbn [second_half_loop].
  - by rewrite app_nil_r.
  - rewrite july_day_valid by done. rewrite IH. cbn [map List.filter].
    destruct (is_workday _); [|done].
    by rewrite <- app_assoc.
Qed.

(** It leaves the loop at the first [i] past the end of the month. *)
Lemma second_half_loop_break i idxs acc :
  days_in_month 2025 7 < i < 2147483648 →
  second_half_loop (i :: idxs) acc = Ok acc.
Proof.
  intros [Hi Hint]. cbn [second_half_loop]. unfold datetime_new.
  assert (fits_int i = true) as ->.
  { apply fits_int_spec. change (days_in_month 2025 7) with 31 in Hi. lia. }
  change (fits_int 2025 && fits_int 7 && true) with true. cbn [negb].
  change ((MINYEAR <=? 2025) && (2025 <=? MAXYEAR)) with true.
  change ((1 <=? 7) && (7 <=? 12)) with true.
  cbn [negb].
  assert ((i <=? days_in_month 2025 7) = false) as ->
    by (by apply Z.leb_gt).
  by rewrite andb_false_r.
Qed.

Lemma range_spec a b i : i ∈ range a b ↔ a ≤ i < b.
Proof. unfold range. rewrite elem_of_seqZ. lia. Qed.

Lemma july_first_offsets :
  Forall (λ i, ord2ymd (toordinal (mk_datetime 2025 7 1) + i)
               = mk_datetime 2025 7 (1 + i)) (range 0 15).
Proof.
  assert (range 0 15 = [0; 1; 2; 3; 4; 5; 6; 7; 8; 9; 10; 11; 12; 13; 14])
    as -> by reflexivity.
  repeat (constructor; [vm_compute; reflexivity|]).
  constructor.
Qed.

(** What [get_workdays] returns, as filters over the days of the month. *)
Lemma get_workdays_filter :
  get_workdays
  = Ok (List.filter is_workday (map (mk_datetime 2025 7) (range 1 16)),
        List.filter is_workday (map (mk_datetime 2025 7) (range 16 32))).
Proof.
  unfold get_workdays.
  rewrite july_day_valid by (vm_compute; split; discriminate).
  rewrite first_half_loop_filter.
  2:{ apply Forall_forall. intros i Hi%range_spec.
      change (toordinal (mk_datetime 2025 7 1)) with 739433.
      unfold MAXORDINAL. lia. }
  rewrite second_half_loop_filter.
  2:{ apply Forall_forall. intros i Hi%range_spec.
      change (days_in_month 2025 7) with 31. lia. }
  assert (map (λ i, ord2ymd (toordinal (mk_datetime 2025 7 1) + i))
            (range 0 15)
          = map (mk_datetime 2025 7) (range 1 16)) as ->; [|done].
  assert (range 1 16 = map (Z.add 1) (range 0 15)) as -> by reflexivity.
  rewrite map_map. apply Forall_fmap_ext_1, july_first_offsets.
Qed.

End WorkdayFacts.

Section PoolFacts.
Local Open Scope Z_scope.

Lemma weekday_range d : 0 ≤ weekday d < 7.
Proof. unfold weekday. apply Z.mod_pos_bound. lia. Qed.

(** Membership in a pool built from the days [a .. b-1] of July 2025. *)
Lemma pool_member a b d :
  d ∈ List.filter is_workday (map (mk_datetime 2025 7) (range a b))
  ↔ year d = 2025 ∧ month d = 7 ∧ a ≤ day d < b ∧ 0 ≤ weekday d ≤ 4.
Proof.
  rewrite list_elem_of_In, filter_In, in_map_iff.
  unfold is_workday. rewrite Z.ltb_lt.
  pose proof (weekday_range d). split.
  - intros [(i & <- & Hi%list_elem_of_In%range_spec) Hw]. simpl. lia.
  - intros (Hy & Hm & Hd & Hw). split; [|lia].
    exists (day d). split; [by destruct d; simpl in *; subst|].
    by apply list_elem_of_In, range_spec.
Qed.

Lemma toordinal_july i : toordinal (mk_datetime 2025 7 i) = 739432 + i.
Proof. reflexivity. Qed.

(** Such a pool is in chronological order. *)
Lemma pool_sorted a n :
  StronglySorted (λ d1 d2, toordinal d1 < toordinal d2)
    (List.filter is_workday (map (mk_datetime 2025 7) (seqZ a n))).
Proof.
  unfold seqZ. generalize (Z.to_nat n) as k. intros k.
  assert (∀ j : nat,
            StronglySorted (λ d1 d2, toordinal d1 < toordinal d2)
              (List.filter is_workday
                 (map (mk_datetime 2025 7)
                    ((λ i : nat, Z.of_nat i + a) <$> seq j k)))) as H.
  2:{ apply H. }
  induction k as [|k IH]; intros j; [constructor|].
  cbn [seq fmap list_fmap map List.filter].
  destruct (is_workday _); [|apply IH].
  constructor; [apply IH|].
  apply Forall_forall. intros d Hd%list_elem_of_In.
  apply filter_In in Hd as [Hd _]. apply in_map_iff in Hd as (i & <- & Hi).
  apply list_elem_of_In, list_elem_of_fmap in Hi as (i' & -> & Hi').
  apply elem_of_seq in Hi'. rewrite !toordinal_july. lia.
Qed.

End PoolFacts.

(** ** Business-day generator: the stated properties *)

(** C3: the two pools hold working days only (weekday index 0 to 4, so no
    Saturday and no Sunday); the first is exactly the working days among
    days 1-15 of the month, the second exactly those among days 16-N;
    together they are all working days of the month; each is in
    chronological order. *)
Theorem C3_pools_partition_the_weekdays :
  ∃ first_half second_half : list datetime,
    get_workdays = Ok (first_half, second_half)
    ∧ (∀ d, d ∈ first_half ++ second_half →
            (0 ≤ weekday d ≤ 4 ∧ weekday d ≠ 5 ∧ weekday d ≠ 6)%Z)
    ∧ (∀ d, d ∈ first_half
            ↔ (year d = 2025 ∧ month d = 7 ∧ 1 ≤ day d ≤ 15
               ∧ 0 ≤ weekday d ≤ 4)%Z)
    ∧ (∀ d, d ∈ second_half
            ↔ (year d = 2025 ∧ month d = 7
               ∧ 16 ≤ day d ≤ days_in_month 2025 7
               ∧ 0 ≤ weekday d ≤ 4)%Z)
    ∧ (∀ d, d ∈ first_half ++ second_half
            ↔ (year d = 2025 ∧ month d = 7
               ∧ 1 ≤ day d ≤ days_in_month 2025 7
               ∧ 0 ≤ weekday d ≤ 4)%Z)
    ∧ StronglySorted (λ d1 d2, (toordinal d1 < toordinal d2)%Z) first_half
    ∧ StronglySorted (λ d1 d2, (toordinal d1 < toordinal d2)%Z) second_half.
Proof.
  exists (List.filter is_workday (map (mk_datetime 2025 7) (range 1 16))),
         (List.filter is_workday (map (mk_datetime 2025 7) (range 16 32))).
  change (days_in_month 2025 7) with 31%Z.
  split; [apply get_workdays_filter|].
  split; [|split; [|split; [|split; [|split]]]].
  - intros d [H|H]%elem_of_app; apply pool_member in H; lia.
  - intros d. rewrite pool_member. lia.
  - intros d. rewrite pool_member. lia.
  - intros d. rewrite elem_of_app, !pool_member. lia.
  - apply pool_sorted.
  - apply pool_sorted.
Qed.

(** C4: for July 2025, a month of 31 days, the first pool holds exactly 11
    dates, the days 1-15 without the weekend days 5, 6, 12 and 13, and the
    second pool holds exactly the working days among July 16-31. *)
Theorem C4_july_2025_pools :
  let july := map (mk_datetime 2025 7) in
  ∃ first_half second_half : list datetime,
    get_workdays = Ok (first_half, second_half)
    ∧ days_in_month 2025 7 = 31%Z
    ∧ length first_half = 11%nat
    ∧ first_half = july [1; 2; 3; 4; 7; 8; 9; 10; 11; 14; 15]%Z
    ∧ List.filter (λ d, negb (is_workday d)) (july (range 1 16))
      = july [5; 6; 12; 13]%Z
    ∧ second_half = List.filter is_workday (july (range 16 32))
    ∧ second_half = july [16; 17; 18; 21; 22; 23; 24; 25; 28; 29; 30; 31]%Z.
Proof.
  intros july.
  exists (july [1; 2; 3; 4; 7; 8; 9; 10; 11; 14; 15]%Z),
         (july [16; 17; 18; 21; 22; 23; 24; 25; 28; 29; 30; 31]%Z).
  repeat split; vm_compute; reflexivity.
Qed.

(** ** Roster loader *)

Section RosterFacts.

Implicit Types s a b line : str.

Lemma lstrip_all_space a : forallb isspace a = true → lstrip a = [].
Proof.
  induction a as [|c a IH]; [done|]. cbn [forallb lstrip].
  intros [-> Ha]%andb_prop. by apply IH.
Qed.

Lemma lstrip_app a b :
  lstrip (a ++ b) = if forallb isspace a then lstrip b else lstrip a ++ b.
Proof.
  induction a as [|c a IH]; [done|].
  cbn [forallb lstrip app]. destruct (isspace c); [apply IH | done].
Qed.

(** What [lstrip] removes is white space, and what it leaves does not
    start with white space. *)
Lemma lstrip_spec s :
  ∃ a, s = a ++ lstrip s ∧ forallb isspace a = true
       ∧ match lstrip s with [] => True | c :: _ => isspace c = false end.
Proof.
  induction s as [|c s (a & Hs & Ha & Hhd)]; [by exists []|].
  cbn [lstrip]. destruct (isspace c) eqn:Hc.
  - exists (c :: a). cbn [forallb app]. rewrite Hc, Ha. by rewrite <- Hs.
  - by exists [].
Qed.

Lemma strip_spec s :
  ∃ a b, s = a ++ strip s ++ b
         ∧ forallb isspace a = true ∧ forallb isspace b = true
         ∧ trimmed (strip s) = true.
Proof.
  destruct (lstrip_spec s) as (a & Hs & Ha & Hhd).
  destruct (lstrip_spec (rev (lstrip s))) as (b & Hr & Hb & Hlast).
  exists a, (rev b). unfold strip, rstrip.
  assert (lstrip s = rev (lstrip (rev (lstrip s))) ++ rev b) as Hu.
  { rewrite <- rev_app_distr, <- Hr. by rewrite rev_involutive. }
  split; [by rewrite <- Hu|]. split; [done|]. split.
  { rewrite forallb_forall in Hb |- *. intros c Hc. apply Hb.
    by apply in_rev. }
  unfold trimmed. rewrite rev_involutive. apply andb_true_intro. split.
  - rewrite Hu in Hhd.
    destruct (rev (lstrip (rev (lstrip s)))) as [|c u]; [done|].
    simpl in Hhd. by rewrite Hhd.
  - destruct (lstrip (rev (lstrip s))) as [|c u]; [done|]. by rewrite Hlast.
Qed.

(** The line feed a file object leaves on a line is stripped with the
    rest. *)
Lemma strip_line_feed line : strip (line ++ [10%N]) = strip line.
Proof.
  unfold strip. rewrite lstrip_app.
  destruct (forallb isspace line) eqn:Hsp.
  - by rewrite (lstrip_all_space line).
  - unfold rstrip. by rewrite rev_app_distr.
Qed.

Lemma split_lines_cons content : ∃ line lines, split_lines content = line :: lines.
Proof.
  destruct content as [|c rest]; [by eexists _, _|].
  cbn [split_lines]. destruct (c =? 10)%N; [by eexists _, _|].
  destruct (split_lines rest); by eexists _, _.
Qed.

Lemma iter_lines_split content :
  iter_lines content = with_line_feeds (split_lines content).
Proof.
  induction content as [|c rest IH]; [done|].
  cbn [iter_lines split_lines]. rewrite IH.
  destruct (split_lines_cons rest) as (line & lines & E). rewrite E.
  destruct (N.eqb_spec c 10) as [->|Hc]; [done|].
  destruct lines as [|line' lines].
  - cbn [with_line_feeds]. by destruct line.
  - done.
Qed.

Lemma roster_with_line_feeds (lines : list str) :
  List.filter truthy (map strip (with_line_feeds lines))
  = List.filter truthy (map strip lines).
Proof.
  induction lines as [|line lines IH]; [done|].
  destruct lines as [|line' lines].
  - cbn [with_line_feeds]. destruct line; [done|]. done.
  - change (with_line_feeds (line :: line' :: lines))
      with ((line ++ [10%N]) :: with_line_feeds (line' :: lines)).
    cbn [map List.filter]. by rewrite strip_line_feed, IH.
Qed.

Lemma map_filter_comm {A B} (f : A → B) (p : B → bool) (l : list A) :
  map f (List.filter (λ x, p (f x)) l) = List.filter p (map f l).
Proof.
  induction l as [|x l IH]; [done|]. cbn [map List.filter].
  destruct (p (f x)); cbn [map]; by rewrite IH.
Qed.

(** The comprehension of [read_name_list] computes the roster. *)
Lemma comprehension_roster content :
  map strip (List.filter (λ line, truthy (strip line)) (iter_lines content))
  = roster_of content.
Proof.
  rewrite (map_filter_comm strip truthy), iter_lines_split.
  apply roster_with_line_feeds.
Qed.

Lemma roster_of_spec content :
  Forall (λ n, n ≠ [] ∧ trimmed n = true
               ∧ ∃ line a b, line ∈ split_lines content
                   ∧ line = a ++ n ++ b
                   ∧ forallb isspace a = true ∧ forallb isspace b = true)
    (roster_of content).
Proof.
  apply Forall_forall. intros n Hn%list_elem_of_In.
  unfold roster_of in Hn. apply filter_In in Hn as [Hn Hne].
  apply in_map_iff in Hn as (line & <- & Hline).
  destruct (strip_spec line) as (a & b & Hab & Ha & Hb & Htr).
  split; [by destruct (strip line)|]. split; [done|].
  exists line, a, b. by rewrite list_elem_of_In.
Qed.

End RosterFacts.

(** C7: the roster loader returns the lines of the text, each with the
    white space around it stripped, without the lines that are empty after
    stripping, in the order of the text. *)
Theorem C7_roster_is_trimmed_nonempty_lines (w : World)
    (file_path content : str) :
  files w !! file_path = Some (TextFile content) →
  read_name_list file_path w
  = Ok (List.filter truthy (map strip (split_lines content)), w)
  ∧ Forall (λ n, n ≠ [] ∧ trimmed n = true
                 ∧ ∃ line a b, line ∈ split_lines content
                     ∧ line = a ++ n ++ b
                     ∧ forallb isspace a = true ∧ forallb isspace b = true)
      (List.filter truthy (map strip (split_lines content))).
Proof.
  intros Hfile. split; [|apply roster_of_spec].
  unfold read_name_list, mbind, M_bind, open_read. rewrite Hfile.
  unfold mret, M_ret. by rewrite comprehension_roster.
Qed.

Lemma C7_roster_is_trimmed_nonempty_lines_witness :
  read_name_list Sample.names_path Sample.world
  = Ok ([lit "张三"; lit "王五"; lit "李四"], Sample.world).
Proof.
  apply (C7_roster_is_trimmed_nonempty_lines Sample.world Sample.names_path
           Sample.names_txt).
  vm_compute. reflexivity.
Defined.

(** ** Student directory *)

Section DirectoryFacts.

Lemma last_row_named_cons name row df :
  last_row_named name (row :: df)
  = match last_row_named name df with
    | Some r => Some r
    | None => if bool_decide (row_name row = name) then Some row else None
    end.
Proof.
  unfold last_row_named. cbn [List.filter].
  destruct (bool_decide (row_name row = name)); [|by destruct (last _)].
  destruct (List.filter _ df) as [|r rs] eqn:E; [done|].
  rewrite last_cons. by destruct (last (r :: rs)).
Qed.

(** Rows are entered in order, each overwriting an earlier entry of the
    same name. *)
Lemma directory_lookup df student_info name :
  fold_left add_row df student_info !! name
  = match last_row_named name df with
    | Some row => Some (record_of row)
    | None => student_info !! name
    end.
Proof.
  revert student_info. induction df as [|row df IH]; intros student_info.
  - done.
  - cbn [fold_left]. rewrite IH, last_row_named_cons.
    destruct (last_row_named name df); [done|].
    unfold add_row. case_bool_decide as Hname.
    + subst name. by rewrite lookup_insert_eq.
    + by rewrite lookup_insert_ne.
Qed.

Lemma last_row_named_app name pre row post :
  row_name row = name →
  Forall (λ r, row_name r ≠ name) post →
  last_row_named name (pre ++ row :: post) = Some row.
Proof.
  intros Hrow Hpost. unfold last_row_named.
  rewrite List.filter_app. cbn [List.filter].
  rewrite bool_decide_eq_true_2 by done.
  assert (List.filter (λ r, bool_decide (row_name r = name)) post = []) as ->.
  { induction Hpost as [|r post Hr _ IH]; [done|]. cbn [List.filter].
    by rewrite bool_decide_eq_false_2. }
  apply last_snoc.
Qed.

End DirectoryFacts.

(** C8: the directory is built without any error, and where several rows
    bear the same name it maps the name to the gender, identity number and
    major of the last of them. *)
Theorem C8_last_row_wins (w : World) (file_path : str) (df : list Row) :
  files w !! file_path = Some (ExcelFile df) →
  ∃ student_info : gmap str StudentRecord,
    read_student_info file_path w = Ok (student_info, w)
    ∧ (∀ name,
         student_info !! name
         = (λ row, mk_info (row_gender row) (row_id_card row) (row_major row))
             <$> last (List.filter (λ row, bool_decide (row_name row = name)) df))
    ∧ (∀ pre row post,
         df = pre ++ row :: post →
         Forall (λ r, row_name r ≠ row_name row) post →
         student_info !! row_name row
         = Some (mk_info (row_gender row) (row_id_card row) (row_major row))).
Proof.
  intros Hfile. eexists. split.
  { unfold read_student_info, mbind, M_bind, read_excel. rewrite Hfile.
    reflexivity. }
  split.
  - intros name. rewrite (directory_lookup df ∅ name).
    fold (last_row_named name df).
    by destruct (last_row_named name df).
  - intros pre row post -> Hpost. rewrite (directory_lookup _ ∅).
    by rewrite (last_row_named_app _ pre row post).
Qed.

Lemma C8_last_row_wins_witness :
  ∃ student_info : gmap str StudentRecord,
    read_student_info Sample.sheet_path Sample.world
    = Ok (student_info, Sample.world)
    ∧ student_info !! Sample.zhang_san
      = Some (mk_info Sample.male Sample.id_430 Sample.software).
Proof.
  destruct (C8_last_row_wins Sample.world Sample.sheet_path Sample.sheet)
    as (student_info & Hread & _ & Hlast).
  { vm_compute. reflexivity. }
  exists student_info. split; [exact Hread|].
  apply (Hlast [Sample.zhang_old; Sample.li_si] Sample.zhang_new []).
  - reflexivity.
  - constructor.
Defined.

(** ** Orchestrator *)

Section OrchestratorFacts.

Variable rng : nat → nat.
Variable repr_list : list str → str.
Variable repr_info : StudentRecord → str.
Variable env : Env.

Lemma bind_ok {A B} (m : M A) (f : A → M B) w a w' :
  m w = Ok (a, w') → (m ≫= f) w = f a w'.
Proof. intros H. unfold mbind, M_bind. by rewrite H. Qed.

Lemma random_choice_ok {A} (seq : list A) w :
  seq ≠ [] →
  ∃ x, x ∈ seq
       ∧ random_choice rng seq w
         = Ok (x, mk_world (stdout w) (files w) (dirs w) (S (draws w))).
Proof.
  intros Hne. unfold random_choice.
  destruct (lookup_lt_is_Some_2 seq (rng (draws w) mod length seq)) as [x Hx].
  { apply Nat.mod_upper_bound. by destruct seq. }
  exists x. rewrite Hx. split; [|done]. by eapply list_elem_of_lookup_2.
Qed.

Lemma warning_inj n m : warning n = warning m → n = m.
Proof.
  unfold warning. intros H. apply app_inv_head in H.
  by apply app_inv_tail in H.
Qed.

Lemma output_path_cases n :
  output_path n = n ++ lit ".doc" ∧ head (output_path n) = Some 47%N
  ∨ output_path n = output_dir ++ lit "/" ++ n ++ lit ".doc".
Proof.
  unfold output_path, os_path_join.
  destruct (startswith (n ++ lit ".doc") (lit "/")) eqn:E; [left|by right].
  split; [done|].
  apply startswith_prefix in E as [r ->]. done.
Qed.

Lemma output_path_inj n m : output_path n = output_path m → n = m.
Proof.
  destruct (output_path_cases n) as [[Hn Hhd]|Hn],
           (output_path_cases m) as [[Hm Hhd']|Hm]; intros E.
  - rewrite Hn, Hm in E. by apply app_inv_tail in E.
  - rewrite E, Hm in Hhd. done.
  - rewrite <- E, Hn in Hhd'. done.
  - rewrite Hn, Hm in E. apply app_inv_head in E.
    apply app_inv_head in E. by apply app_inv_tail in E.
Qed.

Lemma count_app x l1 l2 : count x (l1 ++ l2) = (count x l1 + count x l2)%nat.
Proof. unfold count. by rewrite List.filter_app, length_app. Qed.

Lemma count_cons x y l :
  count x (y :: l) = ((if bool_decide (y = x) then 1 else 0) + count x l)%nat.
Proof. unfold count. cbn [List.filter]. by case_bool_decide. Qed.

Lemma count_absent x l : Forall (λ y, y ≠ x) l → count x l = 0%nat.
Proof.
  induction 1 as [|y l Hy _ IH]; [done|].
  rewrite count_cons, IH. by rewrite bool_decide_eq_false_2.
Qed.

Lemma count_pos x l : x ∈ l → (1 ≤ count x l)%nat.
Proof.
  induction 1 as [y l|y z l _ IH]; rewrite count_cons.
  - rewrite bool_decide_eq_true_2 by done. lia.
  - lia.
Qed.

Lemma read_name_list_ok file_path content w :
  files w !! file_path = Some (TextFile content) →
  read_name_list file_path w = Ok (roster_of content, w).
Proof.
  intros Hfile. unfold read_name_list, mbind, M_bind, open_read.
  rewrite Hfile. unfold mret, M_ret. by rewrite comprehension_roster.
Qed.

Lemma read_student_info_ok file_path df w :
  files w !! file_path = Some (ExcelFile df) →
  read_student_info file_path w = Ok (fold_left add_row df ∅, w).
Proof.
  intros Hfile. unfold read_student_info, mbind, M_bind, read_excel.
  by rewrite Hfile.
Qed.

Lemma not_warning_by_head line c :
  head line = Some c → c ≠ 35686%N → ∀ n, line ≠ warning n.
Proof. intros Hc Hne n ->. simpl in Hc. congruence. Qed.

Lemma read_name_list_inv file_path names w w' :
  read_name_list file_path w = Ok (names, w') →
  ∃ content,
    files w !! file_path = Some (TextFile content)
    ∧ names = roster_of content ∧ w' = w.
Proof.
  unfold read_name_list, mbind, M_bind, open_read, mret, M_ret.
  destruct (files w !! file_path) as [[content| |]|] eqn:E; try done.
  2:{ by destruct (bool_decide _). }
  intros [= <- <-]. exists content. by rewrite comprehension_roster.
Qed.

Lemma read_student_info_inv file_path student_info w w' :
  read_student_info file_path w = Ok (student_info, w') →
  ∃ df,
    files w !! file_path = Some (ExcelFile df)
    ∧ student_info = fold_left add_row df ∅ ∧ w' = w.
Proof.
  unfold read_student_info, mbind, M_bind, read_excel, mret, M_ret.
  destruct (files w !! file_path) as [[|df|]|] eqn:E; try done.
  2:{ by destruct (bool_decide _). }
  intros [= <- <-]. by exists df.
Qed.

Lemma xml_text_no_nul (s : str) : xml_text s = true → 0%N ∉ s.
Proof.
  intros H Hin. unfold xml_text in H. rewrite forallb_forall in H.
  apply list_elem_of_In, H in Hin. done.
Qed.

Lemma output_path_no_nul n : xml_text n = true → 0%N ∉ output_path n.
Proof.
  intros Hn. apply xml_text_no_nul.
  destruct (output_path_cases n) as [[-> _]| ->];
    rewrite !xml_text_app, Hn; done.
Qed.

Lemma output_path_not_output_dir n : output_path n ≠ output_dir.
Proof.
  intros E. apply (f_equal last) in E.
  assert (∀ s, last (s ++ lit ".doc") = Some 99%N) as Hdoc.
  { intros s. change (lit ".doc") with ([46; 100; 111] ++ [99])%N.
    by rewrite app_assoc, last_snoc. }
  destruct (output_path_cases n) as [[Hn _]|Hn]; rewrite Hn in E.
  - by rewrite Hdoc in E.
  - by rewrite !app_assoc, Hdoc in E.
Qed.

(** A world after a certificate has been saved: the output folder is
    there, and no folder is still to come. *)
Lemma exists_in_after_certificate w out doc n k :
  exists_in
    (mk_world out (<[output_path n := doc]> (files w)) (folders_then w) k)
    output_dir = true.
Proof.
  unfold exists_in at 1. cbn [dirs files]. unfold folders_then.
  destruct (exists_in w output_dir) eqn:Hex.
  - unfold exists_in in Hex. apply orb_true_iff in Hex as [Hex|Hex].
    + by rewrite Hex.
    + apply bool_decide_eq_true_1 in Hex as [f Hf].
      rewrite lookup_insert_ne by apply output_path_not_output_dir.
      rewrite (bool_decide_eq_true_2 (is_Some _)) by eauto.
      apply orb_true_r.
  - rewrite bool_decide_eq_true_2; [done|].
    apply elem_of_union. left. by apply elem_of_singleton.
Qed.

Lemma folders_then_after_certificate w out doc n k :
  folders_then
    (mk_world out (<[output_path n := doc]> (files w)) (folders_then w) k)
  = folders_then w.
Proof.
  unfold folders_then at 1. by rewrite exists_in_after_certificate.
Qed.

Lemma folder_created_not_other name info :
  folder_created ≠ lit "找到" ++ name ++ lit "的信息: " ++ repr_info info
  ∧ folder_created ≠ lit "已生成：" ++ output_path name
  ∧ folder_created ≠ warning name.
Proof.
  split; [|split]; intros E.
  - apply (f_equal head) in E. done.
  - apply (f_equal (λ l, l !! 1%nat)) in E. done.
  - apply (f_equal head) in E. done.
Qed.

Lemma certificate_lines_no_warning name info found :
  Forall (λ line, ∀ n, line ≠ warning n)
    (certificate_lines repr_info name info found).
Proof.
  unfold certificate_lines, folder_created.
  destruct found; repeat constructor; eapply not_warning_by_head; done.
Qed.

Lemma certificate_lines_folder name info found :
  count folder_created (certificate_lines repr_info name info found)
  = (if found then 0 else 1)%nat.
Proof.
  destruct (folder_created_not_other name info) as (Hn1 & Hn2 & _).
  unfold certificate_lines.
  rewrite !count_app, !count_cons.
  rewrite !(bool_decide_eq_false_2 (_ = folder_created)) by congruence.
  destruct found; [done|].
  rewrite count_cons, bool_decide_eq_true_2 by done. done.
Qed.

Context (student_info : gmap str StudentRecord).
Context (first_half second_half : list datetime) (template_path : str).

(** A roster name the directory lacks: one warning, nothing else, whatever
    the world. *)
Lemma process_name_absent name w :
  student_info !! name = None →
  process_name rng repr_info env student_info first_half
    second_half template_path name w
  = Ok (tt, mk_world (stdout w ++ [warning name]) (files w) (dirs w)
              (draws w)).
Proof. intros H. unfold process_name. by rewrite H. Qed.

(** A roster name the directory has, when its step returns: two draws,
    the template filled without an exception, the folder seen to, the
    certificate saved. *)
Lemma process_name_present_inv name info w w' :
  student_info !! name = Some info →
  direct (output_path name) = true →
  process_name rng repr_info env student_info first_half
    second_half template_path name w = Ok (tt, w') →
  ∃ join_date issue_date template doc,
    first_half !! (rng (draws w) mod length first_half)%nat = Some join_date
    ∧ second_half !! (rng (S (draws w)) mod length second_half)%nat
      = Some issue_date
    ∧ files w !! template_path = Some (DocxFile template)
    ∧ replace_placeholders (env_torn env) template name (info_gender info)
        (info_id_card info) (info_major info) join_date issue_date
      = (doc, None)
    ∧ w' = mk_world
             (stdout w
              ++ certificate_lines repr_info name info
                   (exists_in w output_dir))
             (<[output_path name := DocxFile doc]> (files w))
             (folders_then w) (S (S (draws w))).
Proof.
  intros Hinfo Hdirect. unfold process_name. rewrite Hinfo.
  unfold mbind, M_bind, mret, M_ret, print, random_choice.
  cbn [stdout files dirs draws].
  destruct (first_half !! _) as [jd|] eqn:Hjd; [|done].
  cbn [stdout files dirs draws].
  destruct (second_half !! _) as [isd|] eqn:Hisd; [|done].
  unfold load_document. cbn [stdout files dirs draws].
  destruct (files w !! template_path) as [[| |template]|] eqn:Htpl;
    try done.
  2:{ by destruct (bool_decide _). }
  destruct (replace_placeholders (env_torn env) template _ _ _ _ _ _)
    as [doc [e|]] eqn:Hfill; [done|].
  unfold os_path_exists, folders_then, certificate_lines, exists_in.
  cbn [stdout files dirs draws].
  destruct (bool_decide (output_dir ∈ dirs w)
            || bool_decide (is_Some (files w !! output_dir))) eqn:Hex.
  - unfold save_document. cbn [stdout files dirs draws].
    rewrite Hdirect. cbn [negb].
    repeat match goal with
           | |- context [if ?c then _ else _] => destruct c
           end; try done.
    intros [= <-]. exists jd, isd, template, doc.
    repeat split; try done. by rewrite <- !app_assoc.
  - unfold os_makedirs. cbn [stdout files dirs draws]. rewrite Hex.
    destruct (env_allows env output_dir); [|done].
    unfold save_document. cbn [negb stdout files dirs draws].
    rewrite Hdirect. cbn [negb].
    repeat match goal with
           | |- context [if ?c then _ else _] => destruct c
           end; try done.
    intros [= <-]. exists jd, isd, template, doc.
    repeat split; try done. by rewrite <- !app_assoc.
Qed.

(** Whatever the certificate path, a step that returns has drawn twice
    for a name the directory has. *)
Lemma process_name_present_draws name info w w' :
  student_info !! name = Some info →
  process_name rng repr_info env student_info
    first_half second_half template_path name w = Ok (tt, w') →
  draws w' = S (S (draws w)).
Proof.
  intros Hinfo. unfold process_name. rewrite Hinfo.
  unfold mbind, M_bind, mret, M_ret, print, random_choice.
  cbn [stdout files dirs draws].
  destruct (first_half !! _) as [jd|] eqn:Hjd; [|done].
  cbn [stdout files dirs draws].
  destruct (second_half !! _) as [isd|] eqn:Hisd; [|done].
  unfold load_document. cbn [stdout files dirs draws].
  destruct (files w !! template_path) as [[| |template]|] eqn:Htpl;
    try done.
  2:{ by destruct (bool_decide _). }
  destruct (replace_placeholders (env_torn env) template _ _ _ _ _ _)
    as [doc [e|]] eqn:Hfill; [done|].
  unfold os_path_exists, os_makedirs, save_document.
  cbn [stdout files dirs draws].
  repeat match goal with
         | |- context [if ?c then _ else _] => destruct c
         | |- context [match env_indirect env ?a ?b ?c with _ => _ end] =>
             destruct (env_indirect env a b c)
         end; cbn [stdout files dirs draws]; try done;
    by intros [= <-].
Qed.

(** The step returns when the certificate can be produced. *)
Lemma process_name_present_ok name info template w :
  first_half ≠ [] → second_half ≠ [] →
  student_info !! name = Some info →
  files w !! template_path = Some (DocxFile template) →
  well_formed template = true →
  can_produce env w name info = true →
  ∃ w',
    process_name rng repr_info env student_info first_half
      second_half template_path name w = Ok (tt, w').
Proof.
  intros Hfh Hsh Hinfo Htpl Hwf Hcan.
  unfold can_produce, can_save in Hcan.
  apply andb_prop in Hcan as [Hcan Hsave].
  apply andb_prop in Hcan as [Hfields Hfolder].
  apply andb_prop in Hsave as [Hsave Hallowed].
  apply andb_prop in Hsave as [Hparent Hnodir].
  apply andb_prop in Hparent as [Hdirect Hparent].
  assert (xml_text name = true) as Hname.
  { unfold xml_fields in Hfields.
    by repeat (apply andb_prop in Hfields as [Hfields _]). }
  destruct (lookup_lt_is_Some_2 first_half
              (rng (draws w) mod length first_half)) as [jd Hjd].
  { apply Nat.mod_upper_bound. by destruct first_half. }
  destruct (lookup_lt_is_Some_2 second_half
              (rng (S (draws w)) mod length second_half)) as [isd Hisd].
  { apply Nat.mod_upper_bound. by destruct second_half. }
  unfold process_name. rewrite Hinfo.
  unfold mbind, M_bind, mret, M_ret, print, random_choice.
  cbn [stdout files dirs draws]. rewrite Hjd.
  cbn [stdout files dirs draws]. rewrite Hisd.
  unfold load_document. cbn [stdout files dirs draws]. rewrite Htpl.
  rewrite replace_placeholders_accepts by done.
  unfold os_path_exists. cbn [stdout files dirs draws].
  unfold folders_then, exists_in in *.
  destruct (bool_decide (output_dir ∈ dirs w)
            || bool_decide (is_Some (files w !! output_dir))) eqn:Hex.
  - unfold save_document. cbn [stdout files dirs draws].
    rewrite (bool_decide_eq_false_2 (0%N ∈ output_path name))
      by (by apply output_path_no_nul).
    rewrite Hdirect, Hparent. cbn [negb].
    apply negb_true_iff in Hnodir. rewrite Hnodir, Hallowed. cbn [negb].
    eauto.
  - cbn [orb] in Hfolder.
    unfold os_makedirs. cbn [stdout files dirs draws].
    rewrite Hex, Hfolder. cbn [negb].
    unfold save_document. cbn [stdout files dirs draws].
    rewrite (bool_decide_eq_false_2 (0%N ∈ output_path name))
      by (by apply output_path_no_nul).
    rewrite Hdirect, Hparent. cbn [negb].
    apply negb_true_iff in Hnodir. rewrite Hnodir, Hallowed. cbn [negb].
    eauto.
Qed.

Lemma docx_persists (fs : gmap str File) path doc p :
  (∃ d, fs !! p = Some (DocxFile d)) →
  ∃ d, <[path := DocxFile doc]> fs !! p = Some (DocxFile d).
Proof.
  intros [d Hd]. destruct (decide (path = p)) as [->|Hne].
  - exists doc. by rewrite lookup_insert_eq.
  - exists d. by rewrite lookup_insert_ne.
Qed.

Lemma count_entry_outputs names chunks n :
  Forall2 (entry_output student_info) names chunks →
  count (warning n) (concat chunks)
  = match student_info !! n with
    | Some _ => 0%nat
    | None => count n names
    end.
Proof.
  induction 1 as [|m chunk names chunks Hm _ IH].
  { by destruct (student_info !! n). }
  cbn [concat]. rewrite count_app, IH. unfold entry_output in Hm.
  destruct (student_info !! m) as [info|] eqn:Em.
  - rewrite count_absent.
    2:{ eapply Forall_impl; [exact Hm|]. intros line H. apply H. }
    destruct (student_info !! n) eqn:En; [done|].
    rewrite count_cons, bool_decide_eq_false_2; [done|congruence].
  - subst chunk. rewrite count_cons.
    change (count (warning n) []) with 0%nat.
    destruct (student_info !! n) eqn:En.
    + rewrite bool_decide_eq_false_2; [done|].
      intros E%warning_inj. congruence.
    + rewrite count_cons. destruct (decide (m = n)) as [->|Hne].
      * rewrite !bool_decide_eq_true_2 by done. lia.
      * rewrite !bool_decide_eq_false_2; [lia|done|].
        by intros E%warning_inj.
Qed.

Lemma matched_names_cons name names :
  matched_names student_info (name :: names)
  = if bool_decide (is_Some (student_info !! name))
    then name :: matched_names student_info names
    else matched_names student_info names.
Proof. done. Qed.

Lemma matched_names_spec name names :
  name ∈ matched_names student_info names
  ↔ name ∈ names ∧ is_Some (student_info !! name).
Proof.
  unfold matched_names.
  rewrite !list_elem_of_In, filter_In, bool_decide_eq_true. done.
Qed.

(** The loop over the roster, when it returns: everything it has done to
    the world. *)
Lemma for_each_names_inv names w w' :
  (∀ n, n ∈ names → is_Some (student_info !! n) →
        direct (output_path n) = true) →
  for_each names
    (process_name rng repr_info env student_info first_half
       second_half template_path) w
  = Ok (tt, w') →
  let matched := matched_names student_info names in
  let create := negb (bool_decide (matched = []) || exists_in w output_dir) in
  ∃ chunks,
    stdout w' = stdout w ++ concat chunks
    ∧ Forall2 (entry_output student_info) names chunks
    ∧ count folder_created (concat chunks) = (if create then 1 else 0)%nat
    ∧ dirs w' = (if create then {[output_dir]} ∪ dirs w else dirs w)
    ∧ draws w' = (draws w + 2 * length matched)%nat
    ∧ (∀ p, (∀ n, n ∈ matched → p ≠ output_path n) →
            files w' !! p = files w !! p)
    ∧ (∀ n, n ∈ matched →
            ∃ doc, files w' !! output_path n = Some (DocxFile doc))
    ∧ (∀ p, (∃ d, files w !! p = Some (DocxFile d)) →
            ∃ d, files w' !! p = Some (DocxFile d))
    ∧ (∀ template,
         files w !! template_path = Some (DocxFile template) →
         (∀ n, n ∈ matched → template_path ≠ output_path n) →
         ∀ n info, n ∈ names → student_info !! n = Some info →
           ∃ join_date issue_date doc,
             join_date ∈ first_half ∧ issue_date ∈ second_half
             ∧ replace_placeholders (env_torn env) template n (info_gender info)
                 (info_id_card info) (info_major info) join_date issue_date
               = (doc, None)
             ∧ files w' !! output_path n = Some (DocxFile doc)).
Proof.
  revert w. induction names as [|m names IH]; intros w Hdirect Hrun.
  { cbn [for_each] in Hrun. injection Hrun as <-.
    exists []. cbn. rewrite app_nil_r, Nat.add_0_r.
    repeat split; try done.
    - intros n Hn. by apply not_elem_of_nil in Hn.
    - intros template _ _ n info Hn. by apply not_elem_of_nil in Hn. }
  cbn [for_each] in Hrun. unfold mbind, M_bind in Hrun.
  destruct (process_name rng repr_info env student_info first_half
              second_half template_path m w) as [[[] w1]|e] eqn:Hstep;
    [|done].
  fold (for_each names
          (process_name rng repr_info env student_info first_half
             second_half template_path) w1) in Hrun.
  destruct (IH w1 (λ n Hn, Hdirect n ltac:(by right)) Hrun)
    as (chunks & Hout & Hentries & Hcount & Hdirs & Hdraws & Hframe & Hdocs
        & Hkeep & Hcontent).
  clear IH. cbn zeta. rewrite matched_names_cons.
  destruct (student_info !! m) as [info|] eqn:Hm.
  - rewrite (bool_decide_eq_true_2 (is_Some (Some info))) by eauto.
    destruct (process_name_present_inv m info w w1 Hm
                (Hdirect m ltac:(by left) ltac:(by eexists)) Hstep)
      as (jd & isd & template & doc & Hjd & Hisd & Htpl & Hfill & ->).
    rewrite exists_in_after_certificate, orb_true_r in Hcount, Hdirs.
    cbn [negb stdout files dirs draws] in *.
    rewrite (bool_decide_eq_false_2 (_ :: _ = [])) by done. cbn [orb].
    exists (certificate_lines repr_info m info (exists_in w output_dir)
            :: chunks).
    split; [by rewrite Hout; cbn [concat]; rewrite app_assoc|].
    split.
    { constructor; [|done]. unfold entry_output. rewrite Hm.
      apply certificate_lines_no_warning. }
    split.
    { cbn [concat]. rewrite count_app, Hcount, Nat.add_0_r.
      rewrite certificate_lines_folder.
      by destruct (exists_in w output_dir). }
    split.
    { rewrite Hdirs. unfold folders_then.
      by destruct (exists_in w output_dir). }
    split; [rewrite Hdraws; cbn [length]; lia|].
    split.
    { intros p Hp. rewrite Hframe.
      - rewrite lookup_insert_ne; [done|].
        intros E. by apply (Hp m); [left|].
      - intros n Hn. apply Hp. by right. }
    split.
    { intros n Hn.
      destruct (decide (n ∈ matched_names student_info names)) as [Hin|Hnotin];
        [by apply Hdocs|].
      apply elem_of_cons in Hn as [->|Hn]; [|done].
      apply Hkeep. eexists. apply lookup_insert_eq. }
    split.
    { intros p Hp. apply Hkeep. by apply docx_persists. }
    intros template' Htpl' Hsafe n info' Hn Hinfo'.
    assert (template' = template) as -> by congruence.
    destruct (decide (n ∈ names)) as [Hin|Hnotin].
    { apply (Hcontent template); [|  |done|done].
      - rewrite lookup_insert_ne; [done|].
        intros E. symmetry in E. revert E. apply Hsafe. by left.
      - intros n' Hn'. apply Hsafe. by right. }
    apply elem_of_cons in Hn as [->|Hn]; [|done].
    assert (info' = info) as -> by congruence.
    exists jd, isd, doc.
    split; [by eapply list_elem_of_lookup_2|].
    split; [by eapply list_elem_of_lookup_2|].
    split; [done|].
    rewrite Hframe.
    + by rewrite lookup_insert_eq.
    + intros n' Hn' E. apply output_path_inj in E as ->.
      apply Hnotin. by apply matched_names_spec in Hn' as [Hn' _].
  - rewrite (bool_decide_eq_false_2 (is_Some None)) by (by intros [? ?]).
    rewrite (process_name_absent m w Hm) in Hstep. injection Hstep as <-.
    cbn [stdout files dirs draws] in *.
    change (exists_in (mk_world (stdout w ++ [warning m]) (files w) (dirs w)
                         (draws w)) output_dir)
      with (exists_in w output_dir) in *.
    exists ([warning m] :: chunks).
    split; [by rewrite Hout; cbn [concat]; rewrite <- !app_assoc|].
    split.
    { constructor; [|done]. unfold entry_output. by rewrite Hm. }
    destruct (folder_created_not_other m (mk_info [] [] [])) as (_ & _ & Hn3).
    split.
    { cbn [concat app].
      rewrite count_cons, bool_decide_eq_false_2 by congruence.
      exact Hcount. }
    split; [done|]. split; [done|]. split; [done|]. split; [done|].
    split; [done|].
    intros template Htpl Hsafe n info Hn Hinfo.
    apply (Hcontent template); [done|done| |done].
    apply elem_of_cons in Hn as [->|Hn]; [congruence|done].
Qed.

(** The draws of a loop that returns. *)
Lemma for_each_names_draws names w w' :
  for_each names
    (process_name rng repr_info env student_info
       first_half second_half template_path) w
  = Ok (tt, w') →
  draws w'
  = (draws w + 2 * length (matched_names student_info names))%nat.
Proof.
  revert w. induction names as [|m names IH]; intros w Hrun.
  { cbn [for_each] in Hrun. injection Hrun as <-. cbn. lia. }
  cbn [for_each] in Hrun. unfold mbind, M_bind in Hrun.
  destruct (process_name rng repr_info env
              student_info first_half second_half template_path m w)
    as [[[] w1]|e] eqn:Hstep; [|done].
  fold (for_each names
          (process_name rng repr_info env
             student_info first_half second_half template_path) w1) in Hrun.
  rewrite (IH w1 Hrun), matched_names_cons.
  destruct (student_info !! m) as [info|] eqn:Hm.
  - rewrite (bool_decide_eq_true_2 (is_Some (Some info))) by eauto.
    rewrite (process_name_present_draws m info w w1 Hm Hstep).
    cbn [length]. lia.
  - rewrite (bool_decide_eq_false_2 (is_Some None)) by (by intros [? ?]).
    rewrite (process_name_absent m w Hm) in Hstep. by injection Hstep as <-.
Qed.

Lemma can_produce_direct w n info :
  can_produce env w n info = true → direct (output_path n) = true.
Proof.
  unfold can_produce, can_save. intros H.
  apply andb_prop in H as [_ H]. apply andb_prop in H as [H _].
  apply andb_prop in H as [H _]. by apply andb_prop in H as [H _].
Qed.

Lemma can_produce_after_warning w line n info :
  can_produce env
    (mk_world (stdout w ++ [line]) (files w) (dirs w) (draws w)) n info
  = can_produce env w n info.
Proof. done. Qed.

Lemma can_produce_after_certificate w out doc m k n info :
  can_produce env w n info = true →
  can_produce env
    (mk_world out (<[output_path m := doc]> (files w)) (folders_then w) k)
    n info = true.
Proof.
  unfold can_produce, can_save.
  rewrite exists_in_after_certificate, folders_then_after_certificate.
  intros H. apply andb_prop in H as [H Hsave].
  apply andb_prop in H as [Hfields _].
  by rewrite Hfields, Hsave.
Qed.

(** The loop returns when every certificate it has to write can be
    produced. *)
Lemma for_each_names_ok names w :
  first_half ≠ [] → second_half ≠ [] →
  (∀ n info, n ∈ names → student_info !! n = Some info →
             template_ready w template_path
             ∧ can_produce env w n info = true) →
  ∃ w',
    for_each names
      (process_name rng repr_info env student_info first_half
         second_half template_path) w
    = Ok (tt, w').
Proof.
  intros Hfh Hsh. revert w.
  induction names as [|m names IH]; intros w Hcan.
  { by exists w. }
  cbn [for_each]. destruct (student_info !! m) as [info|] eqn:Hm.
  - destruct (Hcan m info ltac:(by left) Hm)
      as [(template & Htpl & Hwf) Hcan_m].
    destruct (process_name_present_ok m info template w) as [w1 Hstep];
      [done..|].
    rewrite (bind_ok _ _ _ _ _ Hstep).
    destruct (process_name_present_inv m info w w1 Hm
                (can_produce_direct _ _ _ Hcan_m) Hstep)
      as (jd & isd & template0 & doc & _ & _ & Htpl0 & Hfill & ->).
    assert (template0 = template) as -> by congruence.
    assert (xml_fields m (info_gender info) (info_id_card info)
              (info_major info) = true) as Hfields.
    { unfold can_produce in Hcan_m.
      apply andb_prop in Hcan_m as [Hcan_m _].
      by apply andb_prop in Hcan_m as [Hcan_m _]. }
    apply replace_placeholders_returns in Hfill as ->.
    apply IH. intros n info' Hn Hinfo'.
    destruct (Hcan n info' ltac:(by right) Hinfo') as [_ Hcan_n].
    split; [|by apply can_produce_after_certificate].
    unfold template_ready. cbn [files].
    destruct (decide (output_path m = template_path)) as [E|Hne].
    + eexists. rewrite E, lookup_insert_eq. split; [done|].
      by apply filled_document_well_formed.
    + exists template. by rewrite lookup_insert_ne.
  - rewrite (bind_ok _ _ _ _ _ (process_name_absent m w Hm)).
    apply IH. intros n info Hn Hinfo.
    rewrite can_produce_after_warning. apply Hcan; [by right|done].
Qed.

(** A roster without any directory entry: warnings only, and the template
    is never opened. *)
Lemma for_each_names_unmatched names w :
  matched_names student_info names = [] →
  for_each names
    (process_name rng repr_info env student_info first_half
       second_half template_path) w
  = Ok (tt, mk_world (stdout w ++ map warning names) (files w) (dirs w)
              (draws w)).
Proof.
  revert w. induction names as [|m names IH]; intros w Hnone.
  { cbn. rewrite app_nil_r. by destruct w. }
  rewrite matched_names_cons in Hnone. cbn [for_each].
  destruct (student_info !! m) as [info|] eqn:Hm.
  { rewrite (bool_decide_eq_true_2 (is_Some (Some info))) in Hnone by eauto.
    done. }
  rewrite (bool_decide_eq_false_2 (is_Some None)) in Hnone
    by (by intros [? ?]).
  rewrite (bind_ok _ _ _ _ _ (process_name_absent m w Hm)).
  rewrite IH by done. cbn [stdout files dirs draws map].
  by rewrite <- app_assoc.
Qed.

(** With nothing at the template path, the run stops at the first roster
    entry that has a directory entry. *)
Lemma for_each_names_no_template names w :
  first_half ≠ [] → second_half ≠ [] →
  matched_names student_info names ≠ [] →
  exists_in w template_path = false →
  for_each names
    (process_name rng repr_info env student_info first_half
       second_half template_path) w
  = Raise PackageNotFoundError.
Proof.
  intros Hfh Hsh. revert w.
  induction names as [|m names IH]; intros w Hsome Htpl; [done|].
  rewrite matched_names_cons in Hsome. cbn [for_each].
  destruct (student_info !! m) as [info|] eqn:Hm.
  - destruct (lookup_lt_is_Some_2 first_half
                (rng (draws w) mod length first_half)) as [jd Hjd].
    { apply Nat.mod_upper_bound. by destruct first_half. }
    destruct (lookup_lt_is_Some_2 second_half
                (rng (S (draws w)) mod length second_half)) as [isd Hisd].
    { apply Nat.mod_upper_bound. by destruct second_half. }
    unfold exists_in in Htpl. apply orb_false_iff in Htpl as [Hdir Hfile].
    apply bool_decide_eq_false in Hfile.
    assert (files w !! template_path = None) as Hnone.
    { destruct (files w !! template_path) eqn:E; [|done].
      destruct Hfile. eauto. }
    unfold process_name. rewrite Hm.
    unfold mbind, M_bind, mret, M_ret, print, random_choice, load_document.
    cbn [stdout files dirs draws]. rewrite Hjd. cbn [stdout files dirs draws].
    rewrite Hisd. cbn [stdout files dirs draws]. by rewrite Hnone, Hdir.
  - rewrite (bool_decide_eq_false_2 (is_Some None)) in Hsome
      by (by intros [? ?]).
    rewrite (bind_ok _ _ _ _ _ (process_name_absent m w Hm)).
    by apply IH.
Qed.

End OrchestratorFacts.

Section RunFacts.

Variable rng : nat → nat.
Variable repr_list : list str → str.
Variable repr_info : StudentRecord → str.
Variable env : Env.

Lemma pools_nonempty :
  List.filter is_workday (map (mk_datetime 2025 7) (range 1 16)) ≠ []
  ∧ List.filter is_workday (map (mk_datetime 2025 7) (range 16 32)) ≠ [].
Proof. split; vm_compute; discriminate. Qed.

(** Up to the loop, the run reads the two inputs and prints three lines. *)
Lemma process_certificates_as_loop w name_list_path student_info_path
    template_path content df :
  files w !! name_list_path = Some (TextFile content) →
  files w !! student_info_path = Some (ExcelFile df) →
  ∃ header,
    Forall (λ line, ∀ n, line ≠ warning n) header
    ∧ count folder_created header = 0%nat
    ∧ process_certificates rng repr_list repr_info env
        name_list_path student_info_path template_path w
      = for_each (roster_of content)
          (process_name rng repr_info env (fold_left add_row df ∅)
             (List.filter is_workday (map (mk_datetime 2025 7) (range 1 16)))
             (List.filter is_workday (map (mk_datetime 2025 7) (range 16 32)))
             template_path)
          (mk_world (stdout w ++ header) (files w) (dirs w) (draws w)).
Proof.
  intros Hnames Hsheet. eexists [_; _; _].
  split; [|split]; cycle 2.
  - unfold process_certificates.
    rewrite (bind_ok _ _ _ _ _ (read_name_list_ok _ _ _ Hnames)).
    erewrite bind_ok by reflexivity.
    erewrite bind_ok by (by apply read_student_info_ok).
    erewrite bind_ok by (unfold lift; rewrite get_workdays_filter; reflexivity).
    cbv beta iota.
    erewrite bind_ok by reflexivity.
    erewrite bind_ok by reflexivity.
    cbn [stdout files dirs draws]. rewrite <- !app_assoc. reflexivity.
  - repeat constructor; eapply not_warning_by_head; done.
  - apply count_absent.
    repeat constructor; intros E; apply (f_equal head) in E; done.
Qed.

(** The same, starting from what the two readers return. *)
Lemma process_certificates_loop w name_list_path student_info_path
    template_path names student_info :
  read_name_list name_list_path w = Ok (names, w) →
  read_student_info student_info_path w = Ok (student_info, w) →
  ∃ header,
    Forall (λ line, ∀ n, line ≠ warning n) header
    ∧ count folder_created header = 0%nat
    ∧ process_certificates rng repr_list repr_info env
        name_list_path student_info_path template_path w
      = for_each names
          (process_name rng repr_info env student_info
             (List.filter is_workday (map (mk_datetime 2025 7) (range 1 16)))
             (List.filter is_workday (map (mk_datetime 2025 7) (range 16 32)))
             template_path)
          (mk_world (stdout w ++ header) (files w) (dirs w) (draws w)).
Proof.
  intros (content & Hnames & -> & _)%read_name_list_inv
         (df & Hsheet & -> & _)%read_student_info_inv.
  by apply process_certificates_as_loop.
Qed.

End RunFacts.

(** C6 fails as stated, in three ways.  A name the directory lacks is
    warned about once per roster line that bears it, so twice when the
    roster lists it twice.  And the run does abort on a roster name that
    has a directory entry when its certificate cannot be produced: the
    name a/b makes the certificate path point into a folder that is not
    there, and a name with a control character is refused by the
    filler. *)
Lemma C6_counterexample :
  let run w :=
    process_certificates (λ k, k) (λ names, concat names) (λ _, [])
      Sample.env
      Sample.names_path Sample.sheet_path Sample.template_path w in
  let twice := Sample.world_of Sample.wang_twice Sample.sheet in
  let slash := Sample.world_of (lit "a/b") [Sample.a_slash_b] in
  let bell := Sample.world_of [7%N] [Sample.bell] in
  (read_name_list Sample.names_path twice
   = Ok ([lit "王五"; lit "张三"; lit "王五"], twice)
   ∧ fold_left add_row Sample.sheet ∅ !! lit "王五" = None
   ∧ ∃ w', run twice = Ok (tt, w')
           ∧ count (warning (lit "王五")) (stdout w') = 2%nat)
  ∧ (read_name_list Sample.names_path slash = Ok ([lit "a/b"], slash)
     ∧ is_Some (fold_left add_row [Sample.a_slash_b] ∅ !! lit "a/b")
     ∧ run slash = Raise FileNotFoundError)
  ∧ (read_name_list Sample.names_path bell = Ok ([[7%N]], bell)
     ∧ is_Some (fold_left add_row [Sample.bell] ∅ !! [7%N])
     ∧ run bell = Raise ValueError).
Proof.
  cbv zeta. split; [|split].
  - split; [vm_compute; reflexivity|]. split; [vm_compute; reflexivity|].
    eexists. split; vm_compute; reflexivity.
  - split; [vm_compute; reflexivity|]. split; [vm_compute; eauto|].
    vm_compute. reflexivity.
  - split; [vm_compute; reflexivity|]. split; [vm_compute; eauto|].
    vm_compute. reflexivity.
Qed.

(** C6, amended: a roster entry whose name the directory lacks never
    aborts the run: whatever the world, its step prints the warning for
    that name and does nothing else.  The run as a whole returns whenever
    every roster name that has a directory entry can be given its
    certificate: a well-formed template is there, the name and the record's
    fields are text XML can hold, the output folder is there or may be
    created, and the certificate can be saved under its path (a direct
    path, in a folder that is there by then).  It then prints a header
    followed by one group of lines per roster entry, in roster order: an
    entry whose name has no directory entry gives exactly one warning for
    that name and nothing else, any other entry gives no warning, so a
    missing name is warned about as often as the roster lists it.  No
    document is written under the (direct) certificate path of a name the
    directory lacks, and every roster name that has a directory entry gets
    its document. *)
Theorem C6_missing_names_are_skipped (rng : nat → nat)
    (repr_list : list str → str) (repr_info : StudentRecord → str)
    (env : Env)
    (w : World) (name_list_path student_info_path template_path : str)
    (names : list str) (student_info : gmap str StudentRecord) :
  read_name_list name_list_path w = Ok (names, w) →
  read_student_info student_info_path w = Ok (student_info, w) →
  (∀ name info, name ∈ names → student_info !! name = Some info →
     template_ready w template_path
     ∧ can_produce env w name info = true) →
  (∀ name w0 first_half second_half,
     student_info !! name = None →
     process_name rng repr_info env student_info first_half
       second_half template_path name w0
     = Ok (tt, mk_world (stdout w0 ++ [warning name]) (files w0) (dirs w0)
                 (draws w0)))
  ∧ ∃ (w' : World) (header : list str) (entries : list (list str)),
      process_certificates rng repr_list repr_info env
        name_list_path student_info_path template_path w
      = Ok (tt, w')
      ∧ stdout w' = stdout w ++ header ++ concat entries
      ∧ Forall (λ line, ∀ n, line ≠ warning n) header
      ∧ Forall2 (entry_output student_info) names entries
      ∧ (∀ name, name ∈ names → student_info !! name = None →
           count (warning name) (header ++ concat entries) = count name names
           ∧ (1 ≤ count name names)%nat
           ∧ (direct (output_path name) = true →
              files w' !! output_path name = files w !! output_path name))
      ∧ (∀ name, name ∈ names → is_Some (student_info !! name) →
           count (warning name) (header ++ concat entries) = 0%nat
           ∧ ∃ doc, files w' !! output_path name = Some (DocxFile doc)).
Proof.
  intros Hnames Hdir Hcan. split.
  { intros name w0 first_half second_half Hnone.
    by apply process_name_absent. }
  destruct (process_certificates_loop rng repr_list repr_info env
              w _ _ template_path _ _ Hnames Hdir)
    as (header & Hheader & _ & Hrun).
  destruct pools_nonempty as [Hfh Hsh].
  match type of Hrun with _ = for_each _ _ ?x => set (w0 := x) in * end.
  destruct (for_each_names_ok rng repr_info env student_info
              _ _ template_path names w0 Hfh Hsh Hcan) as [w' Hloop].
  assert (∀ n, n ∈ names → is_Some (student_info !! n) →
               direct (output_path n) = true) as Hdirect.
  { intros n Hn [info Hinfo].
    by apply (can_produce_direct env w n info), Hcan. }
  destruct (for_each_names_inv rng repr_info env
              student_info _ _ template_path names w0 w' Hdirect Hloop)
    as (entries & Hout & Hentries & _ & _ & _ & Hframe & Hdocs & _).
  pose proof (λ n, count_entry_outputs student_info names entries n Hentries)
    as Hcount.
  exists w', header, entries.
  split; [by rewrite Hrun|].
  split; [rewrite Hout; unfold w0; cbn [stdout]; by rewrite app_assoc|].
  split; [done|]. split; [done|]. split.
  - intros name Hin Hnone. split; [|split].
    + rewrite count_app, Hcount, Hnone, count_absent; [done|].
      eapply Forall_impl; [exact Hheader|]. intros line H. apply H.
    + by apply count_pos.
    + intros _. rewrite Hframe; [done|].
      intros n [_ Hn]%matched_names_spec E.
      apply output_path_inj in E as ->. rewrite Hnone in Hn.
      by destruct Hn.
  - intros name Hin Hsome. split.
    + rewrite count_app, Hcount, count_absent.
      * by destruct Hsome as [info ->].
      * eapply Forall_impl; [exact Hheader|]. intros line H. apply H.
    + apply Hdocs. by apply matched_names_spec.
Qed.

Lemma C6_missing_names_are_skipped_witness :
  ∃ (w' : World) (header : list str) (entries : list (list str)),
    process_certificates (λ k, k) (λ names, concat names) (λ _, [])
      Sample.env
      Sample.names_path Sample.sheet_path Sample.template_path Sample.world
    = Ok (tt, w')
    ∧ stdout w' = stdout Sample.world ++ header ++ concat entries
    ∧ Forall (λ line, ∀ n, line ≠ warning n) header
    ∧ Forall2 (entry_output (fold_left add_row Sample.sheet ∅))
        [lit "张三"; lit "王五"; lit "李四"] entries
    ∧ count (warning (lit "王五")) (header ++ concat entries) = 1%nat
    ∧ files w' !! output_path (lit "王五") = None
    ∧ ∃ doc, files w' !! output_path (lit "李四") = Some (DocxFile doc).
Proof.
  destruct (C6_missing_names_are_skipped (λ k, k) (λ names, concat names)
              (λ _, []) Sample.env Sample.world
              Sample.names_path Sample.sheet_path Sample.template_path
              [lit "张三"; lit "王五"; lit "李四"]
              (fold_left add_row Sample.sheet ∅))
    as (_ & w' & header & entries & Hrun & Hout & Hheader & Hentries
        & Hmissing & Hpresent).
  - vm_compute. reflexivity.
  - vm_compute. reflexivity.
  - intros name info Hin Hinfo. split.
    { exists Sample.template. split; vm_compute; reflexivity. }
    apply list_elem_of_In in Hin. cbn [In] in Hin.
    destruct Hin as [<-|[<-|[<-|[]]]]; vm_compute in Hinfo;
      try discriminate; injection Hinfo as <-; vm_compute; reflexivity.
  - exists w', header, entries.
    split; [done|]. split; [done|]. split; [done|]. split; [done|].
    destruct (Hmissing (lit "王五")) as (Hcount & _ & Hfile).
    { apply list_elem_of_In. cbn. tauto. }
    { vm_compute. reflexivity. }
    split; [rewrite Hcount; vm_compute; reflexivity|].
    split; [rewrite Hfile; vm_compute; reflexivity|].
    apply Hpresent.
    + apply list_elem_of_In. cbn. tauto.
    + vm_compute. eauto.
Defined.

(** * Further properties *)

(** ** Roster loader *)

Section RosterMore.

Implicit Types s line name content : str.

Lemma split_lines_single name :
  single_line name = true → split_lines name = [name].
Proof.
  induction name as [|c name IH]; [done|]. cbn [single_line forallb].
  intros [Hc Hname]%andb_prop. apply negb_true_iff in Hc.
  cbn [split_lines]. rewrite Hc. fold (single_line name) in Hname.
  by rewrite IH.
Qed.

Lemma split_lines_app name rest :
  single_line name = true →
  split_lines (name ++ 10%N :: rest) = name :: split_lines rest.
Proof.
  induction name as [|c name IH]; [done|]. cbn [single_line forallb].
  intros [Hc Hname]%andb_prop. apply negb_true_iff in Hc.
  cbn [app split_lines]. rewrite Hc. fold (single_line name) in Hname.
  by rewrite IH.
Qed.

Lemma split_lines_join names (trailing : bool) :
  names ≠ [] →
  Forall (λ name, single_line name = true) names →
  split_lines (join_lines names ++ (if trailing then [10%N] else []))
  = names ++ (if trailing then [[]] else []).
Proof.
  intros Hne Hall. induction Hall as [|name names Hname Hall IH]; [done|].
  destruct names as [|name' names].
  - cbn [join_lines]. destruct trailing.
    + by rewrite split_lines_app.
    + rewrite app_nil_r. by rewrite split_lines_single.
  - change (join_lines (name :: name' :: names))
      with (name ++ [10%N] ++ join_lines (name' :: names)).
    rewrite <- !app_assoc. cbn [app]. rewrite split_lines_app by done.
    by rewrite IH.
Qed.

Lemma strip_trimmed name : trimmed name = true → strip name = name.
Proof.
  unfold trimmed. intros [Hhead Hlast]%andb_prop.
  assert (∀ s, match s with [] => true | c :: _ => negb (isspace c) end = true
               → lstrip s = s) as Hl.
  { intros [|c s] H; [done|]. cbn [lstrip].
    apply negb_true_iff in H. by rewrite H. }
  unfold strip, rstrip. rewrite (Hl name) by done.
  rewrite (Hl (rev name)) by done. apply rev_involutive.
Qed.

Lemma roster_of_join names (trailing : bool) :
  Forall (λ name, name ≠ [] ∧ trimmed name = true ∧ single_line name = true)
    names →
  roster_of (join_lines names ++ (if trailing then [10%N] else [])) = names.
Proof.
  intros Hall. unfold roster_of.
  destruct names as [|name names]; [by destruct trailing|].
  rewrite split_lines_join; [|done|].
  2:{ eapply Forall_impl; [exact Hall|]. by intros n (_ & _ & H). }
  rewrite List.map_app, List.filter_app.
  assert (List.filter truthy (map strip (if trailing then [[]] else [])) = [])
    as -> by (by destruct trailing).
  rewrite app_nil_r.
  induction Hall as [|n ns (Hne & Htr & _) _ IH]; [done|].
  cbn [map List.filter]. rewrite strip_trimmed by done.
  destruct n; [done|]. cbn [truthy]. by rewrite IH.
Qed.

Lemma split_lines_single_line content :
  Forall (λ line, single_line line = true) (split_lines content).
Proof.
  induction content as [|c rest IH]; [by repeat constructor|].
  cbn [split_lines]. destruct (N.eqb_spec c 10) as [->|Hc].
  - by constructor.
  - destruct (split_lines_cons rest) as (line & lines & E). rewrite E in *.
    inversion IH as [|? ? Hline Hlines]; subst. constructor; [|done].
    cbn [single_line forallb]. rewrite (proj2 (N.eqb_neq c 10)) by done.
    exact Hline.
Qed.

Lemma split_lines_chars content (P : N → bool) :
  forallb P content = true →
  Forall (λ line, forallb P line = true) (split_lines content).
Proof.
  induction content as [|c rest IH]; [by repeat constructor|].
  cbn [forallb]. intros [Hc Hrest]%andb_prop. specialize (IH Hrest).
  cbn [split_lines]. destruct (c =? 10)%N; [by constructor|].
  destruct (split_lines_cons rest) as (line & lines & E). rewrite E in *.
  inversion IH as [|? ? Hline Hlines]; subst. constructor; [|done].
  cbn [forallb]. by rewrite Hc.
Qed.

Lemma strip_single_line s : single_line s = true → single_line (strip s) = true.
Proof.
  destruct (strip_spec s) as (a & b & Hs & _). intros H.
  rewrite Hs in H. unfold single_line in *.
  rewrite !forallb_app in H.
  apply andb_prop in H as [_ H]. by apply andb_prop in H as [H _].
Qed.

Lemma roster_of_well_formed content :
  Forall (λ name, name ≠ [] ∧ trimmed name = true ∧ single_line name = true)
    (roster_of content).
Proof.
  pose proof (roster_of_spec content) as Hspec.
  pose proof (split_lines_single_line content) as Hlines.
  rewrite Forall_forall in Hspec, Hlines |- *.
  intros name Hname. destruct (Hspec name Hname) as (Hne & Htr & _).
  split; [done|]. split; [done|].
  apply list_elem_of_In in Hname. unfold roster_of in Hname.
  apply filter_In in Hname as [Hname _].
  apply in_map_iff in Hname as (line & <- & Hline).
  apply strip_single_line, Hlines. by apply list_elem_of_In.
Qed.

Lemma break_free_single_line s : break_free s = true → single_line s = true.
Proof.
  unfold break_free, single_line. rewrite !forallb_forall.
  intros H c Hc. by apply H, andb_prop in Hc as [Hc _].
Qed.

Lemma roster_of_blank content :
  forallb isspace content = true → roster_of content = [].
Proof.
  intros Hblank. unfold roster_of.
  pose proof (split_lines_chars content isspace Hblank) as Hlines.
  induction Hlines as [|line lines Hline _ IH]; [done|].
  cbn [map List.filter]. unfold strip at 1.
  by rewrite (lstrip_all_space line).
Qed.

End RosterMore.

(** X1: a text made of well-formed names (non-empty, no white space at
    either end, no line feed and no carriage return inside), one per line,
    with or without a final line feed, loads back as exactly those
    names. *)
Theorem X1_roster_round_trip (w : World) (file_path : str)
    (names : list str) (trailing : bool) :
  Forall (λ name, name ≠ [] ∧ trimmed name = true ∧ break_free name = true)
    names →
  files w !! file_path
  = Some (TextFile (join_lines names ++ (if trailing then [10%N] else []))) →
  read_name_list file_path w = Ok (names, w).
Proof.
  intros Hall Hfile. rewrite (read_name_list_ok _ _ _ Hfile).
  rewrite roster_of_join; [done|].
  eapply Forall_impl; [exact Hall|].
  intros name (Hne & Htrim & Hfree). split; [done|]. split; [done|].
  by apply break_free_single_line.
Qed.

Lemma X1_roster_round_trip_witness :
  let w :=
    mk_world []
      {[ lit "a.txt"
         := TextFile (lit "张三" ++ [10%N] ++ lit "John Smith" ++ [10%N]) ]}
      ∅ 0 in
  read_name_list (lit "a.txt") w = Ok ([lit "张三"; lit "John Smith"], w).
Proof.
  intros w.
  apply (X1_roster_round_trip _ _ [lit "张三"; lit "John Smith"] true).
  - repeat constructor; done.
  - vm_compute. reflexivity.
Defined.

(** X2: what the loader returns is in normal form: every name is non-empty,
    has no white space at either end and no line feed, so writing the
    roster out one name per line and loading it again gives the same
    roster. *)
Theorem X2_roster_is_a_fixed_point (w w2 : World) (file_path file_path2 : str)
    (content : str) (names : list str) :
  files w !! file_path = Some (TextFile content) →
  read_name_list file_path w = Ok (names, w) →
  files w2 !! file_path2 = Some (TextFile (join_lines names)) →
  Forall (λ name, name ≠ [] ∧ trimmed name = true ∧ single_line name = true)
    names
  ∧ read_name_list file_path2 w2 = Ok (names, w2).
Proof.
  intros Hfile Hread Hfile2.
  rewrite (read_name_list_ok _ _ _ Hfile) in Hread.
  injection Hread as <-.
  split; [apply roster_of_well_formed|].
  rewrite (read_name_list_ok _ _ _ Hfile2).
  rewrite <- (app_nil_r (join_lines _)).
  by rewrite (roster_of_join _ false) by apply roster_of_well_formed.
Qed.

Lemma X2_roster_is_a_fixed_point_witness :
  let names := [lit "张三"; lit "王五"; lit "李四"] in
  let w2 := mk_world [] {[ lit "b.txt" := TextFile (join_lines names) ]} ∅ 0 in
  Forall (λ name, name ≠ [] ∧ trimmed name = true ∧ single_line name = true)
    names
  ∧ read_name_list (lit "b.txt") w2 = Ok (names, w2).
Proof.
  intros names w2.
  apply (X2_roster_is_a_fixed_point Sample.world w2 Sample.names_path _
           Sample.names_txt).
  - vm_compute. reflexivity.
  - vm_compute. reflexivity.
  - vm_compute. reflexivity.
Defined.

(** X3: a name list that holds nothing but white space (spaces, tabs, blank
    lines; the empty file included) gives the empty roster. *)
Theorem X3_blank_file_gives_empty_roster (w : World) (file_path content : str) :
  files w !! file_path = Some (TextFile content) →
  forallb isspace content = true →
  read_name_list file_path w = Ok ([], w).
Proof.
  intros Hfile Hblank. rewrite (read_name_list_ok _ _ _ Hfile).
  by rewrite roster_of_blank.
Qed.

Lemma X3_blank_file_gives_empty_roster_witness :
  read_name_list (lit "c.txt")
    (mk_world [] {[ lit "c.txt" := TextFile [32%N; 10%N; 9%N; 10%N; 12288%N] ]} ∅ 0)
  = Ok ([], mk_world [] {[ lit "c.txt" := TextFile [32%N; 10%N; 9%N; 10%N; 12288%N] ]} ∅ 0).
Proof.
  apply (X3_blank_file_gives_empty_roster _ _ [32%N; 10%N; 9%N; 10%N; 12288%N]).
  - vm_compute. reflexivity.
  - vm_compute. reflexivity.
Defined.

(** ** Student directory *)

Section DirectoryMore.

Lemma directory_dom (df : list Row) (student_info : gmap str StudentRecord) :
  dom (fold_left add_row df student_info)
  = list_to_set (map row_name df) ∪ dom student_info.
Proof.
  revert student_info.
  induction df as [|row df IH]; intros student_info; cbn [fold_left map].
  - by rewrite list_to_set_nil, (left_id_L ∅ (∪)).
  - rewrite IH. unfold add_row. rewrite dom_insert_L, list_to_set_cons.
    rewrite (comm_L (∪) {[row_name row]} (list_to_set _)).
    by rewrite (assoc_L (∪)).
Qed.

Lemma directory_size (df : list Row) (student_info : gmap str StudentRecord) :
  size (fold_left add_row df student_info) ≤ length df + size student_info.
Proof.
  revert student_info.
  induction df as [|row df IH]; intros student_info; cbn [fold_left length].
  - lia.
  - etransitivity; [apply IH|]. unfold add_row.
    destruct (student_info !! row_name row) eqn:E.
    + rewrite map_size_insert_Some by done. lia.
    + rewrite map_size_insert_None by done. lia.
Qed.

Lemma last_row_named_none (name : str) (df : list Row) :
  last_row_named name df = None ↔ name ∉ map row_name df.
Proof.
  induction df as [|row df IH].
  - split; [intros _; apply not_elem_of_nil|done].
  - rewrite last_row_named_cons. cbn [map]. rewrite not_elem_of_cons.
    destruct (last_row_named name df) as [r|] eqn:E.
    + split; [done|]. intros [_ H]. by apply IH in H.
    + case_bool_decide as Hname.
      * split; [done|]. intros [H _]. by destruct H.
      * split; [|done]. intros _. split; [done|]. by apply IH.
Qed.

Lemma last_row_named_unique (name : str) (df : list Row) (row : Row) :
  NoDup (map row_name df) → row ∈ df → row_name row = name →
  last_row_named name df = Some row.
Proof.
  intros Hnodup Hin Hname.
  apply list_elem_of_split in Hin as (pre & post & ->).
  apply last_row_named_app; [done|].
  rewrite List.map_app in Hnodup. apply NoDup_app in Hnodup as (_ & _ & Hpost).
  cbn [map] in Hpost. apply NoDup_cons in Hpost as [Hpost _].
  apply Forall_forall. intros r Hr E. apply Hpost.
  rewrite Hname, <- E. apply list_elem_of_fmap. by exists r.
Qed.

End DirectoryMore.

(** X4: the directory has an entry for exactly the names that occur in the
    name column: a name no row bears is absent, every other name is
    present, and the directory never has more entries than the table has
    rows. *)
Theorem X4_directory_names (w : World) (file_path : str) (df : list Row) :
  files w !! file_path = Some (ExcelFile df) →
  ∃ student_info : gmap str StudentRecord,
    read_student_info file_path w = Ok (student_info, w)
    ∧ (∀ name, student_info !! name = None ↔ name ∉ map row_name df)
    ∧ (∀ name, is_Some (student_info !! name) ↔ name ∈ map row_name df)
    ∧ size student_info ≤ length df.
Proof.
  intros Hfile. eexists. split; [by apply read_student_info_ok|].
  split; [|split].
  - intros name. rewrite (directory_lookup df ∅ name), lookup_empty.
    rewrite <- last_row_named_none. by destruct (last_row_named name df).
  - intros name. rewrite <- elem_of_dom, directory_dom, dom_empty_L.
    by rewrite union_empty_r_L, elem_of_list_to_set.
  - pose proof (directory_size df ∅) as Hsize.
    rewrite map_size_empty in Hsize. lia.
Qed.

Lemma X4_directory_names_witness :
  ∃ student_info : gmap str StudentRecord,
    read_student_info Sample.sheet_path Sample.world
    = Ok (student_info, Sample.world)
    ∧ (∀ name, student_info !! name = None
               ↔ name ∉ map row_name Sample.sheet)
    ∧ (∀ name, is_Some (student_info !! name)
               ↔ name ∈ map row_name Sample.sheet)
    ∧ size student_info ≤ length Sample.sheet.
Proof.
  apply X4_directory_names. vm_compute. reflexivity.
Defined.

(** X5: when no two rows bear the same name, every row is found under its
    name with its own gender, identity number and major, and the directory
    has as many entries as the table has rows. *)
Theorem X5_distinct_names_all_kept (w : World) (file_path : str)
    (df : list Row) :
  files w !! file_path = Some (ExcelFile df) →
  NoDup (map row_name df) →
  ∃ student_info : gmap str StudentRecord,
    read_student_info file_path w = Ok (student_info, w)
    ∧ size student_info = length df
    ∧ (∀ row, row ∈ df →
         student_info !! row_name row
         = Some (mk_info (row_gender row) (row_id_card row) (row_major row))).
Proof.
  intros Hfile Hnodup. eexists. split; [by apply read_student_info_ok|].
  split.
  - rewrite <- size_dom, directory_dom, dom_empty_L, union_empty_r_L.
    rewrite size_list_to_set by done. by rewrite length_map.
  - intros row Hrow. rewrite (directory_lookup df ∅).
    by rewrite (last_row_named_unique _ df row).
Qed.

Lemma X5_distinct_names_all_kept_witness :
  ∃ student_info : gmap str StudentRecord,
    read_student_info (lit "s.xlsx")
      (mk_world [] {[ lit "s.xlsx" := ExcelFile [Sample.li_si; Sample.zhang_new] ]} ∅ 0)
    = Ok (student_info,
          mk_world [] {[ lit "s.xlsx" := ExcelFile [Sample.li_si; Sample.zhang_new] ]} ∅ 0)
    ∧ size student_info = length [Sample.li_si; Sample.zhang_new]
    ∧ (∀ row, row ∈ [Sample.li_si; Sample.zhang_new] →
         student_info !! row_name row
         = Some (mk_info (row_gender row) (row_id_card row) (row_major row))).
Proof.
  apply X5_distinct_names_all_kept.
  - vm_compute. reflexivity.
  - apply (bool_decide_unpack _). vm_compute. exact I.
Defined.

(** X6: when the DataFrame read from one table is the DataFrame read from
    another followed by further rows, the two directories differ only at
    the names of the further rows: such a name gets the record of its last
    further row, every other name keeps what the shorter frame gave it.
    (This is about the frames: rows added to a sheet can make pandas type a
    column differently, and then the longer frame does not begin with the
    shorter one.) *)
Theorem X6_appended_rows_override (w : World) (path_old path_new : str)
    (df df_new : list Row) :
  files w !! path_old = Some (ExcelFile df) →
  files w !! path_new = Some (ExcelFile (df ++ df_new)) →
  ∃ old_info new_info : gmap str StudentRecord,
    read_student_info path_old w = Ok (old_info, w)
    ∧ read_student_info path_new w = Ok (new_info, w)
    ∧ ∀ name,
        new_info !! name
        = match last (List.filter (λ row, bool_decide (row_name row = name))
                        df_new) with
          | Some row =>
              Some (mk_info (row_gender row) (row_id_card row) (row_major row))
          | None => old_info !! name
          end.
Proof.
  intros Hold Hnew. eexists _, _.
  split; [by apply read_student_info_ok|].
  split; [by apply read_student_info_ok|].
  intros name. rewrite fold_left_app. apply directory_lookup.
Qed.

Lemma X6_appended_rows_override_witness :
  let zhang := mk_row Sample.zhang_san (lit "女") (lit "43000X") (lit "数学") in
  let li := mk_row (lit "李四") (lit "女") (lit "43100X") (lit "通信") in
  let zhang' := mk_row Sample.zhang_san (lit "男") (lit "43200X") (lit "软件") in
  let w :=
    mk_world []
      (<[lit "old.xlsx" := ExcelFile [zhang; li]]>
         (<[lit "new.xlsx" := ExcelFile [zhang; li; zhang']]> ∅)) ∅ 0 in
  ∃ old_info new_info : gmap str StudentRecord,
    read_student_info (lit "old.xlsx") w = Ok (old_info, w)
    ∧ read_student_info (lit "new.xlsx") w = Ok (new_info, w)
    ∧ ∀ name,
        new_info !! name
        = match last (List.filter (λ row, bool_decide (row_name row = name))
                        [zhang']) with
          | Some row =>
              Some (mk_info (row_gender row) (row_id_card row) (row_major row))
          | None => old_info !! name
          end.
Proof.
  intros zhang li zhang' w.
  apply (X6_appended_rows_override w (lit "old.xlsx") (lit "new.xlsx")
           [zhang; li] [zhang']).
  - vm_compute. reflexivity.
  - vm_compute. reflexivity.
Defined.

(** ** Business-day generator: the two loops *)

Section LoopsMore.
Local Open Scope Z_scope.

Lemma july_day_invalid i :
  fits_int i = true →
  ¬ (1 ≤ i ≤ days_in_month 2025 7) → datetime_new 2025 7 i = Raise ValueError.
Proof.
  intros Hint Hi. unfold datetime_new. rewrite Hint.
  change (fits_int 2025 && fits_int 7 && true) with true. cbn [negb].
  change ((MINYEAR <=? 2025) && (2025 <=? MAXYEAR)) with true.
  change ((1 <=? 7) && (7 <=? 12)) with true.
  cbn [negb].
  assert ((1 <=? i) && (i <=? days_in_month 2025 7) = false) as ->; [|done].
  apply andb_false_iff.
  destruct (Z.leb_spec 1 i); [|by left]. right. apply Z.leb_gt. lia.
Qed.

Lemma july_day_overflow i :
  fits_int i = false → datetime_new 2025 7 i = Raise OverflowError.
Proof. intros Hint. unfold datetime_new. by rewrite Hint, andb_false_r. Qed.

Lemma second_half_loop_stop valid i rest acc :
  Forall (λ j, 1 ≤ j ≤ days_in_month 2025 7) valid →
  fits_int i = true →
  ¬ (1 ≤ i ≤ days_in_month 2025 7) →
  second_half_loop (valid ++ i :: rest) acc
  = Ok (acc ++ List.filter is_workday (map (mk_datetime 2025 7) valid)).
Proof.
  intros Hvalid Hint Hi. revert acc.
  induction Hvalid as [|j valid Hj _ IH]; intros acc.
  - cbn [app second_half_loop map List.filter].
    rewrite july_day_invalid by done. by rewrite app_nil_r.
  - cbn [app second_half_loop]. rewrite july_day_valid by done.
    rewrite IH. cbn [map List.filter].
    destruct (is_workday _); [|done]. by rewrite <- app_assoc.
Qed.

Lemma second_half_loop_overflow valid i rest acc :
  Forall (λ j, 1 ≤ j ≤ days_in_month 2025 7) valid →
  fits_int i = false →
  second_half_loop (valid ++ i :: rest) acc = Raise OverflowError.
Proof.
  intros Hvalid Hint. revert acc.
  induction Hvalid as [|j valid Hj _ IH]; intros acc.
  - cbn [app second_half_loop]. by rewrite july_day_overflow.
  - cbn [app second_half_loop]. rewrite july_day_valid by done. apply IH.
Qed.

Lemma first_half_loop_overflow start ok i rest acc :
  Forall (λ j, 0 < toordinal start + j ≤ MAXORDINAL) ok →
  ¬ (0 < toordinal start + i ≤ MAXORDINAL) →
  first_half_loop start (ok ++ i :: rest) acc = Raise OverflowError.
Proof.
  intros Hok Hi. revert acc.
  induction Hok as [|j ok [Hlo Hhi] _ IH]; intros acc;
    cbn [app first_half_loop]; unfold add_days.
  - assert ((0 <? toordinal start + i) && (toordinal start + i <=? MAXORDINAL)
            = false) as ->; [|done].
    apply andb_false_iff.
    destruct (Z.ltb_spec 0 (toordinal start + i)); [|by left].
    right. apply Z.leb_gt. lia.
  - assert ((0 <? toordinal start + j) && (toordinal start + j <=? MAXORDINAL)
            = true) as ->.
    { apply andb_true_intro. split; [by apply Z.ltb_lt | by apply Z.leb_le]. }
    apply IH.
Qed.

End LoopsMore.

(** X7: the second loop of [get_workdays] leaves at the first number that
    is not a day of July 2025 (too large, or below 1) without raising, as
    long as that number is a C [int]: it returns the working days among the
    days before that number and ignores everything after it, valid days
    included.  A number that is no C [int] makes [datetime] raise
    [OverflowError], which the loop does not catch. *)
Theorem X7_second_loop_breaks_at_first_invalid_day (valid : list Z) (i : Z)
    (rest : list Z) (acc : list datetime) :
  Forall (λ j, (1 ≤ j ≤ days_in_month 2025 7)%Z) valid →
  ¬ (1 ≤ i ≤ days_in_month 2025 7)%Z →
  ((- 2 ^ 31 ≤ i < 2 ^ 31)%Z →
   second_half_loop (valid ++ i :: rest) acc
   = Ok (acc ++ List.filter is_workday (map (mk_datetime 2025 7) valid))
   ∧ second_half_loop (valid ++ i :: rest) acc = second_half_loop valid acc)
  ∧ (¬ (- 2 ^ 31 ≤ i < 2 ^ 31)%Z →
     second_half_loop (valid ++ i :: rest) acc = Raise OverflowError).
Proof.
  intros Hvalid Hi. split.
  - intros Hint. rewrite second_half_loop_stop; [|done| |done].
    + by rewrite second_half_loop_filter.
    + apply fits_int_spec. change (2 ^ 31)%Z with 2147483648%Z in Hint. lia.
  - intros Hint. apply second_half_loop_overflow; [done|].
    apply not_true_iff_false. intros H%fits_int_spec. apply Hint.
    change (2 ^ 31)%Z with 2147483648%Z. lia.
Qed.

Lemma X7_second_loop_breaks_at_first_invalid_day_witness :
  (second_half_loop ([30; 31] ++ 32 :: [1; 2])%Z []
   = Ok ([] ++ List.filter is_workday (map (mk_datetime 2025 7) [30; 31]%Z))
   ∧ second_half_loop ([30; 31] ++ 32 :: [1; 2])%Z []
     = second_half_loop [30; 31]%Z [])
  ∧ second_half_loop ([30; 31] ++ 2 ^ 31 :: [1; 2])%Z []
    = Raise OverflowError.
Proof.
  split.
  - apply (X7_second_loop_breaks_at_first_invalid_day [30; 31]%Z 32%Z).
    + repeat constructor; vm_compute; discriminate.
    + vm_compute. intros [_ H]. by apply H.
    + vm_compute. split; [discriminate|reflexivity].
  - apply (X7_second_loop_breaks_at_first_invalid_day [30; 31]%Z (2 ^ 31)%Z).
    + repeat constructor; vm_compute; discriminate.
    + vm_compute. intros [_ H]. by apply H.
    + vm_compute. intros [_ H]. discriminate.
Defined.

(** X8: the first loop of [get_workdays] has no such guard.  For any start
    date, while every [start + i] stays within the range of [datetime] it
    returns the working days among them, after what was already collected
    and in the order of the offsets; the first offset that leaves the range
    makes the whole loop raise [OverflowError]. *)
Theorem X8_first_loop_collects_or_overflows (start : datetime)
    (ok : list Z) (acc : list datetime) :
  Forall (λ j, (0 < toordinal start + j ≤ MAXORDINAL)%Z) ok →
  (∃ days,
     first_half_loop start ok acc = Ok (acc ++ days)
     ∧ Forall (λ d, (0 ≤ weekday d ≤ 4)%Z) days
     ∧ days = List.filter is_workday
                (map (λ j, ord2ymd (toordinal start + j)) ok))
  ∧ (∀ i rest, ¬ (0 < toordinal start + i ≤ MAXORDINAL)%Z →
       first_half_loop start (ok ++ i :: rest) acc = Raise OverflowError).
Proof.
  intros Hok. split.
  - eexists. split; [by apply first_half_loop_filter|]. split; [|done].
    apply Forall_forall. intros d Hd%list_elem_of_In.
    apply filter_In in Hd as [_ Hd]. unfold is_workday in Hd.
    apply Z.ltb_lt in Hd. pose proof (weekday_range d). lia.
  - intros i rest Hi. by apply first_half_loop_overflow.
Qed.

Lemma X8_first_loop_collects_or_overflows_witness :
  first_half_loop (mk_datetime 9999 12 30) ([0; 1] ++ 2 :: [])%Z []
  = Raise OverflowError.
Proof.
  apply (X8_first_loop_collects_or_overflows (mk_datetime 9999 12 30)
           [0; 1]%Z []).
  - repeat constructor; vm_compute; discriminate.
  - vm_compute. intros [_ H]. by apply H.
Defined.

(** ** Template filler *)

(** X9: once the call has returned, a paragraph whose text contained a
    marker is exactly one run, in 宋体 16pt with 宋体 as east-Asian font,
    whose text is the original text after the three replacements in turn (a
    carriage return reading back as a line feed).  So the result depends on
    the text of the paragraph only, not on how it was split into runs or
    formatted. *)
Theorem X9_matched_paragraph_result (torn : Paragraph → str → Paragraph)
    (doc doc' : Document)
    (name gender id_card major : str) (join_date issue_date : datetime)
    (i : nat) (para : Paragraph) :
  paragraphs doc !! i = Some para →
  Exists (λ m, str_contains (para_text para) m = true) target_texts →
  replace_placeholders torn doc name gender id_card major
    join_date issue_date = (doc', None) →
  paragraphs doc' !! i
  = Some
      (mk_paragraph
         [mk_run
            (map br_char
               (str_replace
                  (str_replace
                     (str_replace (para_text para) (target 0)
                        (new_text name gender id_card major))
                     (target 1) (strftime_cn join_date))
                  (target 2) (strftime_cn issue_date)))
            (mk_font (Some (lit "宋体")) (Some (Pt 16)) (Some (lit "宋体")))]).
Proof.
  intros Hi Hsome%matched_iff Hcall.
  rewrite (filled_lookup _ _ _ _ _ _ _ _ _ _ Hcall), Hi.
  cbn [fmap option_fmap option_map]. f_equal.
  destruct (fill_matched_runs name gender id_card major join_date issue_date
              para Hsome) as [text Hruns].
  pose proof (fill_matched_text name gender id_card major join_date issue_date
                para Hsome) as Htext.
  destruct (filled_paragraph para name gender id_card major join_date
              issue_date) as [rs].
  cbn [runs] in Hruns. subst rs.
  unfold para_text in Htext. cbn [runs map concat run_text] in Htext.
  rewrite app_nil_r in Htext. by rewrite Htext.
Qed.

Lemma X9_matched_paragraph_result_witness :
  ∃ doc',
    replace_placeholders (λ para _, para) Sample.template Sample.zhang_san
      Sample.male Sample.id_430 Sample.software Sample.jul_03 Sample.jul_17
    = (doc', None)
    ∧ paragraphs doc' !! 1%nat
      = Some
          (mk_paragraph
             [mk_run
                (lit "兹证明张三，男，系湖南理工学院信息科学与工程学院软件工程专业2025届毕业生（身份证号：430XXXXXXXXXXXXXXX）。")
                (mk_font (Some (lit "宋体")) (Some (Pt 16))
                   (Some (lit "宋体")))]).
Proof.
  eexists. split; [vm_compute; reflexivity|].
  etransitivity.
  - apply (X9_matched_paragraph_result (λ para _, para) Sample.template _
             Sample.zhang_san Sample.male Sample.id_430 Sample.software
             Sample.jul_03 Sample.jul_17 1 Sample.identity_para).
    + reflexivity.
    + apply Exists_cons_hd. vm_compute. reflexivity.
    + vm_compute. reflexivity.
  - vm_compute. reflexivity.
Defined.

(** X10: for any request, once the call has returned, a paragraph that
    carried one marker and nothing else that matches, before or after the
    rewrite, has exactly the identity sentence, the join date or the issue
    date in the marker's place, and the text around it stays (a carriage
    return reading back as a line feed). *)
Theorem X10_single_marker_any_request (torn : Paragraph → str → Paragraph)
    (doc doc' : Document)
    (name gender id_card major : str) (join_date issue_date : datetime)
    (i k : nat) (para : Paragraph) (pre post : str) :
  let replacement :=
    nth k [new_text name gender id_card major;
           strftime_cn join_date; strftime_cn issue_date] [] in
  (k < 3)%nat →
  paragraphs doc !! i = Some para →
  para_text para = pre ++ target k ++ post →
  sole_marker k pre post replacement = true →
  replace_placeholders torn doc name gender id_card major
    join_date issue_date = (doc', None) →
  ∃ para',
    paragraphs doc' !! i = Some para'
    ∧ para_text para' = map br_char (pre ++ replacement ++ post).
Proof.
  intros replacement Hk Hi Ht Hsole Hcall. eexists. split.
  { rewrite (filled_lookup _ _ _ _ _ _ _ _ _ _ Hcall), Hi. reflexivity. }
  by apply fill_sole_marker.
Qed.

Lemma X10_single_marker_any_request_witness :
  ∃ doc' para',
    replace_placeholders (λ para _, para) Sample.template (lit "李四")
      (lit "女") (lit "431") (lit "通信") (mk_datetime 2025 7 1)
      (mk_datetime 2025 7 31) = (doc', None)
    ∧ paragraphs doc' !! 3%nat = Some para'
    ∧ para_text para' = map br_char ([] ++ lit "2025年07月31日" ++ []).
Proof.
  pose (doc' :=
          (replace_placeholders (λ para _, para) Sample.template (lit "李四")
             (lit "女") (lit "431") (lit "通信") (mk_datetime 2025 7 1)
             (mk_datetime 2025 7 31)).1).
  assert (replace_placeholders (λ para _, para) Sample.template (lit "李四")
            (lit "女") (lit "431") (lit "通信") (mk_datetime 2025 7 1)
            (mk_datetime 2025 7 31) = (doc', None)) as Hcall
    by (vm_compute; reflexivity).
  destruct (X10_single_marker_any_request (λ para _, para) Sample.template
              doc' (lit "李四") (lit "女") (lit "431") (lit "通信")
              (mk_datetime 2025 7 1) (mk_datetime 2025 7 31) 3 2
              Sample.issue_para [] []) as (para' & Hpara & Htext).
  - lia.
  - reflexivity.
  - reflexivity.
  - vm_compute. reflexivity.
  - exact Hcall.
  - exists doc', para'. done.
Defined.

(** ** Orchestrator *)

(** X11: the path a certificate is saved under determines the student:
    different names give different paths.  The path is
    [用工证明生成文件/<name>.doc], except that a name beginning with a slash
    makes [os.path.join] drop the folder, leaving [<name>.doc]. *)
Theorem X11_output_paths :
  (∀ n m, output_path n = output_path m → n = m)
  ∧ (∀ n, startswith n (lit "/") = false →
          output_path n = output_dir ++ lit "/" ++ n ++ lit ".doc")
  ∧ (∀ n, startswith n (lit "/") = true → output_path n = n ++ lit ".doc").
Proof.
  split; [apply output_path_inj|].
  assert (∀ n, startswith (n ++ lit ".doc") (lit "/")
               = startswith n (lit "/")) as Hhead.
  { intros [|c n]; [done|]. cbn [app startswith]. by rewrite !startswith_nil. }
  split; intros n H; unfold output_path, os_path_join; by rewrite Hhead, H.
Qed.

Section RunMore.

Lemma template_path_is_no_certificate n :
  Entry.template_path ≠ output_path n.
Proof.
  intros E. apply (f_equal last) in E.
  assert (∀ s, last (s ++ lit ".doc") = Some 99%N) as Hdoc.
  { intros s. change (lit ".doc") with ([46; 100; 111] ++ [99])%N.
    by rewrite app_assoc, last_snoc. }
  destruct (output_path_cases n) as [[Hn _]|Hn]; rewrite Hn in E.
  - by rewrite Hdoc in E.
  - by rewrite !app_assoc, Hdoc in E.
Qed.

End RunMore.

(** X12: a run that returns has written certificate files only.  Paths
    being compared as written, this is about direct paths: when the
    certificate path of every roster name with a directory entry is direct,
    a direct path that is none of these holds after the run what it held
    before, or nothing if it held nothing: the name list, the table and the
    template are not modified unless one of them sits at a certificate
    path. *)
Theorem X12_run_writes_certificates_only (rng : nat → nat)
    (repr_list : list str → str) (repr_info : StudentRecord → str)
    (env : Env)
    (w w' : World) (name_list_path student_info_path template_path : str)
    (names : list str) (student_info : gmap str StudentRecord) :
  read_name_list name_list_path w = Ok (names, w) →
  read_student_info student_info_path w = Ok (student_info, w) →
  process_certificates rng repr_list repr_info env
    name_list_path student_info_path template_path w
  = Ok (tt, w') →
  (∀ name, name ∈ names → is_Some (student_info !! name) →
           direct (output_path name) = true) →
  ∀ path,
    direct path = true →
    (∀ name, name ∈ names → is_Some (student_info !! name) →
             path ≠ output_path name) →
    files w' !! path = files w !! path.
Proof.
  intros Hnames Hdir Hrun Hdirect.
  destruct (process_certificates_loop rng repr_list repr_info env w _ _
              template_path _ _ Hnames Hdir)
    as (header & _ & _ & Hloop).
  rewrite Hloop in Hrun.
  destruct (for_each_names_inv _ _ _ _ _ _ _ _ _ _ Hdirect Hrun)
    as (chunks & _ & _ & _ & _ & _ & Hframe & _).
  intros path _ Hpath. rewrite Hframe; [done|].
  intros n [Hn Hsome]%matched_names_spec. by apply Hpath.
Qed.

Lemma X12_run_writes_certificates_only_witness :
  ∃ w',
    process_certificates (λ k, k) (λ names, concat names) (λ _, [])
      Sample.env
      Sample.names_path Sample.sheet_path Sample.template_path Sample.world
    = Ok (tt, w')
    ∧ files w' !! Sample.sheet_path = Some (ExcelFile Sample.sheet).
Proof.
  eexists. split; [vm_compute; reflexivity|].
  etransitivity.
  - apply (X12_run_writes_certificates_only (λ k, k) (λ names, concat names)
             (λ _, []) Sample.env
             Sample.world _
             Sample.names_path Sample.sheet_path Sample.template_path
             [lit "张三"; lit "王五"; lit "李四"]
             (fold_left add_row Sample.sheet ∅)).
    + vm_compute. reflexivity.
    + vm_compute. reflexivity.
    + vm_compute. reflexivity.
    + intros name Hin _. apply list_elem_of_In in Hin. cbn [In] in Hin.
      destruct Hin as [<-|[<-|[<-|[]]]]; vm_compute; reflexivity.
    + vm_compute. reflexivity.
    + intros name Hin _. apply list_elem_of_In in Hin. cbn [In] in Hin.
      destruct Hin as [<-|[<-|[<-|[]]]]; vm_compute; discriminate.
  - vm_compute. reflexivity.
Defined.

(** X13: when the template does not sit at a certificate path, the
    template path and the certificate paths are direct and the run returns,
    the certificate of every roster name with a directory entry is the
    document the filler leaves of the template as given, called without an
    exception with that name, the record the directory holds under it, a
    join date that is a working day among 1-15 July 2025 and an issue date
    that is a working day among 16-31 July 2025; so the join date always
    precedes the issue date. *)
Theorem X13_certificate_contents (rng : nat → nat)
    (repr_list : list str → str) (repr_info : StudentRecord → str)
    (env : Env)
    (w w' : World) (name_list_path student_info_path template_path : str)
    (names : list str) (student_info : gmap str StudentRecord)
    (template : Document) :
  read_name_list name_list_path w = Ok (names, w) →
  read_student_info student_info_path w = Ok (student_info, w) →
  files w !! template_path = Some (DocxFile template) →
  direct template_path = true →
  (∀ name, template_path ≠ output_path name) →
  (∀ name, name ∈ names → is_Some (student_info !! name) →
           direct (output_path name) = true) →
  process_certificates rng repr_list repr_info env
    name_list_path student_info_path template_path w
  = Ok (tt, w') →
  ∀ name info,
    name ∈ names → student_info !! name = Some info →
    ∃ join_date issue_date doc,
      replace_placeholders (env_torn env) template name (info_gender info)
        (info_id_card info) (info_major info) join_date issue_date
      = (doc, None)
      ∧ files w' !! output_path name = Some (DocxFile doc)
      ∧ (year join_date = 2025 ∧ month join_date = 7
         ∧ 1 ≤ day join_date ≤ 15 ∧ 0 ≤ weekday join_date ≤ 4)%Z
      ∧ (year issue_date = 2025 ∧ month issue_date = 7
         ∧ 16 ≤ day issue_date ≤ 31 ∧ 0 ≤ weekday issue_date ≤ 4)%Z
      ∧ (toordinal join_date < toordinal issue_date)%Z.
Proof.
  intros Hnames Hdir Htpl _ Hsafe Hdirect Hrun.
  destruct (process_certificates_loop rng repr_list repr_info env w _ _
              template_path _ _ Hnames Hdir)
    as (header & _ & _ & Hloop).
  rewrite Hloop in Hrun.
  destruct (for_each_names_inv _ _ _ _ _ _ _ _ _ _ Hdirect Hrun)
    as (chunks & _ & _ & _ & _ & _ & _ & _ & _ & Hcontent).
  intros name info Hname Hinfo.
  destruct (Hcontent template Htpl (λ n _, Hsafe n) name info Hname Hinfo)
    as (jd & isd & doc & Hjd & Hisd & Hfill & Hfile).
  exists jd, isd, doc. split; [done|]. split; [done|].
  apply pool_member in Hjd, Hisd.
  destruct Hjd as (Hy & Hm & Hd & Hw), Hisd as (Hy' & Hm' & Hd' & Hw').
  split; [lia|]. split; [lia|].
  destruct jd as [y m d], isd as [y' m' d']. cbn [year month day] in *.
  subst. rewrite !toordinal_july. lia.
Qed.

Lemma X13_certificate_contents_witness :
  ∃ w',
    process_certificates (λ k, k) (λ names, concat names) (λ _, [])
      Sample.env
      Entry.name_list_path Entry.student_info_path Entry.template_path
      Sample.world
    = Ok (tt, w')
    ∧ ∀ name info,
        name ∈ [lit "张三"; lit "王五"; lit "李四"] →
        fold_left add_row Sample.sheet ∅ !! name = Some info →
        ∃ join_date issue_date doc,
          replace_placeholders (env_torn Sample.env) Sample.template name
            (info_gender info) (info_id_card info) (info_major info)
            join_date issue_date
          = (doc, None)
          ∧ files w' !! output_path name = Some (DocxFile doc)
          ∧ (year join_date = 2025 ∧ month join_date = 7
             ∧ 1 ≤ day join_date ≤ 15 ∧ 0 ≤ weekday join_date ≤ 4)%Z
          ∧ (year issue_date = 2025 ∧ month issue_date = 7
             ∧ 16 ≤ day issue_date ≤ 31 ∧ 0 ≤ weekday issue_date ≤ 4)%Z
          ∧ (toordinal join_date < toordinal issue_date)%Z.
Proof.
  eexists. split; [vm_compute; reflexivity|].
  apply (X13_certificate_contents (λ k, k) (λ names, concat names) (λ _, [])
           Sample.env Sample.world _
           Entry.name_list_path Entry.student_info_path Entry.template_path).
  - vm_compute. reflexivity.
  - vm_compute. reflexivity.
  - vm_compute. reflexivity.
  - vm_compute. reflexivity.
  - apply template_path_is_no_certificate.
  - intros name Hin _. apply list_elem_of_In in Hin. cbn [In] in Hin.
    destruct Hin as [<-|[<-|[<-|[]]]]; vm_compute; reflexivity.
  - vm_compute. reflexivity.
Defined.

(** X14: a run that returns has drawn from the random source exactly
    twice for every roster entry that has a directory entry (join date,
    then issue date) and never for an entry that has none. *)
Theorem X14_two_draws_per_certificate (rng : nat → nat)
    (repr_list : list str → str) (repr_info : StudentRecord → str)
    (env : Env)
    (w w' : World) (name_list_path student_info_path template_path : str)
    (names : list str) (student_info : gmap str StudentRecord) :
  read_name_list name_list_path w = Ok (names, w) →
  read_student_info student_info_path w = Ok (student_info, w) →
  process_certificates rng repr_list repr_info env
    name_list_path student_info_path template_path w
  = Ok (tt, w') →
  draws w'
  = (draws w
     + 2 * length
             (List.filter
                (λ name, bool_decide (is_Some (student_info !! name)))
                names))%nat.
Proof.
  intros Hnames Hdir Hrun.
  destruct (process_certificates_loop rng repr_list repr_info env w _ _
              template_path _ _ Hnames Hdir)
    as (header & _ & _ & Hloop).
  rewrite Hloop in Hrun.
  by rewrite (for_each_names_draws _ _ _ _ _ _ _ _ _ _ Hrun).
Qed.

Lemma X14_two_draws_per_certificate_witness :
  ∃ w',
    process_certificates (λ k, k) (λ names, concat names) (λ _, [])
      Sample.env
      Sample.names_path Sample.sheet_path Sample.template_path Sample.world
    = Ok (tt, w')
    ∧ draws w' = 4%nat.
Proof.
  eexists. split; [vm_compute; reflexivity|].
  etransitivity.
  - apply (X14_two_draws_per_certificate (λ k, k) (λ names, concat names)
             (λ _, []) Sample.env
             Sample.world _
             Sample.names_path Sample.sheet_path Sample.template_path
             [lit "张三"; lit "王五"; lit "李四"]
             (fold_left add_row Sample.sheet ∅)).
    + vm_compute. reflexivity.
    + vm_compute. reflexivity.
    + vm_compute. reflexivity.
  - vm_compute. reflexivity.
Defined.

(** X15: in a run that returns and whose certificate paths are direct, the
    output folder is created, and its creation announced, exactly once, and
    only when it is needed: when nothing exists at its path before the run
    and some roster entry has a directory entry.  Otherwise no folder is
    created and nothing is announced. *)
Theorem X15_output_folder_created_once (rng : nat → nat)
    (repr_list : list str → str) (repr_info : StudentRecord → str)
    (env : Env)
    (w w' : World) (name_list_path student_info_path template_path : str)
    (names : list str) (student_info : gmap str StudentRecord) :
  read_name_list name_list_path w = Ok (names, w) →
  read_student_info student_info_path w = Ok (student_info, w) →
  (∀ name, name ∈ names → is_Some (student_info !! name) →
           direct (output_path name) = true) →
  process_certificates rng repr_list repr_info env
    name_list_path student_info_path template_path w
  = Ok (tt, w') →
  ∃ printed : list str,
    stdout w' = stdout w ++ printed
    ∧ let needed :=
        negb (bool_decide (matched_names student_info names = [])
              || exists_in w output_dir) in
      count (lit "已创建子文件夹：" ++ output_dir) printed
      = (if needed then 1 else 0)%nat
      ∧ dirs w' = (if needed then {[output_dir]} ∪ dirs w else dirs w).
Proof.
  intros Hnames Hdir Hdirect Hrun.
  destruct (process_certificates_loop rng repr_list repr_info env w _ _
              template_path _ _ Hnames Hdir)
    as (header & _ & Hheader & Hloop).
  rewrite Hloop in Hrun.
  destruct (for_each_names_inv _ _ _ _ _ _ _ _ _ _ Hdirect Hrun)
    as (chunks & Hout & _ & Hcount & Hdirs & _).
  exists (header ++ concat chunks).
  split; [rewrite Hout; cbn [stdout]; by rewrite app_assoc|].
  cbn zeta. split.
  - fold folder_created. rewrite count_app, Hheader. exact Hcount.
  - exact Hdirs.
Qed.

Lemma X15_output_folder_created_once_witness :
  ∃ w' printed,
    process_certificates (λ k, k) (λ names, concat names) (λ _, [])
      Sample.env
      Sample.names_path Sample.sheet_path Sample.template_path Sample.world
    = Ok (tt, w')
    ∧ stdout w' = stdout Sample.world ++ printed
    ∧ count (lit "已创建子文件夹：" ++ output_dir) printed = 1%nat
    ∧ dirs w' = {[output_dir]} ∪ dirs Sample.world.
Proof.
  pose (run :=
          process_certificates (λ k, k) (λ names, concat names) (λ _, [])
            Sample.env
            Sample.names_path Sample.sheet_path Sample.template_path
            Sample.world).
  pose (w' := match run with Ok (_, w') => w' | Raise _ => Sample.world end).
  assert (run = Ok (tt, w')) as Hrun by (vm_compute; reflexivity).
  destruct (X15_output_folder_created_once (λ k, k) (λ names, concat names)
              (λ _, []) Sample.env Sample.world w'
              Sample.names_path Sample.sheet_path Sample.template_path
              [lit "张三"; lit "王五"; lit "李四"]
              (fold_left add_row Sample.sheet ∅))
    as (printed & Hout & Hcount & Hdirs).
  - vm_compute. reflexivity.
  - vm_compute. reflexivity.
  - intros name Hin _. apply list_elem_of_In in Hin. cbn [In] in Hin.
    destruct Hin as [<-|[<-|[<-|[]]]]; vm_compute; reflexivity.
  - exact Hrun.
  - exists w', printed. split; [exact Hrun|].
    split; [exact Hout|]. split.
    + rewrite Hcount. vm_compute. reflexivity.
    + rewrite Hdirs. vm_compute. reflexivity.
Defined.

(** X16: the template is opened only for a roster entry that has a
    directory entry.  When no roster name has one, the run needs no
    template at all: it prints its three header lines and one warning per
    roster line, in roster order, and leaves files, folders and the random
    source untouched. *)
Theorem X16_no_match_needs_no_template (rng : nat → nat)
    (repr_list : list str → str) (repr_info : StudentRecord → str)
    (env : Env)
    (w : World) (name_list_path student_info_path template_path : str)
    (content : str) (df : list Row)
    (names : list str) (student_info : gmap str StudentRecord) :
  files w !! name_list_path = Some (TextFile content) →
  files w !! student_info_path = Some (ExcelFile df) →
  read_name_list name_list_path w = Ok (names, w) →
  read_student_info student_info_path w = Ok (student_info, w) →
  (∀ name, name ∈ names → student_info !! name = None) →
  ∃ line1 line2 line3,
    process_certificates rng repr_list repr_info env
      name_list_path student_info_path template_path w
    = Ok (tt, mk_world
                (stdout w ++ [line1; line2; line3] ++ map warning names)
                (files w) (dirs w) (draws w)).
Proof.
  intros Hnames Hsheet Hread Hdir Hnone.
  rewrite (read_name_list_ok _ _ _ Hnames) in Hread. injection Hread as <-.
  rewrite (read_student_info_ok _ _ _ Hsheet) in Hdir. injection Hdir as <-.
  eexists _, _, _. unfold process_certificates.
  rewrite (bind_ok _ _ _ _ _ (read_name_list_ok _ _ _ Hnames)).
  erewrite bind_ok by reflexivity.
  erewrite bind_ok by (by apply read_student_info_ok).
  erewrite bind_ok by (unfold lift; rewrite get_workdays_filter; reflexivity).
  cbv beta iota.
  erewrite bind_ok by reflexivity.
  erewrite bind_ok by reflexivity.
  rewrite for_each_names_unmatched.
  - cbn [stdout files dirs draws]. by rewrite <- !app_assoc.
  - unfold matched_names.
    induction (roster_of content) as [|n ns IH]; [done|].
    cbn [List.filter]. rewrite (Hnone n) by (by left).
    rewrite (bool_decide_eq_false_2 (is_Some None)) by (by intros [? ?]).
    apply IH. intros name Hname. apply Hnone. by right.
Qed.

Lemma X16_no_match_needs_no_template_witness :
  let w :=
    mk_world []
      (<[Sample.names_path := TextFile (lit "王五")]>
         (<[Sample.sheet_path := ExcelFile Sample.sheet]> ∅)) ∅ 0 in
  ∃ line1 line2 line3,
    process_certificates (λ k, k) (λ names, concat names) (λ _, [])
      Sample.env
      Sample.names_path Sample.sheet_path Sample.template_path w
    = Ok (tt, mk_world
                (stdout w ++ [line1; line2; line3]
                 ++ map warning [lit "王五"])
                (files w) (dirs w) (draws w)).
Proof.
  intros w.
  apply (X16_no_match_needs_no_template (λ k, k) (λ names, concat names)
           (λ _, []) Sample.env w Sample.names_path
           Sample.sheet_path Sample.template_path (lit "王五") Sample.sheet
           [lit "王五"] (fold_left add_row Sample.sheet ∅)).
  - vm_compute. reflexivity.
  - vm_compute. reflexivity.
  - vm_compute. reflexivity.
  - vm_compute. reflexivity.
  - intros name ->%list_elem_of_singleton. vm_compute. reflexivity.
Defined.

(** X17: with nothing at the template path, neither file nor folder, the
    run raises the library's [PackageNotFoundError] as soon as the roster
    has a name with a directory entry. *)
Theorem X17_missing_template_raises (rng : nat → nat)
    (repr_list : list str → str) (repr_info : StudentRecord → str)
    (env : Env)
    (w : World) (name_list_path student_info_path template_path : str)
    (names : list str) (student_info : gmap str StudentRecord) (name : str) :
  exists_in w template_path = false →
  read_name_list name_list_path w = Ok (names, w) →
  read_student_info student_info_path w = Ok (student_info, w) →
  name ∈ names → is_Some (student_info !! name) →
  process_certificates rng repr_list repr_info env
    name_list_path student_info_path template_path w
  = Raise PackageNotFoundError.
Proof.
  intros Htpl Hnames Hdir Hname Hsome.
  destruct (process_certificates_loop rng repr_list repr_info env
              w _ _ template_path _ _ Hnames Hdir) as (header & _ & _ & Hrun).
  destruct pools_nonempty as [Hfh Hsh].
  rewrite Hrun. apply for_each_names_no_template; try done.
  intros Hnil.
  assert (name ∈ matched_names student_info names) as Hin
    by (by apply matched_names_spec).
  rewrite Hnil in Hin. by apply not_elem_of_nil in Hin.
Qed.

Lemma X17_missing_template_raises_witness :
  let w :=
    mk_world []
      (<[Sample.names_path := TextFile Sample.names_txt]>
         (<[Sample.sheet_path := ExcelFile Sample.sheet]> ∅)) ∅ 0 in
  process_certificates (λ k, k) (λ names, concat names) (λ _, [])
    Sample.env
    Sample.names_path Sample.sheet_path Sample.template_path w
  = Raise PackageNotFoundError.
Proof.
  intros w.
  apply (X17_missing_template_raises (λ k, k) (λ names, concat names)
           (λ _, []) Sample.env w Sample.names_path
           Sample.sheet_path Sample.template_path
           [lit "张三"; lit "王五"; lit "李四"]
           (fold_left add_row Sample.sheet ∅) (lit "李四")).
  - vm_compute. reflexivity.
  - vm_compute. reflexivity.
  - vm_compute. reflexivity.
  - apply list_elem_of_In. vm_compute. tauto.
  - vm_compute. eauto.
Defined.

(** ** Entry point *)

Section MainMore.

Variable rng : nat → nat.
Variable repr_list : list str → str.
Variable repr_info : StudentRecord → str.
Variable env : Env.

Lemma main_cases w :
  Entry.main rng repr_list repr_info env w
  = if negb (exists_in w Entry.name_list_path)
    then print (Entry.missing Entry.name_list_path) w
    else if negb (exists_in w Entry.student_info_path)
    then print (Entry.missing Entry.student_info_path) w
    else if negb (exists_in w Entry.template_path)
    then print (Entry.missing Entry.template_path) w
    else process_certificates rng repr_list repr_info env
           Entry.name_list_path Entry.student_info_path Entry.template_path w.
Proof.
  unfold Entry.main, mbind, M_bind, os_path_exists, exists_in.
  repeat (match goal with
          | |- context [if negb ?c then _ else _] => destruct c
          end; cbn [negb]; try done).
Qed.

End MainMore.

(** X18: when an input is missing, the script never gets to
    [process_certificates]: it prints one line, the error naming the first
    missing input in the order name list, table, template, and does nothing
    else, while [process_certificates] called without a name list would
    raise [FileNotFoundError]. *)
Theorem X18_main_reports_first_missing_input (rng : nat → nat)
    (repr_list : list str → str) (repr_info : StudentRecord → str)
    (env : Env)
    (w : World) (present : list str) (path : str) (later : list str) :
  present ++ path :: later
  = [Entry.name_list_path; Entry.student_info_path; Entry.template_path] →
  Forall (λ p, exists_in w p = true) present →
  exists_in w path = false →
  Entry.main rng repr_list repr_info env w
  = Ok (tt, mk_world (stdout w ++ [lit "错误：找不到文件 " ++ path])
              (files w) (dirs w) (draws w))
  ∧ (present = [] →
     process_certificates rng repr_list repr_info env
       Entry.name_list_path Entry.student_info_path Entry.template_path w
     = Raise FileNotFoundError).
Proof.
  intros Hpaths Hpresent Hmissing. split.
  - rewrite main_cases.
    destruct present as [|p1 [|p2 [|p3 present]]];
      injection Hpaths as -> ->; subst;
      repeat match goal with
             | H : Forall _ (_ :: _) |- _ =>
                 apply Forall_cons in H as [? H]
             end;
      repeat match goal with
             | H : exists_in w _ = _ |- _ => rewrite H
             end; try done.
    by destruct present.
  - intros ->. injection Hpaths as -> _.
    unfold exists_in in Hmissing.
    apply orb_false_iff in Hmissing as [Hfolder Hfile].
    apply bool_decide_eq_false in Hfile.
    unfold process_certificates, read_name_list, mbind, M_bind, open_read.
    destruct (files w !! Entry.name_list_path) eqn:E;
      [|by rewrite Hfolder].
    destruct Hfile. eauto.
Qed.

Lemma X18_main_reports_first_missing_input_witness :
  let w :=
    mk_world [] {[ Entry.name_list_path := TextFile Sample.names_txt ]} ∅ 0 in
  Entry.main (λ k, k) (λ names, concat names) (λ _, []) Sample.env w
  = Ok (tt, mk_world
              (stdout w ++ [lit "错误：找不到文件 " ++ Entry.student_info_path])
              (files w) (dirs w) (draws w)).
Proof.
  intros w.
  apply (X18_main_reports_first_missing_input (λ k, k) (λ names, concat names)
           (λ _, []) Sample.env w [Entry.name_list_path]
           Entry.student_info_path [Entry.template_path]).
  - reflexivity.
  - repeat constructor.
  - vm_compute. reflexivity.
Defined.

(** X19: with a name list, a table and a well-formed template at the three
    fixed paths, the script runs to the end without raising whenever every
    roster name with a directory entry can be given its certificate: the
    name and the record's fields are text XML can hold, the output folder
    is there or may be created, and the certificate can be saved under its
    path, which is direct.  Afterwards every such name has its certificate,
    which is the document the filler leaves of the template for that name,
    the record the directory holds under it, a join date among the working
    days of 1-15 July 2025 and an issue date among those of 16-31 July
    2025; every file under a direct path that is not such a certificate, the
    three inputs included, is as it was. *)
Theorem X19_main_end_to_end (rng : nat → nat)
    (repr_list : list str → str) (repr_info : StudentRecord → str)
    (env : Env)
    (w : World) (names : list str) (student_info : gmap str StudentRecord)
    (template : Document) :
  read_name_list Entry.name_list_path w = Ok (names, w) →
  read_student_info Entry.student_info_path w = Ok (student_info, w) →
  files w !! Entry.template_path = Some (DocxFile template) →
  well_formed template = true →
  (∀ name info, name ∈ names → student_info !! name = Some info →
     can_produce env w name info = true) →
  ∃ w' : World,
    Entry.main rng repr_list repr_info env w = Ok (tt, w')
    ∧ (∀ name info,
         name ∈ names → student_info !! name = Some info →
         ∃ join_date issue_date doc,
           replace_placeholders (env_torn env) template name (info_gender info)
             (info_id_card info) (info_major info) join_date issue_date
           = (doc, None)
           ∧ files w' !! output_path name = Some (DocxFile doc)
           ∧ (year join_date = 2025 ∧ month join_date = 7
              ∧ 1 ≤ day join_date ≤ 15 ∧ 0 ≤ weekday join_date ≤ 4)%Z
           ∧ (year issue_date = 2025 ∧ month issue_date = 7
              ∧ 16 ≤ day issue_date ≤ 31 ∧ 0 ≤ weekday issue_date ≤ 4)%Z)
    ∧ (∀ path,
         direct path = true →
         (∀ name, name ∈ names → is_Some (student_info !! name) →
                  path ≠ output_path name) →
         files w' !! path = files w !! path)
    ∧ files w' !! Entry.template_path = Some (DocxFile template).
Proof.
  intros Hnames Hdir Htpl Hwf Hcan.
  assert (∀ p f, files w !! p = Some f → exists_in w p = true) as Hex.
  { intros p f Hp. unfold exists_in.
    rewrite (bool_decide_eq_true_2 (is_Some _)) by eauto. apply orb_true_r. }
  destruct (read_name_list_inv _ _ _ _ Hnames) as (content & Hfile1 & _ & _).
  destruct (read_student_info_inv _ _ _ _ Hdir) as (df & Hfile2 & _ & _).
  rewrite main_cases.
  rewrite (Hex _ _ Hfile1), (Hex _ _ Hfile2), (Hex _ _ Htpl). cbn [negb].
  destruct (process_certificates_loop rng repr_list repr_info env
              w _ _ Entry.template_path _ _ Hnames Hdir)
    as (header & _ & _ & Hrun).
  destruct pools_nonempty as [Hfh Hsh].
  match type of Hrun with _ = for_each _ _ ?x => set (w0 := x) in * end.
  destruct (for_each_names_ok rng repr_info env student_info
              _ _ Entry.template_path names w0 Hfh Hsh) as [w' Hloop].
  { intros n info Hn Hinfo. split; [by exists template|]. by apply Hcan. }
  assert (∀ n, n ∈ names → is_Some (student_info !! n) →
               direct (output_path n) = true) as Hdirect.
  { intros n Hn [info Hinfo].
    by apply (can_produce_direct env w n info), Hcan. }
  destruct (for_each_names_inv _ _ _ _ _ _ _ _ _ _ Hdirect Hloop)
    as (chunks & _ & _ & _ & _ & _ & Hframe & _ & _ & Hcontent).
  exists w'. split; [by rewrite Hrun|].
  split; [|split].
  - intros name info Hname Hinfo.
    destruct (Hcontent template Htpl
                (λ n _, template_path_is_no_certificate n) name info
                Hname Hinfo) as (jd & isd & doc & Hjd & Hisd & Hfill & Hfile).
    exists jd, isd, doc. split; [done|]. split; [done|].
    apply pool_member in Hjd, Hisd. lia.
  - intros path _ Hpath. rewrite Hframe; [done|].
    intros n [Hn Hsome]%matched_names_spec. by apply Hpath.
  - rewrite Hframe; [done|]. intros n _. apply template_path_is_no_certificate.
Qed.

Lemma X19_main_end_to_end_witness :
  ∃ w' : World,
    Entry.main (λ k, k) (λ names, concat names) (λ _, []) Sample.env
      Sample.world = Ok (tt, w')
    ∧ (∃ doc, files w' !! output_path (lit "李四") = Some (DocxFile doc))
    ∧ files w' !! Entry.template_path = Some (DocxFile Sample.template).
Proof.
  destruct (X19_main_end_to_end (λ k, k) (λ names, concat names) (λ _, [])
              Sample.env Sample.world
              [lit "张三"; lit "王五"; lit "李四"]
              (fold_left add_row Sample.sheet ∅) Sample.template)
    as (w' & Hrun & Hcontent & _ & Htemplate).
  - vm_compute. reflexivity.
  - vm_compute. reflexivity.
  - vm_compute. reflexivity.
  - vm_compute. reflexivity.
  - intros name info Hin Hinfo.
    apply list_elem_of_In in Hin. cbn [In] in Hin.
    destruct Hin as [<-|[<-|[<-|[]]]]; vm_compute in Hinfo;
      try discriminate; injection Hinfo as <-; vm_compute; reflexivity.
  - exists w'. split; [done|]. split; [|done].
    destruct (Hcontent (lit "李四") (mk_info (lit "女") (lit "431") (lit "通信")))
      as (jd & isd & doc & _ & Hfile & _).
    + apply list_elem_of_In. cbn. tauto.
    + vm_compute. reflexivity.
    + by exists doc.
Defined.
